(** * Driver Safety Monitor: the services layer, embedded and verified

    A shallow embedding of the service modules of the dashboard
    (statsService, alertService, eventService, realtimeService) together
    with the document shapes of [types/driver.ts].

    Conventions of the embedding:
    - a Firestore collection is a finite map from document id to document;
      the realtime database node [driverStatus] is a finite map from driver
      id to a JSON object (itself a finite map from field name to value);
    - an [async] function that writes becomes a function from the store to
      the store; a call the SDK can reject (a write to a missing document, a
      query with a limit that is not positive) returns a [result];
    - the clock ([Date.now()], [Timestamp.now()]) and the ids the SDK
      generates ([addDoc]) are arguments;
    - counts are [nat], durations (whole seconds) are [Z], and
      [Math.round(a / b)] on such integers is [Math_round_div]; a
      duration that is no whole number (a fraction, NaN, an infinity) is
      outside the embedding;
      the trend of [getDashboardMetrics] divides and then multiplies, so it
      is computed on IEEE doubles ([float]) exactly as JavaScript does. *)

From Stdlib Require Import ZArith Lia Floats Uint63 Ascii String.
From stdpp Require Import gmap strings list sorting.

Local Open Scope Z_scope.

(** ** JavaScript built-ins used by the services *)

Module JS.

(** [Math.round(a / b)] for integers [a] and [b > 0]: the nearest
    integer, a tie going up.  On integers below 2^52 the double quotient
    is close enough to the exact one for the two to round alike. *)
Definition Math_round_div (a b : Z) : Z := (2 * a + b) / (2 * b).

(** A JavaScript number that holds an integer, as a double. *)
Definition number_of_Z (z : Z) : float :=
  if z <? 0 then PrimFloat.opp (PrimFloat.of_uint63 (Uint63.of_Z (- z)))
  else PrimFloat.of_uint63 (Uint63.of_Z z).

(** [Math.round(x)] on a double: the integral double closest to [x], a
    tie going towards +infinity; NaN and the infinities are returned as
    they are, and a result of zero keeps the sign of [x]. *)
Definition Math_round (x : float) : float :=
  match Prim2SF x with
  | S754_finite s m e =>
      if 0 <=? e then x
      else
        let d := 2 ^ (- e) in
        let n := (2 * (if s then - Z.pos m else Z.pos m) + d) / (2 * d) in
        if n =? 0 then (if s then PrimFloat.opp 0%float else 0%float)
        else number_of_Z n
  | _ => x
  end.

(** Digits of [Number.prototype.toString(36)] followed by
    [toUpperCase()], most significant first. *)
Definition digit36 (d : N) : ascii :=
  if (d <? 10)%N then ascii_of_N (48 + d) else ascii_of_N (55 + d).

Fixpoint toString36_go (fuel : nat) (n : N) (acc : string) : string :=
  match fuel with
  | O => acc
  | S fuel' =>
      let acc' := String (digit36 (n mod 36)) acc in
      if (n / 36 =? 0)%N then acc' else toString36_go fuel' (n / 36) acc'
  end.

Definition toString36Upper (n : N) : string :=
  toString36_go (S (N.to_nat (N.log2 n))) n EmptyString.

(** [Number.MAX_SAFE_INTEGER] and [Number.isSafeInteger(x)]: the whole
    numbers a double counts exactly.  A number that passes is neither NaN
    nor an infinity nor a fraction. *)
Definition MAX_SAFE_INTEGER : Z := 2 ^ 53 - 1.

Definition isSafeInteger (x : Z) : Prop := - MAX_SAFE_INTEGER ≤ x ≤ MAX_SAFE_INTEGER.

End JS.

(** ** Document shapes ([types/driver.ts]) *)

Inductive DriverStatus := ds_alert | ds_drowsy | ds_sleeping.
Inductive Severity := low | medium | high.
Inductive LiveDriverStatus := live_alert | live_drowsy | live_sleeping | live_offline.
Inductive AlertType :=
  drowsiness_detected | high_severity | system_warning | driver_offline.
Inductive AlertPriority := p_low | p_medium | p_high | p_critical.

#[global] Instance Severity_eq_dec : EqDecision Severity.
Proof. solve_decision. Defined.
#[global] Instance AlertPriority_eq_dec : EqDecision AlertPriority.
Proof. solve_decision. Defined.
#[global] Instance LiveDriverStatus_eq_dec : EqDecision LiveDriverStatus.
Proof. solve_decision. Defined.

(** A JavaScript [Date], as milliseconds since the epoch. *)
Definition Date := Z.

Module Timestamp.
Record t := mk { seconds : Z; nanoseconds : Z }.

(** [toDate()] is [new Date(this.toMillis())], and [toMillis()] is
    [seconds * 1000 + nanoseconds / 1e6]: the [Date] drops the fraction of
    a millisecond, towards zero. *)
Definition toDate (ts : t) : Date :=
  Z.quot (seconds ts * 1000000000 + nanoseconds ts) 1000000.
(** [fromDate(date)]: whole seconds, the rest of the milliseconds as
    nanoseconds. *)
Definition fromDate (d : Date) : t :=
  {| seconds := d / 1000; nanoseconds := (d mod 1000) * 1000000 |}.
End Timestamp.

Record GeoPoint := { latitude : float; longitude : float }.

Module DrowsinessEventDoc.
Record t := mk {
  eventId : string;
  driverId : string;
  driverName : string;
  startTime : Timestamp.t;
  endTime : option Timestamp.t;
  duration : option Z;
  driverStatus : DriverStatus;
  severity : Severity;
  resolved : bool;
  resolvedAt : option Timestamp.t;
  resolvedBy : option string;
  notes : string;
  location : option GeoPoint;
  createdAt : Timestamp.t
}.
End DrowsinessEventDoc.

Module AlertDoc.
Record t := mk {
  alertId : string;
  type : AlertType;
  priority : AlertPriority;
  driverId : string;
  driverName : string;
  eventId : option string;
  message : string;
  acknowledged : bool;
  acknowledgedAt : option Timestamp.t;
  acknowledgedBy : option string;
  createdAt : Timestamp.t
}.
End AlertDoc.

Module DailyStatsDoc.
Record t := mk {
  date : string;
  totalEvents : nat;
  highSeverityEvents : nat;
  mediumSeverityEvents : nat;
  lowSeverityEvents : nat;
  totalDrowsinessDuration : Z;
  averageDuration : Z;
  activeDrivers : nat;
  peakHour : nat;
  eventsByHour : gmap nat nat;
  updatedAt : Timestamp.t
}.
End DailyStatsDoc.

Module DriverStatsDoc.
Record t := mk {
  driverId : string;
  driverName : string;
  totalEvents : nat;
  totalDrowsinessTime : Z;
  averageEventDuration : Z;
  highSeverityCount : nat;
  mediumSeverityCount : nat;
  lowSeverityCount : nat;
  lastEventTime : option Timestamp.t;
  riskScore : Z;
  updatedAt : Timestamp.t
}.
End DriverStatsDoc.

(** ** The document store: one finite map per collection *)

Record Firestore := mkFirestore {
  drowsinessEvents : gmap string DrowsinessEventDoc.t;
  alerts : gmap string AlertDoc.t;
  dailyStats : gmap string DailyStatsDoc.t;
  driverStats : gmap string DriverStatsDoc.t
}.

Definition emptyFirestore : Firestore :=
  {| drowsinessEvents := ∅; alerts := ∅; dailyStats := ∅; driverStats := ∅ |}.

Definition with_drowsinessEvents (f : gmap string DrowsinessEventDoc.t → gmap string DrowsinessEventDoc.t)
    (db : Firestore) : Firestore :=
  {| drowsinessEvents := f (drowsinessEvents db); alerts := alerts db;
     dailyStats := dailyStats db; driverStats := driverStats db |}.

Definition with_alerts (f : gmap string AlertDoc.t → gmap string AlertDoc.t)
    (db : Firestore) : Firestore :=
  {| drowsinessEvents := drowsinessEvents db; alerts := f (alerts db);
     dailyStats := dailyStats db; driverStats := driverStats db |}.

Definition with_dailyStats (f : gmap string DailyStatsDoc.t → gmap string DailyStatsDoc.t)
    (db : Firestore) : Firestore :=
  {| drowsinessEvents := drowsinessEvents db; alerts := alerts db;
     dailyStats := f (dailyStats db); driverStats := driverStats db |}.

Definition with_driverStats (f : gmap string DriverStatsDoc.t → gmap string DriverStatsDoc.t)
    (db : Firestore) : Firestore :=
  {| drowsinessEvents := drowsinessEvents db; alerts := alerts db;
     dailyStats := dailyStats db; driverStats := f (driverStats db) |}.

(** What the SDK answers to a call it refuses: a write to a document that
    does not exist, or an argument it does not accept. *)
Inductive FirestoreError :=
  | not_found (collection docId : string)
  | invalid_argument (function : string).

Inductive result (A : Type) := Ok (a : A) | Err (e : FirestoreError).
Arguments Ok {A} a.
Arguments Err {A} e.

#[global] Instance result_fmap : FMap result :=
  λ A B f r, match r with Ok a => Ok (f a) | Err e => Err e end.

(** [limit(n)] in a query: the first [n] documents.  The SDK refuses a
    limit that is not positive when the constraint is built, before
    anything is read. *)
Definition limit {A : Type} (n : nat) (docs : list A) : result (list A) :=
  match n with
  | O => Err (invalid_argument "limit")
  | S _ => Ok (take n docs)
  end.

(** [snapshot.docs.map((d) => d.data())]. *)
Definition docs_data {D : Type} (docs : list (string * D)) : list D := snd <$> docs.

(** [Array.prototype.sort(cmp)]: a stable sort, [cmp a b > 0] putting [a]
    after [b]. *)
Section ArraySort.
Context {A : Type} (cmp : A → A → Z).

Fixpoint sort_insert (x : A) (l : list A) : list A :=
  match l with
  | [] => [x]
  | y :: l' => if 0 <? cmp x y then y :: sort_insert x l' else x :: l
  end.

Definition Array_sort (l : list A) : list A := foldr sort_insert [] l.
End ArraySort.

(** ** statsService: pre-computed aggregations *)

Module DashboardMetrics.
Record t := mk {
  totalEvents : nat;
  highSeverityEvents : nat;
  avgDuration : Z;
  activeDrivers : nat;
  totalDrivers : nat;
  unresolvedEvents : nat;
  trendPercentage : float
}.
End DashboardMetrics.

(** [Object.entries(o)] of an object whose keys are array indices: the
    keys in ascending numeric order, each with its value. *)
Definition Object_keys (o : gmap nat nat) : list nat :=
  merge_sort Nat.le (elements (dom o)).

Definition Object_entries (o : gmap nat nat) : list (nat * nat) :=
  omap (λ k, (λ c, (k, c)) <$> o !! k) (Object_keys o).

(** The accumulator of the [reduce] that finds the peak hour. *)
Record PeakAcc := mkPeak { hour : nat; count : nat }.

Definition peakStep (max : PeakAcc) (entry : nat * nat) : PeakAcc :=
  let '(h, c) := entry in
  if (count max <? c)%nat then {| hour := h; count := c |} else max.

(** The local variables of [computeDailyStats] that its loop updates. *)
Record DailyLoop := mkDailyLoop {
  l_eventsByHour : gmap nat nat;
  l_totalDuration : Z;
  l_highCount : nat;
  l_mediumCount : nat;
  l_lowCount : nat;
  l_driverSet : gset string
}.

Section StatsService.

(** The host's clock and calendar: the offset of local time from UTC at
    an instant (milliseconds), [d.toISOString().split('T')[0]], and the
    date that [d.setDate(d.getDate() - 1)] leaves in [d]. *)
Variable localOffsetMs : Date → Z.
Variable toISODate : Date → string.
Variable previousDay : Date → Date.

(** [Date.prototype.getHours()]: the hour of the day in local time. *)
Definition getHours (d : Date) : nat :=
  Z.to_nat (((d + localOffsetMs d) / 3600000) mod 24).

(** [getDailyStats(date)]: the document keyed by [date], or null. *)
Definition getDailyStats (date : string) (db : Firestore) : option DailyStatsDoc.t :=
  dailyStats db !! date.

Definition eventsByHour_init : gmap nat nat :=
  foldl (λ o h, <[h := 0%nat]> o) ∅ (seq 0 24).

Definition dailyLoop_init : DailyLoop :=
  {| l_eventsByHour := eventsByHour_init; l_totalDuration := 0;
     l_highCount := 0; l_mediumCount := 0; l_lowCount := 0;
     l_driverSet := ∅ |}.

(** One iteration of [for (const event of events)]. *)
Definition dailyLoop_body (st : DailyLoop) (event : DrowsinessEventDoc.t) : DailyLoop :=
  let hour := getHours (Timestamp.toDate (DrowsinessEventDoc.startTime event)) in
  {| l_eventsByHour :=
       <[hour := (default 0%nat (l_eventsByHour st !! hour) + 1)%nat]> (l_eventsByHour st);
     l_totalDuration :=
       l_totalDuration st + default 0 (DrowsinessEventDoc.duration event);
     l_highCount :=
       match DrowsinessEventDoc.severity event with
       | high => S (l_highCount st) | _ => l_highCount st end;
     l_mediumCount :=
       match DrowsinessEventDoc.severity event with
       | medium => S (l_mediumCount st) | _ => l_mediumCount st end;
     l_lowCount :=
       match DrowsinessEventDoc.severity event with
       | high | medium => l_lowCount st | _ => S (l_lowCount st) end;
     l_driverSet := {[ DrowsinessEventDoc.driverId event ]} ∪ l_driverSet st |}.

Definition dailyLoop (events : list DrowsinessEventDoc.t) : DailyLoop :=
  foldl dailyLoop_body dailyLoop_init events.

Definition peakHourOf (eventsByHour : gmap nat nat) : nat :=
  hour (foldl peakStep {| hour := 0; count := 0 |} (Object_entries eventsByHour)).

(** [computeDailyStats(date, events)]: the document it builds. *)
Definition dailyStatsOf (now : Timestamp.t) (date : string)
    (events : list DrowsinessEventDoc.t) : DailyStatsDoc.t :=
  let st := dailyLoop events in
  {| DailyStatsDoc.date := date;
     DailyStatsDoc.totalEvents := length events;
     DailyStatsDoc.highSeverityEvents := l_highCount st;
     DailyStatsDoc.mediumSeverityEvents := l_mediumCount st;
     DailyStatsDoc.lowSeverityEvents := l_lowCount st;
     DailyStatsDoc.totalDrowsinessDuration := l_totalDuration st;
     DailyStatsDoc.averageDuration :=
       if (0 <? length events)%nat
       then JS.Math_round_div (l_totalDuration st) (Z.of_nat (length events))
       else 0;
     DailyStatsDoc.activeDrivers := size (l_driverSet st);
     DailyStatsDoc.peakHour := peakHourOf (l_eventsByHour st);
     DailyStatsDoc.eventsByHour := l_eventsByHour st;
     DailyStatsDoc.updatedAt := now |}.

(** [computeDailyStats]: [setDoc] overwrites the document keyed by [date]. *)
Definition computeDailyStats (now : Timestamp.t) (date : string)
    (events : list DrowsinessEventDoc.t) (db : Firestore) : Firestore :=
  with_dailyStats (insert date (dailyStatsOf now date events)) db.

(** The four lines of the risk score calculation (0-100). *)
Definition riskScoreOf (eventCount highCount mediumCount : nat) (totalDuration : Z) : Z :=
  let eventScore := Z.min (Z.of_nat eventCount * 5) 40 in
  let severityScore := Z.min (Z.of_nat highCount * 15 + Z.of_nat mediumCount * 5) 40 in
  let durationScore := Z.min (JS.Math_round_div totalDuration 60) 20 in
  Z.min (eventScore + severityScore + durationScore) 100.

(** [computeDriverStats(driverId, driverName, events)]: the document it
    builds. *)
Definition driverStatsOf (now : Timestamp.t) (driverId driverName : string)
    (events : list DrowsinessEventDoc.t) : DriverStatsDoc.t :=
  let driverEvents := filter (λ e, DrowsinessEventDoc.driverId e = driverId) events in
  let totalDuration :=
    foldl (λ sum e, sum + default 0 (DrowsinessEventDoc.duration e)) 0 driverEvents in
  let highCount := length (filter (λ e, DrowsinessEventDoc.severity e = high) driverEvents) in
  let mediumCount := length (filter (λ e, DrowsinessEventDoc.severity e = medium) driverEvents) in
  let lowCount := length (filter (λ e, DrowsinessEventDoc.severity e = low) driverEvents) in
  let riskScore := riskScoreOf (length driverEvents) highCount mediumCount totalDuration in
  let lastEvent :=
    head (Array_sort
            (λ a b, Timestamp.toDate (DrowsinessEventDoc.startTime b)
                    - Timestamp.toDate (DrowsinessEventDoc.startTime a))
            driverEvents) in
  {| DriverStatsDoc.driverId := driverId;
     DriverStatsDoc.driverName := driverName;
     DriverStatsDoc.totalEvents := length driverEvents;
     DriverStatsDoc.totalDrowsinessTime := totalDuration;
     DriverStatsDoc.averageEventDuration :=
       if (0 <? length driverEvents)%nat
       then JS.Math_round_div totalDuration (Z.of_nat (length driverEvents))
       else 0;
     DriverStatsDoc.highSeverityCount := highCount;
     DriverStatsDoc.mediumSeverityCount := mediumCount;
     DriverStatsDoc.lowSeverityCount := lowCount;
     DriverStatsDoc.lastEventTime := DrowsinessEventDoc.startTime <$> lastEvent;
     DriverStatsDoc.riskScore := riskScore;
     DriverStatsDoc.updatedAt := now |}.

(** [computeDriverStats]: [setDoc] overwrites the document keyed by
    [driverId]. *)
Definition computeDriverStats (now : Timestamp.t) (driverId driverName : string)
    (events : list DrowsinessEventDoc.t) (db : Firestore) : Firestore :=
  with_driverStats (insert driverId (driverStatsOf now driverId driverName events)) db.

(** [getDashboardMetrics()], called at instant [now]. *)
Definition getDashboardMetrics (now : Date) (db : Firestore) : DashboardMetrics.t :=
  let today := toISODate now in
  let todayStats := getDailyStats today db in
  let yesterday := previousDay now in
  let yesterdayStats := getDailyStats (toISODate yesterday) db in
  let totalEvents := default 0%nat (DailyStatsDoc.totalEvents <$> todayStats) in
  let yesterdayEvents := default 0%nat (DailyStatsDoc.totalEvents <$> yesterdayStats) in
  let trendPercentage :=
    if (0 <? yesterdayEvents)%nat
    then JS.Math_round
           (((JS.number_of_Z (Z.of_nat totalEvents) - JS.number_of_Z (Z.of_nat yesterdayEvents))
             / JS.number_of_Z (Z.of_nat yesterdayEvents)) * 100)%float
    else 0%float in
  {| DashboardMetrics.totalEvents := totalEvents;
     DashboardMetrics.highSeverityEvents :=
       default 0%nat (DailyStatsDoc.highSeverityEvents <$> todayStats);
     DashboardMetrics.avgDuration :=
       default 0 (DailyStatsDoc.averageDuration <$> todayStats);
     DashboardMetrics.activeDrivers :=
       default 0%nat (DailyStatsDoc.activeDrivers <$> todayStats);
     DashboardMetrics.totalDrivers := 0;
     DashboardMetrics.unresolvedEvents := 0;
     DashboardMetrics.trendPercentage := trendPercentage |}.

End StatsService.

(** ** alertService: system-wide alerting *)

Module CreateAlertData.
Record t := mk {
  type : AlertType;
  priority : AlertPriority;
  driverId : string;
  driverName : string;
  eventId : option string;
  message : string
}.
End CreateAlertData.

Module AlertFromEventData.
Record t := mk {
  driverId : string;
  driverName : string;
  eventId : string;
  severity : Severity;
  driverStatus : string
}.
End AlertFromEventData.

(** Firestore's order on timestamps, and on document ids. *)
Definition Timestamp_leb (a b : Timestamp.t) : bool :=
  (Timestamp.seconds a <? Timestamp.seconds b)
  || ((Timestamp.seconds a =? Timestamp.seconds b)
      && (Timestamp.nanoseconds a <=? Timestamp.nanoseconds b)).

Definition Timestamp_eqb (a b : Timestamp.t) : bool :=
  (Timestamp.seconds a =? Timestamp.seconds b)
  && (Timestamp.nanoseconds a =? Timestamp.nanoseconds b).

(** [orderBy('createdAt', 'desc')]: newest first, documents created at the
    same instant by descending document id. *)
Definition createdAt_desc (x y : string * AlertDoc.t) : Prop :=
  (if Timestamp_eqb (AlertDoc.createdAt x.2) (AlertDoc.createdAt y.2)
   then String.leb y.1 x.1
   else Timestamp_leb (AlertDoc.createdAt y.2) (AlertDoc.createdAt x.2)) = true.

#[global] Instance createdAt_desc_dec : RelDecision createdAt_desc.
Proof. intros x y. unfold createdAt_desc. apply _. Defined.

Section AlertService.

(** [createAlert(data)]: [newId] is the document id [addDoc] generates,
    [now] the clock (milliseconds).  The checks the SDK makes on the
    values it is given to write are outside the model. *)
Definition createAlert (now : Date) (newId : string) (data : CreateAlertData.t)
    (db : Firestore) : string * Firestore :=
  let alertId := ("ALT" +:+ JS.toString36Upper (Z.to_N now))%string in
  let alertDoc :=
    {| AlertDoc.alertId := alertId;
       AlertDoc.type := CreateAlertData.type data;
       AlertDoc.priority := CreateAlertData.priority data;
       AlertDoc.driverId := CreateAlertData.driverId data;
       AlertDoc.driverName := CreateAlertData.driverName data;
       AlertDoc.eventId := CreateAlertData.eventId data;
       AlertDoc.message := CreateAlertData.message data;
       AlertDoc.acknowledged := false;
       AlertDoc.acknowledgedAt := None;
       AlertDoc.acknowledgedBy := None;
       AlertDoc.createdAt := Timestamp.fromDate now |} in
  (newId, with_alerts (insert newId alertDoc) db).

Definition priorityMap (severity : Severity) : AlertPriority :=
  match severity with
  | low => p_low
  | medium => p_medium
  | high => p_critical
  end.

(** The message template of [createAlertFromEvent]; text is held as its
    UTF-8 bytes. *)
Definition alertMessage (data : AlertFromEventData.t) : string :=
  match AlertFromEventData.severity data with
  | high =>
      "🚨 CRITICAL: Driver " +:+ AlertFromEventData.driverName data
      +:+ " detected " +:+ AlertFromEventData.driverStatus data
      +:+ ". Immediate action required."
  | medium =>
      "⚠️ WARNING: Driver " +:+ AlertFromEventData.driverName data
      +:+ " showing " +:+ AlertFromEventData.driverStatus data
      +:+ " signs."
  | low =>
      "ℹ️ INFO: Driver " +:+ AlertFromEventData.driverName data
      +:+ " had a brief " +:+ AlertFromEventData.driverStatus data
      +:+ " episode."
  end%string.

(** [createAlertFromEvent(data)]. *)
Definition createAlertFromEvent (now : Date) (newId : string)
    (data : AlertFromEventData.t) (db : Firestore) : string * Firestore :=
  let message := alertMessage data in
  createAlert now newId
    {| CreateAlertData.type :=
         match AlertFromEventData.severity data with
         | high => high_severity
         | _ => drowsiness_detected
         end;
       CreateAlertData.priority := priorityMap (AlertFromEventData.severity data);
       CreateAlertData.driverId := AlertFromEventData.driverId data;
       CreateAlertData.driverName := AlertFromEventData.driverName data;
       CreateAlertData.eventId := Some (AlertFromEventData.eventId data);
       CreateAlertData.message := message |}
    db.

(** [getUnacknowledgedAlerts(maxResults)]: the query
    [where('acknowledged', '==', false), orderBy('createdAt', 'desc'),
    limit(maxResults)], each snapshot mapped to its data. *)
Definition getUnacknowledgedAlerts (maxResults : nat) (db : Firestore)
    : result (list AlertDoc.t) :=
  docs_data <$> limit maxResults
    (merge_sort createdAt_desc
       (filter (λ d, AlertDoc.acknowledged d.2 = false) (map_to_list (alerts db)))).

(** [updateDoc(doc(db, COLLECTIONS.ALERTS, docId), fields)]: rejected
    when no document has that id. *)
Definition updateDoc_alerts (docId : string) (fields : AlertDoc.t → AlertDoc.t)
    (db : Firestore) : result Firestore :=
  match alerts db !! docId with
  | Some d => Ok (with_alerts (insert docId (fields d)) db)
  | None => Err (not_found "alerts" docId)
  end.

(** [acknowledgeAlert(docId, userId)]. *)
Definition acknowledgeAlert (now : Timestamp.t) (docId userId : string)
    (db : Firestore) : result Firestore :=
  updateDoc_alerts docId
    (λ d, {| AlertDoc.alertId := AlertDoc.alertId d;
             AlertDoc.type := AlertDoc.type d;
             AlertDoc.priority := AlertDoc.priority d;
             AlertDoc.driverId := AlertDoc.driverId d;
             AlertDoc.driverName := AlertDoc.driverName d;
             AlertDoc.eventId := AlertDoc.eventId d;
             AlertDoc.message := AlertDoc.message d;
             AlertDoc.acknowledged := true;
             AlertDoc.acknowledgedAt := Some now;
             AlertDoc.acknowledgedBy := Some userId;
             AlertDoc.createdAt := AlertDoc.createdAt d |})
    db.

(** [await Promise.all(promises)] over writes that were all issued: each
    one is applied or rejected on its own, and the first rejection, if
    any, is what the caller receives. *)
Fixpoint Promise_all (promises : list (Firestore → result Firestore))
    (db : Firestore) : Firestore * result unit :=
  match promises with
  | [] => (db, Ok tt)
  | p :: rest =>
      match p db with
      | Ok db' => Promise_all rest db'
      | Err e => (fst (Promise_all rest db), Err e)
      end
  end.

(** [acknowledgeAllAlerts(userId)]. *)
Definition acknowledgeAllAlerts (now : Timestamp.t) (userId : string)
    (db : Firestore) : Firestore * result unit :=
  match getUnacknowledgedAlerts 500 db with
  | Ok unacknowledged =>
      let promises :=
        map (λ alert, acknowledgeAlert now (AlertDoc.alertId alert) userId) unacknowledged in
      Promise_all promises db
  | Err e => (db, Err e)
  end.

End AlertService.

(** ** eventService: drowsiness events *)

Module CreateEventData.
Record t := mk {
  driverId : string;
  driverName : string;
  driverStatus : DriverStatus;
  severity : Severity;
  startTime : option Date;
  duration : option Z;
  endTime : option Date;
  notes : option string;
  location : option GeoPoint
}.
End CreateEventData.

Section EventService.

(** [createEvent(data)]: [now] is the clock, [newId] the document id
    that [addDoc] generates. *)
Definition createEvent (now : Date) (newId : string) (data : CreateEventData.t)
    (db : Firestore) : string * Firestore :=
  let now' := Timestamp.fromDate now in
  let eventId := ("EVT" +:+ JS.toString36Upper (Z.to_N now))%string in
  let eventDoc :=
    {| DrowsinessEventDoc.eventId := eventId;
       DrowsinessEventDoc.driverId := CreateEventData.driverId data;
       DrowsinessEventDoc.driverName := CreateEventData.driverName data;
       DrowsinessEventDoc.startTime :=
         match CreateEventData.startTime data with
         | Some d => Timestamp.fromDate d
         | None => now'
         end;
       DrowsinessEventDoc.endTime :=
         match CreateEventData.endTime data with
         | Some d => Some (Timestamp.fromDate d)
         | None => None
         end;
       DrowsinessEventDoc.duration :=
         match CreateEventData.duration data with
         | Some n => Some n
         | None => None
         end;
       DrowsinessEventDoc.driverStatus := CreateEventData.driverStatus data;
       DrowsinessEventDoc.severity := CreateEventData.severity data;
       DrowsinessEventDoc.resolved := false;
       DrowsinessEventDoc.resolvedAt := None;
       DrowsinessEventDoc.resolvedBy := None;
       DrowsinessEventDoc.notes := default EmptyString (CreateEventData.notes data);
       DrowsinessEventDoc.location := CreateEventData.location data;
       DrowsinessEventDoc.createdAt := now' |} in
  (newId, with_drowsinessEvents (insert newId eventDoc) db).

(** [updateDoc(doc(db, COLLECTIONS.DROWSINESS_EVENTS, docId), fields)]. *)
Definition updateDoc_drowsinessEvents (docId : string)
    (fields : DrowsinessEventDoc.t → DrowsinessEventDoc.t)
    (db : Firestore) : result Firestore :=
  match drowsinessEvents db !! docId with
  | Some d => Ok (with_drowsinessEvents (insert docId (fields d)) db)
  | None => Err (not_found "drowsinessEvents" docId)
  end.

(** [endEvent(docId, endTime, duration)]. *)
Definition endEvent (docId : string) (endTime : Date) (duration : Z)
    (db : Firestore) : result Firestore :=
  updateDoc_drowsinessEvents docId
    (λ d, {| DrowsinessEventDoc.eventId := DrowsinessEventDoc.eventId d;
             DrowsinessEventDoc.driverId := DrowsinessEventDoc.driverId d;
             DrowsinessEventDoc.driverName := DrowsinessEventDoc.driverName d;
             DrowsinessEventDoc.startTime := DrowsinessEventDoc.startTime d;
             DrowsinessEventDoc.endTime := Some (Timestamp.fromDate endTime);
             DrowsinessEventDoc.duration := Some duration;
             DrowsinessEventDoc.driverStatus := DrowsinessEventDoc.driverStatus d;
             DrowsinessEventDoc.severity := DrowsinessEventDoc.severity d;
             DrowsinessEventDoc.resolved := DrowsinessEventDoc.resolved d;
             DrowsinessEventDoc.resolvedAt := DrowsinessEventDoc.resolvedAt d;
             DrowsinessEventDoc.resolvedBy := DrowsinessEventDoc.resolvedBy d;
             DrowsinessEventDoc.notes := DrowsinessEventDoc.notes d;
             DrowsinessEventDoc.location := DrowsinessEventDoc.location d;
             DrowsinessEventDoc.createdAt := DrowsinessEventDoc.createdAt d |})
    db.

End EventService.

(** ** realtimeService: live driver monitoring *)

(** A value stored under a field of a realtime-database object.  The
    database keeps no null: a field written as null is a field removed. *)
Inductive JsonValue := JString (s : string) | JNumber (n : Z).

(** The node [driverStatus]: driver id to the object stored under it. *)
Abbreviation RealtimeDb := (gmap string (gmap string JsonValue)).

(** The driver ids that name a child of the node.  The services address an
    entry by the path [driverStatus/${driverId}]: an id is the key of one
    child when it is not empty, holds no [/] (which would make the path
    longer), none of [.], [#], [$], the square brackets and no control
    character (which the SDK refuses), and is at most 755 bytes long (the
    path then stays within the 768 bytes the database accepts).  With any
    other id the path is not that of an entry, and the maps below do not
    describe what is written. *)
Definition validKeyChar (c : ascii) : bool :=
  let n := N_of_ascii c in
  negb ((n <? 32)%N || (n =? 127)%N
        || (n =? 46)%N || (n =? 35)%N || (n =? 36)%N
        || (n =? 91)%N || (n =? 93)%N || (n =? 47)%N).

Definition validKey (key : string) : Prop :=
  key ≠ EmptyString ∧ (String.length key ≤ 755)%nat
  ∧ forallb validKeyChar (list_ascii_of_string key) = true.

#[global] Instance validKey_dec key : Decision (validKey key).
Proof. unfold validKey. apply _. Defined.

Definition statusName (status : LiveDriverStatus) : string :=
  match status with
  | live_alert => "alert"
  | live_drowsy => "drowsy"
  | live_sleeping => "sleeping"
  | live_offline => "offline"
  end.

(** [update(ref, fields)]: each listed field is written (removed when
    null), every other field of the object stays. *)
Definition rtdb_update (fields : list (string * option JsonValue))
    (obj : gmap string JsonValue) : gmap string JsonValue :=
  foldl (λ o kv, match kv.2 with
                 | Some v => <[kv.1 := v]> o
                 | None => delete kv.1 o
                 end) obj fields.

Section RealtimeService.

(** [setDriverLiveStatus(driverId, driverName, status)]: [set] replaces
    the whole object; [now] is what [Date.now()] reads for [lastUpdated]
    and [started] what it reads next, for [sessionStart]. *)
Definition setDriverLiveStatus (now started : Z) (driverId driverName : string)
    (status : LiveDriverStatus) (db : RealtimeDb) : RealtimeDb :=
  let entry :=
    rtdb_update
      [("driverId", Some (JString driverId));
       ("driverName", Some (JString driverName));
       ("status", Some (JString (statusName status)));
       ("lastUpdated", Some (JNumber now));
       ("sessionStart",
        if decide (status ≠ live_offline) then Some (JNumber started) else None)]
      ∅ in
  <[driverId := entry]> db.

(** [updateDriverStatus(driverId, status)]. *)
Definition updateDriverStatus (now : Z) (driverId : string)
    (status : LiveDriverStatus) (db : RealtimeDb) : RealtimeDb :=
  <[driverId :=
      rtdb_update
        [("status", Some (JString (statusName status)));
         ("lastUpdated", Some (JNumber now))]
        (default ∅ (db !! driverId))]> db.

(** [removeDriverFromLive(driverId)]. *)
Definition removeDriverFromLive (now : Z) (driverId : string)
    (db : RealtimeDb) : RealtimeDb :=
  <[driverId :=
      rtdb_update
        [("status", Some (JString (statusName live_offline)));
         ("lastUpdated", Some (JNumber now));
         ("sessionStart", None)]
        (default ∅ (db !! driverId))]> db.

(** [getDriverLiveStatus(driverId)]. *)
Definition getDriverLiveStatus (driverId : string) (db : RealtimeDb)
    : option (gmap string JsonValue) :=
  db !! driverId.

End RealtimeService.

(** ** Queries over a collection *)

Section Query.
Context {D : Type}.

(** The order of [orderBy(field, 'desc')]: the larger field value first
    and, between documents with the same value, the larger document id
    first. *)
Definition orderByDesc {K : Type} (leb eqb : K → K → bool) (field : D → K)
    (x y : string * D) : Prop :=
  (if eqb (field x.2) (field y.2) then String.leb y.1 x.1
   else leb (field y.2) (field x.2)) = true.

#[global] Instance orderByDesc_dec {K : Type} (leb eqb : K → K → bool) (field : D → K) :
  RelDecision (orderByDesc leb eqb field).
Proof. intros x y. unfold orderByDesc. apply _. Defined.

(** [getDocs(query(ref, where(...), orderBy(...)))]: the snapshots of the
    documents that pass the filter, in the query's order. *)
Definition runQuery (order : relation (string * D)) `{!RelDecision order}
    (condition : D → Prop) `{!∀ d, Decision (condition d)}
    (collection : gmap string D) : list (string * D) :=
  merge_sort order (filter (λ x, condition x.2) (map_to_list collection)).

End Query.

(** ** statsService: the reads *)

Definition riskScore_desc : relation (string * DriverStatsDoc.t) :=
  orderByDesc Z.leb Z.eqb DriverStatsDoc.riskScore.

Section StatsReads.

Variable toISODate : Date → string.
(** The date that [d.setDate(d.getDate() - i)] leaves in [d]. *)
Variable daysAgo : nat → Date → Date.

(** [getRecentDailyStats(days)], called at instant [now]. *)
Definition getRecentDailyStats (days : nat) (now : Date) (db : Firestore)
    : list DailyStatsDoc.t :=
  let dates := (λ i, toISODate (daysAgo i now)) <$> seq 0 days in
  let results := (λ date, getDailyStats date db) <$> dates in
  omap id results.

(** [getDriverStats(driverId)]. *)
Definition getDriverStats (driverId : string) (db : Firestore) : option DriverStatsDoc.t :=
  driverStats db !! driverId.

(** [getAllDriverStats()]: highest risk first. *)
Definition getAllDriverStats (db : Firestore) : list DriverStatsDoc.t :=
  snd <$> runQuery riskScore_desc (λ _, True) (driverStats db).

(** [getTopRiskyDrivers(n)]. *)
Definition getTopRiskyDrivers (n : nat) (db : Firestore) : result (list DriverStatsDoc.t) :=
  docs_data <$> limit n (runQuery riskScore_desc (λ _, True) (driverStats db)).

End StatsReads.

(** ** alertService: the other reads *)

Section AlertReads.

(** [getAllAlerts(maxResults)]: most recent first. *)
Definition getAllAlerts (maxResults : nat) (db : Firestore) : result (list AlertDoc.t) :=
  docs_data <$> limit maxResults (runQuery createdAt_desc (λ _, True) (alerts db)).

(** [getCriticalAlerts()]: the unacknowledged alerts of priority
    critical, without a limit. *)
Definition getCriticalAlerts (db : Firestore) : list AlertDoc.t :=
  snd <$> runQuery createdAt_desc
            (λ a, AlertDoc.priority a = p_critical ∧ AlertDoc.acknowledged a = false)
            (alerts db).

(** [getAlertsByDriver(driverId, maxResults)]. *)
Definition getAlertsByDriver (driverId : string) (maxResults : nat) (db : Firestore)
    : result (list AlertDoc.t) :=
  docs_data <$> limit maxResults
                  (runQuery createdAt_desc (λ a, AlertDoc.driverId a = driverId) (alerts db)).

End AlertReads.

(** ** eventService: the reads and the other updates *)

(** The frontend's view of an event ([DrowsinessEvent]). *)
Module DrowsinessEvent.
Record t := mk {
  eventId : string;
  driverId : string;
  startTime : Date;
  endTime : option Date;
  duration : option Z;
  driverStatus : DriverStatus;
  severity : Severity
}.
End DrowsinessEvent.

(** [orderBy('startTime', 'desc')]. *)
Definition startTime_desc : relation (string * DrowsinessEventDoc.t) :=
  orderByDesc Timestamp_leb Timestamp_eqb DrowsinessEventDoc.startTime.

Section EventReads.

(** [getEventById(docId)]. *)
Definition getEventById (docId : string) (db : Firestore) : option DrowsinessEventDoc.t :=
  drowsinessEvents db !! docId.

(** [getAllEvents(maxResults)]. *)
Definition getAllEvents (maxResults : nat) (db : Firestore)
    : result (list DrowsinessEventDoc.t) :=
  docs_data <$> limit maxResults (runQuery startTime_desc (λ _, True) (drowsinessEvents db)).

(** [getEventsPaginated(pageSize, lastDoc)]: [lastDoc] is the snapshot
    (document id and data) that ended the page before; [startAfter] keeps
    the documents that come after it in the query's order. *)
Definition getEventsPaginated (pageSize : nat)
    (lastDoc : option (string * DrowsinessEventDoc.t)) (db : Firestore)
    : result (list DrowsinessEventDoc.t * option (string * DrowsinessEventDoc.t)) :=
  let ordered := runQuery startTime_desc (λ _, True) (drowsinessEvents db) in
  let snapshot :=
    match lastDoc with
    | Some cursor => limit pageSize (filter (λ x, ¬ startTime_desc x cursor) ordered)
    | None => limit pageSize ordered
    end in
  (λ docs, (docs_data docs, last docs)) <$> snapshot.

(** [getEventsByDriver(driverId, maxResults)]. *)
Definition getEventsByDriver (driverId : string) (maxResults : nat) (db : Firestore)
    : result (list DrowsinessEventDoc.t) :=
  docs_data <$> limit maxResults
                  (runQuery startTime_desc (λ e, DrowsinessEventDoc.driverId e = driverId)
                     (drowsinessEvents db)).

(** [getEventsBySeverity(severity, maxResults)]. *)
Definition getEventsBySeverity (severity : Severity) (maxResults : nat) (db : Firestore)
    : result (list DrowsinessEventDoc.t) :=
  docs_data <$> limit maxResults
                  (runQuery startTime_desc (λ e, DrowsinessEventDoc.severity e = severity)
                     (drowsinessEvents db)).

(** [getEventsByTimeRange(start, end, maxResults)]. *)
Definition getEventsByTimeRange (start end_ : Date) (maxResults : nat) (db : Firestore)
    : result (list DrowsinessEventDoc.t) :=
  docs_data <$> limit maxResults
                  (runQuery startTime_desc
                     (λ e, Timestamp_leb (Timestamp.fromDate start)
                             (DrowsinessEventDoc.startTime e) = true
                           ∧ Timestamp_leb (DrowsinessEventDoc.startTime e)
                               (Timestamp.fromDate end_) = true)
                     (drowsinessEvents db)).

(** [getRecentEvents(hours)]: [now] is what [Date.now()] reads for the
    start of the window, [later] what [new Date()] reads next for its
    end. *)
Definition getRecentEvents (hours : Z) (now later : Date) (db : Firestore)
    : result (list DrowsinessEventDoc.t) :=
  let since := now - hours * 60 * 60 * 1000 in
  getEventsByTimeRange since later 200 db.

(** [getUnresolvedEvents(maxResults)]. *)
Definition getUnresolvedEvents (maxResults : nat) (db : Firestore)
    : result (list DrowsinessEventDoc.t) :=
  docs_data <$> limit maxResults
                  (runQuery startTime_desc (λ e, DrowsinessEventDoc.resolved e = false)
                     (drowsinessEvents db)).

(** [getCriticalEvents()]: high severity and unresolved, without a limit. *)
Definition getCriticalEvents (db : Firestore) : list DrowsinessEventDoc.t :=
  snd <$> runQuery startTime_desc
            (λ e, DrowsinessEventDoc.severity e = high
                  ∧ DrowsinessEventDoc.resolved e = false)
            (drowsinessEvents db).

(** [resolveEvent(docId, resolvedBy, notes)]: [notes] is written only
    when it is given. *)
Definition resolveEvent (now : Timestamp.t) (docId resolvedBy : string)
    (notes : option string) (db : Firestore) : result Firestore :=
  updateDoc_drowsinessEvents docId
    (λ d, {| DrowsinessEventDoc.eventId := DrowsinessEventDoc.eventId d;
             DrowsinessEventDoc.driverId := DrowsinessEventDoc.driverId d;
             DrowsinessEventDoc.driverName := DrowsinessEventDoc.driverName d;
             DrowsinessEventDoc.startTime := DrowsinessEventDoc.startTime d;
             DrowsinessEventDoc.endTime := DrowsinessEventDoc.endTime d;
             DrowsinessEventDoc.duration := DrowsinessEventDoc.duration d;
             DrowsinessEventDoc.driverStatus := DrowsinessEventDoc.driverStatus d;
             DrowsinessEventDoc.severity := DrowsinessEventDoc.severity d;
             DrowsinessEventDoc.resolved := true;
             DrowsinessEventDoc.resolvedAt := Some now;
             DrowsinessEventDoc.resolvedBy := Some resolvedBy;
             DrowsinessEventDoc.notes :=
               match notes with
               | Some n => n
               | None => DrowsinessEventDoc.notes d
               end;
             DrowsinessEventDoc.location := DrowsinessEventDoc.location d;
             DrowsinessEventDoc.createdAt := DrowsinessEventDoc.createdAt d |})
    db.

(** [updateEventNotes(docId, notes)]. *)
Definition updateEventNotes (docId notes : string) (db : Firestore) : result Firestore :=
  updateDoc_drowsinessEvents docId
    (λ d, {| DrowsinessEventDoc.eventId := DrowsinessEventDoc.eventId d;
             DrowsinessEventDoc.driverId := DrowsinessEventDoc.driverId d;
             DrowsinessEventDoc.driverName := DrowsinessEventDoc.driverName d;
             DrowsinessEventDoc.startTime := DrowsinessEventDoc.startTime d;
             DrowsinessEventDoc.endTime := DrowsinessEventDoc.endTime d;
             DrowsinessEventDoc.duration := DrowsinessEventDoc.duration d;
             DrowsinessEventDoc.driverStatus := DrowsinessEventDoc.driverStatus d;
             DrowsinessEventDoc.severity := DrowsinessEventDoc.severity d;
             DrowsinessEventDoc.resolved := DrowsinessEventDoc.resolved d;
             DrowsinessEventDoc.resolvedAt := DrowsinessEventDoc.resolvedAt d;
             DrowsinessEventDoc.resolvedBy := DrowsinessEventDoc.resolvedBy d;
             DrowsinessEventDoc.notes := notes;
             DrowsinessEventDoc.location := DrowsinessEventDoc.location d;
             DrowsinessEventDoc.createdAt := DrowsinessEventDoc.createdAt d |})
    db.

(** [toFrontendEvent(doc)]. *)
Definition toFrontendEvent (doc : DrowsinessEventDoc.t) : DrowsinessEvent.t :=
  {| DrowsinessEvent.eventId := DrowsinessEventDoc.eventId doc;
     DrowsinessEvent.driverId := DrowsinessEventDoc.driverId doc;
     DrowsinessEvent.startTime := Timestamp.toDate (DrowsinessEventDoc.startTime doc);
     DrowsinessEvent.endTime := Timestamp.toDate <$> DrowsinessEventDoc.endTime doc;
     DrowsinessEvent.duration := DrowsinessEventDoc.duration doc;
     DrowsinessEvent.driverStatus := DrowsinessEventDoc.driverStatus doc;
     DrowsinessEvent.severity := DrowsinessEventDoc.severity doc |}.

(** [toFrontendEvents(docs)]. *)
Definition toFrontendEvents (docs : list DrowsinessEventDoc.t) : list DrowsinessEvent.t :=
  toFrontendEvent <$> docs.

End EventReads.

(** The writes of eventService, as the steps of a history of the events
    collection.  A write the store rejects leaves it as it was. *)
Inductive EventOp :=
  | op_createEvent (now : Date) (newId : string) (data : CreateEventData.t)
  | op_resolveEvent (now : Timestamp.t) (docId resolvedBy : string) (notes : option string)
  | op_endEvent (docId : string) (endTime : Date) (duration : Z)
  | op_updateEventNotes (docId notes : string).

Definition keepOnError (r : result Firestore) (db : Firestore) : Firestore :=
  match r with
  | Ok db' => db'
  | Err _ => db
  end.

Definition applyEventOp (db : Firestore) (op : EventOp) : Firestore :=
  match op with
  | op_createEvent now newId data => (createEvent now newId data db).2
  | op_resolveEvent now docId resolvedBy notes =>
      keepOnError (resolveEvent now docId resolvedBy notes db) db
  | op_endEvent docId endTime duration =>
      keepOnError (endEvent docId endTime duration db) db
  | op_updateEventNotes docId notes =>
      keepOnError (updateEventNotes docId notes db) db
  end.

(** [addDoc] never reuses the id of a stored document. *)
Definition freshId (db : Firestore) (op : EventOp) : Prop :=
  match op with
  | op_createEvent _ newId _ => drowsinessEvents db !! newId = None
  | _ => True
  end.

(** A history in which every [createEvent] is given a fresh document id. *)
Fixpoint freshHistory (db : Firestore) (ops : list EventOp) : Prop :=
  match ops with
  | [] => True
  | op :: rest => freshId db op ∧ freshHistory (applyEventOp db op) rest
  end.

(** ** realtimeService: reading the statuses; live alerts *)

Section RealtimeReads.

(** The order in which the SDK lists the children of a node, as a test on
    their keys. *)
Variable keyLeb : string → string → bool.

Definition byKey (x y : string * gmap string JsonValue) : Prop := keyLeb x.1 y.1 = true.

#[global] Instance byKey_dec : RelDecision byKey.
Proof. intros x y. unfold byKey. apply _. Defined.


End RealtimeReads.

(** An alert pushed for immediate notification, as stored. *)
Module LiveAlert.
Record t := mk {
  driverId : string;
  driverName : string;
  message : string;
  severity : string;
  timestamp : Z;
  dismissed : bool
}.
End LiveAlert.

Module PushLiveAlertData.
Record t := mk {
  driverId : string;
  driverName : string;
  message : string;
  severity : string
}.
End PushLiveAlertData.

(** [pushLiveAlert(alert)]: the node [liveAlerts] maps the clock's reading
    at the push to the alert; [key] and [stamp] are the two readings of
    [Date.now()], in the order the code takes them. *)
Definition pushLiveAlert (key stamp : Z) (alert : PushLiveAlertData.t)
    (node : gmap Z LiveAlert.t) : gmap Z LiveAlert.t :=
  <[key := {| LiveAlert.driverId := PushLiveAlertData.driverId alert;
              LiveAlert.driverName := PushLiveAlertData.driverName alert;
              LiveAlert.message := PushLiveAlertData.message alert;
              LiveAlert.severity := PushLiveAlertData.severity alert;
              LiveAlert.timestamp := stamp;
              LiveAlert.dismissed := false |}]> node.

(** [clearLiveAlerts()]: [remove] on the node. *)
Definition clearLiveAlerts (node : gmap Z LiveAlert.t) : gmap Z LiveAlert.t := ∅.




(** ** The hooks: the merged driver view and the dashboard metrics *)

Module DriverDoc.
Record t := mk {
  driverId : string;
  driverName : string;
  age : Z;
  experience : Z;
  createdAt : Timestamp.t;
  updatedAt : Timestamp.t;
  isActive : bool;
  email : option string;
  phone : option string;
  licenseNumber : option string;
  vehicleId : option string;
  profileImageUrl : option string
}.
End DriverDoc.

Module DriverWithStatus.
Record t := mk {
  driverId : string;
  driverName : string;
  age : Z;
  experience : Z;
  currentStatus : JsonValue;
  lastEventTime : option Date;
  totalDrowsinessTime : Z;
  eventCount : nat
}.
End DriverWithStatus.

#[global] Instance JsonValue_eq_dec : EqDecision JsonValue.
Proof. solve_decision. Defined.

Section UseDrivers.

(** [new Date(s)] on a string. *)
Variable Date_parse : string → Date.

(** [liveStatus?.lastUpdated ? new Date(liveStatus.lastUpdated) : undefined]. *)
Definition lastEventTimeOf (liveStatus : option (gmap string JsonValue)) : option Date :=
  match liveStatus ≫= (λ s, s !! "lastUpdated") with
  | Some (JNumber n) => if n =? 0 then None else Some n
  | Some (JString s) => if decide (s = "") then None else Some (Date_parse s)
  | None => None
  end.

(** The merge of [useDrivers]: one [DriverWithStatus] per driver, from the
    first live status whose [driverId] is the driver's. *)
Definition driversWithStatus (drivers : list DriverDoc.t)
    (liveStatuses : list (gmap string JsonValue)) : list DriverWithStatus.t :=
  (λ driver,
     let liveStatus :=
       list_find (λ s, s !! "driverId" = Some (JString (DriverDoc.driverId driver)))
         liveStatuses in
     let liveStatus := snd <$> liveStatus in
     {| DriverWithStatus.driverId := DriverDoc.driverId driver;
        DriverWithStatus.driverName := DriverDoc.driverName driver;
        DriverWithStatus.age := DriverDoc.age driver;
        DriverWithStatus.experience := DriverDoc.experience driver;
        DriverWithStatus.currentStatus :=
          default (JString "offline") (liveStatus ≫= (λ s, s !! "status"));
        DriverWithStatus.lastEventTime := lastEventTimeOf liveStatus;
        DriverWithStatus.totalDrowsinessTime := 0;
        DriverWithStatus.eventCount := 0 |}) <$> drivers.

End UseDrivers.

Module HookMetrics.
Record t := mk {
  totalEvents : nat;
  highSeverityEvents : nat;
  avgDuration : Z;
  activeDrivers : nat;
  totalDrivers : nat;
  trendPercentage : Z;
  drowsyDriversCount : nat
}.
End HookMetrics.

(** The computation inside [useDashboardMetrics].  In the sum,
    [e.duration || 0] counts a duration that is absent or 0 as 0. *)
Definition useDashboardMetrics (events : list DrowsinessEvent.t)
    (driversWithStatus : list DriverWithStatus.t) : HookMetrics.t :=
  let totalEvents := length events in
  let highSeverityEvents :=
    length (filter (λ e, DrowsinessEvent.severity e = high) events) in
  let totalDuration :=
    foldl (λ acc e, acc + match DrowsinessEvent.duration e with
                          | Some n => if n =? 0 then 0 else n
                          | None => 0
                          end) 0 events in
  let avgDuration :=
    if (0 <? totalEvents)%nat
    then JS.Math_round_div totalDuration (Z.of_nat totalEvents) else 0 in
  let activeDrivers :=
    length (filter (λ d, DriverWithStatus.currentStatus d ≠ JString "offline")
              driversWithStatus) in
  let drowsyDriversCount :=
    length (filter (λ d, DriverWithStatus.currentStatus d = JString "drowsy"
                         ∨ DriverWithStatus.currentStatus d = JString "sleeping")
              driversWithStatus) in
  {| HookMetrics.totalEvents := totalEvents;
     HookMetrics.highSeverityEvents := highSeverityEvents;
     HookMetrics.avgDuration := avgDuration;
     HookMetrics.activeDrivers := activeDrivers;
     HookMetrics.totalDrivers := length driversWithStatus;
     HookMetrics.trendPercentage := -12;
     HookMetrics.drowsyDriversCount := drowsyDriversCount |}.

(** ** driverService: the drivers collection *)

(** The collection [drivers]: document id to driver document. *)
Abbreviation Drivers := (gmap string DriverDoc.t).

(** What [createDriver] is given: a driver document without its two
    timestamps.  [isActive] is [None] when the caller leaves it undefined. *)
Module CreateDriverData.
Record t := mk {
  driverId : string;
  driverName : string;
  age : Z;
  experience : Z;
  isActive : option bool;
  email : option string;
  phone : option string;
  licenseNumber : option string;
  vehicleId : option string;
  profileImageUrl : option string
}.
End CreateDriverData.

Module DriverFormData.
Record t := mk {
  driverName : string;
  age : Z;
  experience : Z;
  email : option string;
  phone : option string;
  licenseNumber : option string;
  vehicleId : option string
}.
End DriverFormData.

(** The fields [updateDriver] may be given: any field but [createdAt], each
    one present or not. *)
Module DriverUpdates.
Record t := mk {
  driverId : option string;
  driverName : option string;
  age : option Z;
  experience : option Z;
  updatedAt : option Timestamp.t;
  isActive : option bool;
  email : option string;
  phone : option string;
  licenseNumber : option string;
  vehicleId : option string;
  profileImageUrl : option string
}.
Definition none : t := mk None None None None None None None None None None None.
End DriverUpdates.

(** The frontend's [Driver]. *)
Module Driver.
Record t := mk {
  driverId : string;
  driverName : string;
  age : Z;
  experience : Z
}.
End Driver.

(** [orderBy('driverName', 'asc')]: by name and, between drivers of the
    same name, by document id; and the order of a query without
    [orderBy]: by document id. *)
Definition driverName_asc (x y : string * DriverDoc.t) : Prop :=
  (if String.eqb (DriverDoc.driverName x.2) (DriverDoc.driverName y.2)
   then String.leb x.1 y.1
   else String.leb (DriverDoc.driverName x.2) (DriverDoc.driverName y.2)) = true.

#[global] Instance driverName_asc_dec : RelDecision driverName_asc.
Proof. intros x y. unfold driverName_asc. apply _. Defined.

Definition docId_asc (x y : string * DriverDoc.t) : Prop := String.leb x.1 y.1 = true.

#[global] Instance docId_asc_dec : RelDecision docId_asc.
Proof. intros x y. unfold docId_asc. apply _. Defined.

Section DriverService.

(** [createDriver(driverData)]: [now] is the clock when the document is
    built, [written] the clock when the converter writes it, [newId] the
    id [addDoc] generates. *)
Definition createDriver (now written : Timestamp.t) (newId : string)
    (driverData : CreateDriverData.t) (drivers : Drivers) : string * Drivers :=
  let docData :=
    {| DriverDoc.driverId := CreateDriverData.driverId driverData;
       DriverDoc.driverName := CreateDriverData.driverName driverData;
       DriverDoc.age := CreateDriverData.age driverData;
       DriverDoc.experience := CreateDriverData.experience driverData;
       DriverDoc.createdAt := now;
       DriverDoc.updatedAt := now;
       DriverDoc.isActive := default true (CreateDriverData.isActive driverData);
       DriverDoc.email := CreateDriverData.email driverData;
       DriverDoc.phone := CreateDriverData.phone driverData;
       DriverDoc.licenseNumber := CreateDriverData.licenseNumber driverData;
       DriverDoc.vehicleId := CreateDriverData.vehicleId driverData;
       DriverDoc.profileImageUrl := CreateDriverData.profileImageUrl driverData |} in
  (* driverConverter.toFirestore *)
  let stored :=
    {| DriverDoc.driverId := DriverDoc.driverId docData;
       DriverDoc.driverName := DriverDoc.driverName docData;
       DriverDoc.age := DriverDoc.age docData;
       DriverDoc.experience := DriverDoc.experience docData;
       DriverDoc.createdAt := DriverDoc.createdAt docData;
       DriverDoc.updatedAt := written;
       DriverDoc.isActive := DriverDoc.isActive docData;
       DriverDoc.email := DriverDoc.email docData;
       DriverDoc.phone := DriverDoc.phone docData;
       DriverDoc.licenseNumber := DriverDoc.licenseNumber docData;
       DriverDoc.vehicleId := DriverDoc.vehicleId docData;
       DriverDoc.profileImageUrl := DriverDoc.profileImageUrl docData |} in
  (newId, <[newId := stored]> drivers).

(** [createDriverFromForm(data)]: [clock] is what [Date.now()] reads. *)
Definition createDriverFromForm (clock : Date) (now written : Timestamp.t) (newId : string)
    (data : DriverFormData.t) (drivers : Drivers) : string * Drivers :=
  let driverId := ("DRV" +:+ JS.toString36Upper (Z.to_N clock))%string in
  createDriver now written newId
    {| CreateDriverData.driverId := driverId;
       CreateDriverData.driverName := DriverFormData.driverName data;
       CreateDriverData.age := DriverFormData.age data;
       CreateDriverData.experience := DriverFormData.experience data;
       CreateDriverData.isActive := Some true;
       CreateDriverData.email := DriverFormData.email data;
       CreateDriverData.phone := DriverFormData.phone data;
       CreateDriverData.licenseNumber := DriverFormData.licenseNumber data;
       CreateDriverData.vehicleId := DriverFormData.vehicleId data;
       CreateDriverData.profileImageUrl := None |}
    drivers.

(** [getDriverById(docId)]. *)
Definition getDriverById (docId : string) (drivers : Drivers) : option DriverDoc.t :=
  drivers !! docId.

(** [getDriverByDriverId(driverId)]: the first document of the query
    [where('driverId', '==', driverId), limit(1)], or null. *)
Definition getDriverByDriverId (driverId : string) (drivers : Drivers)
    : option DriverDoc.t :=
  head (snd <$> take 1 (runQuery docId_asc (λ d, DriverDoc.driverId d = driverId) drivers)).

(** [getAllDrivers()]. *)
Definition getAllDrivers (drivers : Drivers) : list DriverDoc.t :=
  snd <$> runQuery driverName_asc (λ _, True) drivers.

(** [getActiveDrivers()]. *)
Definition getActiveDrivers (drivers : Drivers) : list DriverDoc.t :=
  snd <$> runQuery driverName_asc (λ d, DriverDoc.isActive d = true) drivers.

(** [updateDriver(docId, updates)]: the given fields and [updatedAt] are
    written; rejected when no document has that id. *)
Definition updateDriver (now : Timestamp.t) (docId : string) (updates : DriverUpdates.t)
    (drivers : Drivers) : result Drivers :=
  match drivers !! docId with
  | Some d =>
      Ok (<[docId :=
              {| DriverDoc.driverId :=
                   default (DriverDoc.driverId d) (DriverUpdates.driverId updates);
                 DriverDoc.driverName :=
                   default (DriverDoc.driverName d) (DriverUpdates.driverName updates);
                 DriverDoc.age := default (DriverDoc.age d) (DriverUpdates.age updates);
                 DriverDoc.experience :=
                   default (DriverDoc.experience d) (DriverUpdates.experience updates);
                 DriverDoc.createdAt := DriverDoc.createdAt d;
                 DriverDoc.updatedAt := now;
                 DriverDoc.isActive :=
                   default (DriverDoc.isActive d) (DriverUpdates.isActive updates);
                 DriverDoc.email :=
                   match DriverUpdates.email updates with
                   | Some v => Some v | None => DriverDoc.email d end;
                 DriverDoc.phone :=
                   match DriverUpdates.phone updates with
                   | Some v => Some v | None => DriverDoc.phone d end;
                 DriverDoc.licenseNumber :=
                   match DriverUpdates.licenseNumber updates with
                   | Some v => Some v | None => DriverDoc.licenseNumber d end;
                 DriverDoc.vehicleId :=
                   match DriverUpdates.vehicleId updates with
                   | Some v => Some v | None => DriverDoc.vehicleId d end;
                 DriverDoc.profileImageUrl :=
                   match DriverUpdates.profileImageUrl updates with
                   | Some v => Some v | None => DriverDoc.profileImageUrl d end |}]>
            drivers)
  | None => Err (not_found "drivers" docId)
  end.

(** [deactivateDriver(docId)] and [reactivateDriver(docId)]. *)
Definition setActive (active : bool) : DriverUpdates.t :=
  {| DriverUpdates.driverId := None; DriverUpdates.driverName := None;
     DriverUpdates.age := None; DriverUpdates.experience := None;
     DriverUpdates.updatedAt := None; DriverUpdates.isActive := Some active;
     DriverUpdates.email := None; DriverUpdates.phone := None;
     DriverUpdates.licenseNumber := None; DriverUpdates.vehicleId := None;
     DriverUpdates.profileImageUrl := None |}.

Definition deactivateDriver (now : Timestamp.t) (docId : string) (drivers : Drivers)
    : result Drivers :=
  updateDriver now docId (setActive false) drivers.

Definition reactivateDriver (now : Timestamp.t) (docId : string) (drivers : Drivers)
    : result Drivers :=
  updateDriver now docId (setActive true) drivers.

(** [deleteDriver(docId)]: [deleteDoc] is accepted whether or not the
    document exists. *)
Definition deleteDriver (docId : string) (drivers : Drivers) : Drivers :=
  delete docId drivers.

(** [toDriver(doc)]. *)
Definition toDriver (doc : DriverDoc.t) : Driver.t :=
  {| Driver.driverId := DriverDoc.driverId doc;
     Driver.driverName := DriverDoc.driverName doc;
     Driver.age := DriverDoc.age doc;
     Driver.experience := DriverDoc.experience doc |}.

(** [getDriverName(driverId)]. *)
Definition getDriverName (driverId : string) (drivers : Drivers) : string :=
  match getDriverByDriverId driverId drivers with
  | Some driver => DriverDoc.driverName driver
  | None => "Unknown Driver"
  end.

End DriverService.

(** ** The specification's reading of a batch *)

(** The four inputs of the risk score, counted in one pass over the events
    of the batch whose [driverId] matches. *)
Record RiskInputs := mkRiskInputs {
  eventCount : nat;
  highCount : nat;
  mediumCount : nat;
  totalDurationSeconds : Z
}.

Fixpoint riskInputs (driverId : string) (events : list DrowsinessEventDoc.t) : RiskInputs :=
  match events with
  | [] => {| eventCount := 0; highCount := 0; mediumCount := 0; totalDurationSeconds := 0 |}
  | e :: rest =>
      let r := riskInputs driverId rest in
      if decide (DrowsinessEventDoc.driverId e = driverId) then
        {| eventCount := S (eventCount r);
           highCount :=
             if decide (DrowsinessEventDoc.severity e = high)
             then S (highCount r) else highCount r;
           mediumCount :=
             if decide (DrowsinessEventDoc.severity e = medium)
             then S (mediumCount r) else mediumCount r;
           totalDurationSeconds :=
             match DrowsinessEventDoc.duration e with
             | Some s => s + totalDurationSeconds r
             | None => totalDurationSeconds r
             end |}
      else r
  end.

(** The risk score as the specification writes it. *)
Definition specRiskScore (r : RiskInputs) : Z :=
  Z.min (Z.min (Z.of_nat (eventCount r) * 5) 40
         + Z.min (Z.of_nat (highCount r) * 15 + Z.of_nat (mediumCount r) * 5) 40
         + Z.min (JS.Math_round_div (totalDurationSeconds r) 60) 20)
        100.

(** The fixed text of an alert message around the driver's name and status. *)
Definition messagePrefix (s : Severity) : string :=
  match s with
  | high => "🚨 CRITICAL: Driver "
  | medium => "⚠️ WARNING: Driver "
  | low => "ℹ️ INFO: Driver "
  end.

Definition messageMiddle (s : Severity) : string :=
  match s with
  | high => " detected "
  | medium => " showing "
  | low => " had a brief "
  end.

Definition messageSuffix (s : Severity) : string :=
  match s with
  | high => ". Immediate action required."
  | medium => " signs."
  | low => " episode."
  end.

(** An event document with the given driver, severity, duration and start,
    for the scenarios. *)
Definition sampleEvent (driverId : string) (severity : Severity)
    (duration : option Z) (start : Timestamp.t) : DrowsinessEventDoc.t :=
  {| DrowsinessEventDoc.eventId := "EVT";
     DrowsinessEventDoc.driverId := driverId;
     DrowsinessEventDoc.driverName := "";
     DrowsinessEventDoc.startTime := start;
     DrowsinessEventDoc.endTime := None;
     DrowsinessEventDoc.duration := duration;
     DrowsinessEventDoc.driverStatus := ds_drowsy;
     DrowsinessEventDoc.severity := severity;
     DrowsinessEventDoc.resolved := false;
     DrowsinessEventDoc.resolvedAt := None;
     DrowsinessEventDoc.resolvedBy := None;
     DrowsinessEventDoc.notes := "";
     DrowsinessEventDoc.location := None;
     DrowsinessEventDoc.createdAt := start |}.

(** What [getDashboardMetrics] reads: the totals of today's and of
    yesterday's document, 0 for a document that does not exist. *)
Definition todayEvents (toISODate : Date → string) (now : Date) (db : Firestore) : nat :=
  match getDailyStats (toISODate now) db with
  | Some s => DailyStatsDoc.totalEvents s
  | None => 0
  end.

Definition yesterdayEvents (toISODate : Date → string) (previousDay : Date → Date)
    (now : Date) (db : Firestore) : nat :=
  match getDailyStats (toISODate (previousDay now)) db with
  | Some s => DailyStatsDoc.totalEvents s
  | None => 0
  end.

(** The sum of the entries of a histogram. *)
Definition histogramTotal (o : gmap nat nat) : nat :=
  sum_list_with snd (map_to_list o).

(** [eventsByHour[hour] = (eventsByHour[hour] || 0) + 1]. *)
Definition bump (hour : nat) (o : gmap nat nat) : gmap nat nat :=
  <[hour := (default 0%nat (o !! hour) + 1)%nat]> o.

(** The number of events of the batch that start in local hour [h]. *)
Definition hourCount (localOffsetMs : Date → Z) (h : nat)
    (events : list DrowsinessEventDoc.t) : nat :=
  length (filter (λ e, getHours localOffsetMs
                         (Timestamp.toDate (DrowsinessEventDoc.startTime e)) = h) events).

(** The store after the seeder's first high-severity alert. *)
Definition oneAlertStore : Firestore :=
  (createAlertFromEvent 1730000000000 "k3JdP0aXqLm7"
     {| AlertFromEventData.driverId := "DRV001";
        AlertFromEventData.driverName := "John Mitchell";
        AlertFromEventData.eventId := "q8Zt1";
        AlertFromEventData.severity := high;
        AlertFromEventData.driverStatus := "sleeping" |}
     emptyFirestore).2.

(** A store in which a document's id is the [alertId] of the alerts: two
    unacknowledged alerts carrying [alertId] "ALT1", one stored under the
    generated id "k1", one under "ALT1". *)
Definition sampleAlert (alertId : string) : AlertDoc.t :=
  {| AlertDoc.alertId := alertId;
     AlertDoc.type := drowsiness_detected;
     AlertDoc.priority := p_medium;
     AlertDoc.driverId := "DRV002";
     AlertDoc.driverName := "Sarah Chen";
     AlertDoc.eventId := None;
     AlertDoc.message := "";
     AlertDoc.acknowledged := false;
     AlertDoc.acknowledgedAt := None;
     AlertDoc.acknowledgedBy := None;
     AlertDoc.createdAt := Timestamp.mk 1730000000 0 |}.

Definition aliasedAlertStore : Firestore :=
  with_alerts (λ _, <["k1" := sampleAlert "ALT1"]> (<["ALT1" := sampleAlert "ALT1"]> ∅))
    emptyFirestore.

(** ** Notions used in the statements *)

(** The events of a batch that belong to a driver. *)
Definition eventsOf (driverId : string) (events : list DrowsinessEventDoc.t) : list DrowsinessEventDoc.t :=
  filter (λ e, DrowsinessEventDoc.driverId e = driverId) events.

(** The sum of the durations of a batch, a null duration counting 0. *)
Definition totalDurationOf (events : list DrowsinessEventDoc.t) : Z :=
  foldr (λ e s, default 0 (DrowsinessEventDoc.duration e) + s) 0 events.

(** What [acknowledgeAlert] writes into a document. *)
Definition acknowledgedBy_at (now : Timestamp.t) (userId : string) (a : AlertDoc.t)
    : AlertDoc.t :=
  {| AlertDoc.alertId := AlertDoc.alertId a;
     AlertDoc.type := AlertDoc.type a;
     AlertDoc.priority := AlertDoc.priority a;
     AlertDoc.driverId := AlertDoc.driverId a;
     AlertDoc.driverName := AlertDoc.driverName a;
     AlertDoc.eventId := AlertDoc.eventId a;
     AlertDoc.message := AlertDoc.message a;
     AlertDoc.acknowledged := true;
     AlertDoc.acknowledgedAt := Some now;
     AlertDoc.acknowledgedBy := Some userId;
     AlertDoc.createdAt := AlertDoc.createdAt a |}.

(** The number of documents of a collection that pass a filter. *)
Definition countWhere {D : Type} (condition : D → Prop) `{!∀ d, Decision (condition d)}
    (m : gmap string D) : nat :=
  length (filter (λ x : string * D, condition x.2) (map_to_list m)).

(** The pairing of the resolution fields of an event. *)
Definition resolutionConsistent (e : DrowsinessEventDoc.t) : Prop :=
  (DrowsinessEventDoc.resolved e = true ↔ DrowsinessEventDoc.resolvedAt e ≠ None)
  ∧ (DrowsinessEventDoc.resolved e = true ↔ DrowsinessEventDoc.resolvedBy e ≠ None).

(** The fields of an event that say which event it is. *)
Definition eventIdentity (e : DrowsinessEventDoc.t) :=
  (DrowsinessEventDoc.eventId e, DrowsinessEventDoc.driverId e,
   DrowsinessEventDoc.driverName e, DrowsinessEventDoc.startTime e,
   DrowsinessEventDoc.driverStatus e, DrowsinessEventDoc.severity e,
   DrowsinessEventDoc.location e, DrowsinessEventDoc.createdAt e).



(** A run of [pushLiveAlert] calls, each with its two clock readings. *)
Definition pushLiveAlerts (pushes : list (Z * Z * PushLiveAlertData.t))
    (node : gmap Z LiveAlert.t) : gmap Z LiveAlert.t :=
  foldl (λ n p, pushLiveAlert p.1.1 p.1.2 p.2 n) node pushes.

(** The fields of a driver document that [deactivateDriver] and
    [reactivateDriver] leave alone. *)
Definition driverProfile (d : DriverDoc.t) :=
  (toDriver d, DriverDoc.createdAt d, DriverDoc.email d, DriverDoc.phone d,
   DriverDoc.licenseNumber d, DriverDoc.vehicleId d, DriverDoc.profileImageUrl d).

(** A stored driver. *)
Definition sampleDriver : DriverDoc.t :=
  {| DriverDoc.driverId := "DRV001"; DriverDoc.driverName := "Asha Verma";
     DriverDoc.age := 34; DriverDoc.experience := 9;
     DriverDoc.createdAt := Timestamp.fromDate 1730000000000;
     DriverDoc.updatedAt := Timestamp.fromDate 1730000000000;
     DriverDoc.isActive := true;
     DriverDoc.email := None; DriverDoc.phone := None;
     DriverDoc.licenseNumber := Some "KA0120190001";
     DriverDoc.vehicleId := None; DriverDoc.profileImageUrl := None |}.

(** * Checks of the built-ins on sample values *)

Example Math_round_ties_up :
  JS.Math_round 14.5 = 15%float ∧ JS.Math_round (-14.5) = (-14)%float
  ∧ JS.Math_round 2.25 = 2%float ∧ JS.Math_round (-2.75) = (-3)%float.
Proof. repeat split; vm_compute; reflexivity. Qed.

(** On whole seconds, rounding the double quotient and [Math_round_div]
    agree. *)
Example Math_round_div_agrees :
  Forall (λ ab : Z * Z,
            JS.Math_round (JS.number_of_Z ab.1 / JS.number_of_Z ab.2)%float
            = JS.number_of_Z (JS.Math_round_div ab.1 ab.2))
    [(124, 60); (124, 3); (30, 60); (29, 60); (90, 60); (7, 2); (1000000, 7); (-31, 60)].
Proof. repeat constructor; vm_compute; reflexivity. Qed.

(** The trend divides and then multiplies: 63 events after 40 is the
    double 57.49999999999999, which rounds to 57. *)
Example trend_of_63_after_40 :
  JS.Math_round (((JS.number_of_Z 63 - JS.number_of_Z 40) / JS.number_of_Z 40) * 100)%float
  = 57%float.
Proof. vm_compute. reflexivity. Qed.

Example toString36Upper_samples :
  JS.toString36Upper 1730000000000 = "M2R1BZ7K"
  ∧ JS.toString36Upper 0 = "0" ∧ JS.toString36Upper 35 = "Z"
  ∧ JS.toString36Upper 36 = "10".
Proof. repeat split; vm_compute; reflexivity. Qed.

Example Array_sort_is_stable :
  Array_sort (λ a b : Z * string, b.1 - a.1) [(1, "a"); (3, "b"); (3, "c"); (2, "d")]
  = [(3, "b"); (3, "c"); (2, "d"); (1, "a")].
Proof. reflexivity. Qed.

(** * Properties of statsService *)

Section DriverStatsFacts.

Implicit Types events : list DrowsinessEventDoc.t.

Lemma foldl_duration_shift events (a : Z) :
  foldl (λ sum e, sum + default 0 (DrowsinessEventDoc.duration e)) a events
  = a + foldl (λ sum e, sum + default 0 (DrowsinessEventDoc.duration e)) 0 events.
Proof.
  revert a. induction events as [|e events IH]; intros a; simpl; [lia|].
  rewrite (IH (a + _)), (IH (0 + _)). lia.
Qed.

(** The code's filter-then-count agrees with the one-pass count. *)
Lemma riskInputs_filter driverId events :
  let driverEvents := filter (λ e, DrowsinessEventDoc.driverId e = driverId) events in
  eventCount (riskInputs driverId events) = length driverEvents
  ∧ highCount (riskInputs driverId events)
    = length (filter (λ e, DrowsinessEventDoc.severity e = high) driverEvents)
  ∧ mediumCount (riskInputs driverId events)
    = length (filter (λ e, DrowsinessEventDoc.severity e = medium) driverEvents)
  ∧ totalDurationSeconds (riskInputs driverId events)
    = foldl (λ sum e, sum + default 0 (DrowsinessEventDoc.duration e)) 0 driverEvents.
Proof.
  induction events as [|e events (IHn & IHh & IHm & IHd)]; [done|].
  cbn [riskInputs]. rewrite filter_cons.
  destruct (decide (DrowsinessEventDoc.driverId e = driverId)) as [_|_]; [|done].
  cbn [eventCount highCount mediumCount totalDurationSeconds].
  rewrite !filter_cons. split_and!.
  - cbn. by rewrite IHn.
  - destruct (decide (DrowsinessEventDoc.severity e = high)); cbn; by rewrite IHh.
  - destruct (decide (DrowsinessEventDoc.severity e = medium)); cbn; by rewrite IHm.
  - cbn [foldl]. rewrite foldl_duration_shift, IHd.
    destruct (DrowsinessEventDoc.duration e); cbn; lia.
Qed.

Lemma driverStats_stored now driverId driverName events db :
  driverStats (computeDriverStats now driverId driverName events db) !! driverId
  = Some (driverStatsOf now driverId driverName events).
Proof. unfold computeDriverStats. cbn. apply lookup_insert_eq. Qed.

Lemma driverStatsOf_riskScore now driverId driverName events :
  DriverStatsDoc.riskScore (driverStatsOf now driverId driverName events)
  = specRiskScore (riskInputs driverId events).
Proof.
  destruct (riskInputs_filter driverId events) as (Hn & Hh & Hm & Hd).
  unfold specRiskScore. rewrite Hn, Hh, Hm, Hd. reflexivity.
Qed.

End DriverStatsFacts.

(** C1. For every batch, the [riskScore] that [computeDriverStats] stores
    under [driverId] is
    [min(min(eventCount*5, 40) + min(highCount*15 + mediumCount*5, 40)
         + min(round(totalDurationSeconds/60), 20), 100)],
    the four inputs being counted over the events of the batch whose
    [driverId] matches.  On the batch of one high (78 s), one medium (34 s)
    and one low (12 s) event of one driver it stores totalEvents = 3,
    totalDrowsinessTime = 124, averageEventDuration = 41, one event in each
    severity bucket and riskScore = 37. *)
Theorem computeDriverStats_riskScore :
  (∀ now driverId driverName events db,
     ∃ d, driverStats (computeDriverStats now driverId driverName events db) !! driverId = Some d
          ∧ DriverStatsDoc.riskScore d = specRiskScore (riskInputs driverId events))
  ∧ (∀ now driverName t1 t2 t3 db,
       ∃ d, driverStats
              (computeDriverStats now "DRV001" driverName
                 [sampleEvent "DRV001" high (Some 78) t1;
                  sampleEvent "DRV001" medium (Some 34) t2;
                  sampleEvent "DRV001" low (Some 12) t3] db) !! "DRV001" = Some d
            ∧ DriverStatsDoc.totalEvents d = 3%nat
            ∧ DriverStatsDoc.totalDrowsinessTime d = 124
            ∧ DriverStatsDoc.averageEventDuration d = 41
            ∧ DriverStatsDoc.highSeverityCount d = 1%nat
            ∧ DriverStatsDoc.mediumSeverityCount d = 1%nat
            ∧ DriverStatsDoc.lowSeverityCount d = 1%nat
            ∧ DriverStatsDoc.riskScore d = 37).
Proof.
  split.
  - intros now driverId driverName events db. eexists. split.
    + apply driverStats_stored.
    + apply driverStatsOf_riskScore.
  - intros now driverName t1 t2 t3 db. eexists. split.
    + apply driverStats_stored.
    + repeat split; reflexivity.
Qed.

Section RiskScoreFacts.

Lemma Math_round_div_60_nonneg (a : Z) : 0 ≤ a → 0 ≤ JS.Math_round_div a 60.
Proof. intros Ha. unfold JS.Math_round_div. apply Z.div_pos; lia. Qed.

Lemma foldl_duration_nonneg (events : list DrowsinessEventDoc.t) :
  Forall (λ e, ∀ s, DrowsinessEventDoc.duration e = Some s → 0 ≤ s) events →
  0 ≤ foldl (λ sum e, sum + default 0 (DrowsinessEventDoc.duration e)) 0 events.
Proof.
  induction 1 as [|e events He _ IH]; [done|].
  cbn [foldl]. rewrite foldl_duration_shift.
  destruct (DrowsinessEventDoc.duration e) as [s|] eqn:Hs; cbn; [|lia].
  specialize (He s eq_refl). lia.
Qed.

End RiskScoreFacts.

(** C9, on the code.  The calculation is headed by the comment "Risk
    score calculation (0-100)" and its last line clamps the sum from above
    only ([Math.min(..., 100)]); nothing clamps it from below, and nothing
    checks the durations it sums.  On a batch of one low-severity event of
    the driver with a duration of -6000 seconds, [computeDriverStats]
    stores one event, a total time of -6000 and a risk score of
    5 + 0 + (-100) = -95, outside the range 0-100. *)
Theorem riskScore_negative_duration :
  ∃ doc, driverStats
           (computeDriverStats (Timestamp.mk 0 0) "DRV001" "John Mitchell"
              [sampleEvent "DRV001" low (Some (-6000)) (Timestamp.mk 0 0)]
              emptyFirestore) !! "DRV001" = Some doc
         ∧ DriverStatsDoc.totalEvents doc = 1%nat
         ∧ DriverStatsDoc.totalDrowsinessTime doc = -6000
         ∧ DriverStatsDoc.riskScore doc = -95
         ∧ ¬ (0 ≤ DriverStatsDoc.riskScore doc ≤ 100).
Proof.
  eexists. split; [apply driverStats_stored|].
  split; [reflexivity|]. split; [reflexivity|]. split; [reflexivity|].
  vm_compute. intros [H _]. by apply H.
Qed.

Section DashboardFacts.

Variable toISODate : Date → string.
Variable previousDay : Date → Date.

Lemma dashboard_totalEvents now db :
  DashboardMetrics.totalEvents (getDashboardMetrics toISODate previousDay now db)
  = todayEvents toISODate now db.
Proof.
  unfold getDashboardMetrics, todayEvents. cbn.
  by destruct (getDailyStats (toISODate now) db).
Qed.

Lemma dashboard_trend now db :
  DashboardMetrics.trendPercentage (getDashboardMetrics toISODate previousDay now db)
  = if (0 <? yesterdayEvents toISODate previousDay now db)%nat
    then JS.Math_round
           (((JS.number_of_Z (Z.of_nat (todayEvents toISODate now db))
              - JS.number_of_Z (Z.of_nat (yesterdayEvents toISODate previousDay now db)))
             / JS.number_of_Z (Z.of_nat (yesterdayEvents toISODate previousDay now db))) * 100)%float
    else 0%float.
Proof.
  unfold getDashboardMetrics, todayEvents, yesterdayEvents. cbn.
  destruct (getDailyStats (toISODate now) db),
    (getDailyStats (toISODate (previousDay now)) db); reflexivity.
Qed.

End DashboardFacts.

(** C8. [getDashboardMetrics] returns
    [trendPercentage = round((todayEvents - yesterdayEvents) / yesterdayEvents * 100)],
    evaluated on doubles as the code does, when yesterday's count is
    positive; it returns [trendPercentage = 0], without dividing, when
    yesterday's document is absent or its count is 0, and then (as always)
    [totalEvents] comes from today's document alone. *)
Theorem getDashboardMetrics_trend :
  ∀ (toISODate : Date → string) (previousDay : Date → Date) (now : Date) (db : Firestore),
    let metrics := getDashboardMetrics toISODate previousDay now db in
    let yesterdayStats := getDailyStats (toISODate (previousDay now)) db in
    let today := JS.number_of_Z (Z.of_nat (todayEvents toISODate now db)) in
    (∀ ys, yesterdayStats = Some ys → (0 < DailyStatsDoc.totalEvents ys)%nat →
       let yesterday := JS.number_of_Z (Z.of_nat (DailyStatsDoc.totalEvents ys)) in
       DashboardMetrics.trendPercentage metrics
       = JS.Math_round (((today - yesterday) / yesterday) * 100)%float)
    ∧ ((yesterdayStats = None
        ∨ ∃ ys, yesterdayStats = Some ys ∧ DailyStatsDoc.totalEvents ys = 0%nat) →
       DashboardMetrics.trendPercentage metrics = 0%float
       ∧ DashboardMetrics.totalEvents metrics
         = match getDailyStats (toISODate now) db with
           | Some ts => DailyStatsDoc.totalEvents ts
           | None => 0%nat
           end).
Proof.
  intros toISODate previousDay now db metrics yesterdayStats today.
  subst metrics yesterdayStats today. split.
  - intros ys Hys Hpos yesterday. subst yesterday.
    rewrite dashboard_trend. unfold yesterdayEvents. rewrite Hys.
    by destruct (Nat.ltb_spec 0 (DailyStatsDoc.totalEvents ys)); [|lia].
  - intros Hy. split; [|apply dashboard_totalEvents].
    rewrite dashboard_trend. unfold yesterdayEvents.
    destruct Hy as [-> | (ys & -> & ->)]; reflexivity.
Qed.

(** Two stored days, 229 events today after 200 yesterday: the trend is
    14, the double [29/200*100] lying just below 14.5. *)
Lemma getDashboardMetrics_trend_witness :
  let toISODate := λ d : Date, if d =? 0 then "2024-03-01" else "2024-03-02" in
  let previousDay := λ d : Date, d - 1 in
  let db :=
    computeDailyStats (λ _, 0) (Timestamp.mk 0 0) "2024-03-02"
      (replicate 229 (sampleEvent "DRV001" low (Some 12) (Timestamp.mk 0 0)))
      (computeDailyStats (λ _, 0) (Timestamp.mk 0 0) "2024-03-01"
         (replicate 200 (sampleEvent "DRV002" low (Some 12) (Timestamp.mk 0 0)))
         emptyFirestore) in
  DashboardMetrics.trendPercentage (getDashboardMetrics toISODate previousDay 1 db)
  = 14%float.
Proof.
  intros toISODate previousDay db.
  destruct (getDashboardMetrics_trend toISODate previousDay 1 db) as [Hpos _].
  cbv zeta in Hpos.
  rewrite (Hpos (dailyStatsOf (λ _, 0) (Timestamp.mk 0 0) "2024-03-01"
                   (replicate 200 (sampleEvent "DRV002" low (Some 12) (Timestamp.mk 0 0))))).
  - vm_compute. reflexivity.
  - vm_compute. reflexivity.
  - vm_compute. lia.
Defined.

(** C10. [getDashboardMetrics] returns [totalDrivers = 0] and
    [unresolvedEvents = 0] whatever the stores hold: the two fields are
    placeholders for the caller to fill in. *)
Theorem getDashboardMetrics_placeholders :
  ∀ (toISODate : Date → string) (previousDay : Date → Date) (now : Date) (db : Firestore),
    DashboardMetrics.totalDrivers (getDashboardMetrics toISODate previousDay now db) = 0%nat
    ∧ DashboardMetrics.unresolvedEvents (getDashboardMetrics toISODate previousDay now db) = 0%nat.
Proof. intros. split; reflexivity. Qed.

(** ** computeDailyStats *)
Section HistogramFacts.

Implicit Types (o : gmap nat nat) (h : nat).

Lemma histogramTotal_insert_fresh o h c :
  o !! h = None → histogramTotal (<[h := c]> o) = (c + histogramTotal o)%nat.
Proof.
  intros Hfresh. unfold histogramTotal.
  by rewrite (map_to_list_insert o h c Hfresh).
Qed.

Lemma histogramTotal_bump o h : histogramTotal (bump h o) = S (histogramTotal o).
Proof.
  unfold bump. destruct (o !! h) as [c|] eqn:Hh; cbn [default].
  - rewrite <-(insert_delete_eq o h (c + 1)%nat).
    rewrite histogramTotal_insert_fresh by apply lookup_delete_eq.
    rewrite <-(insert_delete_id o h c Hh) at 2.
    rewrite histogramTotal_insert_fresh by apply lookup_delete_eq. lia.
  - by rewrite histogramTotal_insert_fresh.
Qed.

Lemma bump_lookup o h h' :
  default 0%nat (bump h o !! h')
  = (default 0%nat (o !! h') + (if decide (h = h') then 1 else 0))%nat.
Proof.
  unfold bump. destruct (decide (h = h')) as [->|Hne].
  - by rewrite lookup_insert_eq.
  - rewrite lookup_insert_ne by done. lia.
Qed.

Lemma bump_dom o h : h ∈ dom o → dom (bump h o) = dom o.
Proof.
  intros Hh. unfold bump. rewrite dom_insert_L.
  by apply subseteq_union_1_L, singleton_subseteq_l.
Qed.

Lemma eventsByHour_init_dom : dom eventsByHour_init = set_seq 0 24.
Proof. by vm_compute. Qed.

Lemma eventsByHour_init_total : histogramTotal eventsByHour_init = 0%nat.
Proof. by vm_compute. Qed.

Lemma eventsByHour_init_zero h : default 0%nat (eventsByHour_init !! h) = 0%nat.
Proof.
  destruct (eventsByHour_init !! h) as [c|] eqn:Hh; [|done]. cbn.
  apply (map_Forall_lookup_1 (λ _ c, c = 0%nat) eventsByHour_init h c); [|done].
  unfold eventsByHour_init. cbn [seq foldl].
  repeat (apply map_Forall_insert_2; [done|]). apply map_Forall_empty.
Qed.

End HistogramFacts.

Section DailyLoopFacts.

Variable localOffsetMs : Date → Z.

Implicit Types (st : DailyLoop) (events : list DrowsinessEventDoc.t).

Lemma getHours_lt_24 (d : Date) : (getHours localOffsetMs d < 24)%nat.
Proof.
  unfold getHours.
  pose proof (Z.mod_pos_bound ((d + localOffsetMs d) / 3600000) 24). lia.
Qed.

Lemma dailyLoop_body_eventsByHour st e :
  l_eventsByHour (dailyLoop_body localOffsetMs st e)
  = bump (getHours localOffsetMs (Timestamp.toDate (DrowsinessEventDoc.startTime e)))
      (l_eventsByHour st).
Proof. reflexivity. Qed.

Lemma dailyLoop_body_severity st e :
  (l_highCount (dailyLoop_body localOffsetMs st e)
   + l_mediumCount (dailyLoop_body localOffsetMs st e)
   + l_lowCount (dailyLoop_body localOffsetMs st e)
   = S (l_highCount st + l_mediumCount st + l_lowCount st))%nat.
Proof. cbn. destruct (DrowsinessEventDoc.severity e); lia. Qed.

(** What the loop has done to its variables after any number of
    iterations, from any state whose histogram has the 24 hourly keys. *)
Lemma dailyLoop_invariant events st :
  dom (l_eventsByHour st) = set_seq 0 24 →
  let st' := foldl (dailyLoop_body localOffsetMs) st events in
  dom (l_eventsByHour st') = set_seq 0 24
  ∧ histogramTotal (l_eventsByHour st')
    = (histogramTotal (l_eventsByHour st) + length events)%nat
  ∧ (∀ h, default 0%nat (l_eventsByHour st' !! h)
          = (default 0%nat (l_eventsByHour st !! h) + hourCount localOffsetMs h events)%nat)
  ∧ (l_highCount st' + l_mediumCount st' + l_lowCount st'
     = l_highCount st + l_mediumCount st + l_lowCount st + length events)%nat.
Proof.
  revert st. induction events as [|e events IH]; intros st Hdom; cbn zeta.
  - cbn. split_and!; [done|lia|intros; unfold hourCount; cbn; lia|lia].
  - cbn [foldl].
    destruct (IH (dailyLoop_body localOffsetMs st e)) as (IHdom & IHtotal & IHhour & IHsev).
    { rewrite dailyLoop_body_eventsByHour, bump_dom; [done|].
      rewrite Hdom. apply elem_of_set_seq. pose proof (getHours_lt_24
        (Timestamp.toDate (DrowsinessEventDoc.startTime e))). lia. }
    split_and!.
    + exact IHdom.
    + rewrite IHtotal, dailyLoop_body_eventsByHour, histogramTotal_bump. cbn. lia.
    + intros h. rewrite IHhour, dailyLoop_body_eventsByHour, bump_lookup.
      unfold hourCount. rewrite filter_cons.
      destruct (decide (getHours localOffsetMs
                          (Timestamp.toDate (DrowsinessEventDoc.startTime e)) = h));
        cbn; lia.
    + rewrite IHsev, dailyLoop_body_severity. cbn. lia.
Qed.

Lemma dailyLoop_spec events :
  let st := dailyLoop localOffsetMs events in
  dom (l_eventsByHour st) = set_seq 0 24
  ∧ histogramTotal (l_eventsByHour st) = length events
  ∧ (∀ h, default 0%nat (l_eventsByHour st !! h) = hourCount localOffsetMs h events)
  ∧ (l_highCount st + l_mediumCount st + l_lowCount st)%nat = length events.
Proof.
  destruct (dailyLoop_invariant events dailyLoop_init eventsByHour_init_dom)
    as (Hdom & Htotal & Hhour & Hsev).
  cbv zeta. unfold dailyLoop. split_and!.
  - exact Hdom.
  - rewrite Htotal. cbn [dailyLoop_init l_eventsByHour].
    by rewrite eventsByHour_init_total.
  - intros h. rewrite Hhour. cbn [dailyLoop_init l_eventsByHour].
    by rewrite eventsByHour_init_zero.
  - exact Hsev.
Qed.

Lemma dailyStats_stored now date events db :
  dailyStats (computeDailyStats localOffsetMs now date events db) !! date
  = Some (dailyStatsOf localOffsetMs now date events).
Proof. unfold computeDailyStats. cbn. apply lookup_insert_eq. Qed.

End DailyLoopFacts.

(** C3. For every batch of N events, the document [computeDailyStats]
    stores has [totalEvents = N = highSeverityEvents + mediumSeverityEvents
    + lowSeverityEvents], and its [eventsByHour] histogram has 24 entries
    whose sum is N. *)
Theorem computeDailyStats_totals :
  ∀ (localOffsetMs : Date → Z) now date events db,
    ∃ d, dailyStats (computeDailyStats localOffsetMs now date events db) !! date = Some d
         ∧ DailyStatsDoc.totalEvents d = length events
         ∧ DailyStatsDoc.totalEvents d
           = (DailyStatsDoc.highSeverityEvents d + DailyStatsDoc.mediumSeverityEvents d
              + DailyStatsDoc.lowSeverityEvents d)%nat
         ∧ size (DailyStatsDoc.eventsByHour d) = 24%nat
         ∧ sum_list_with snd (map_to_list (DailyStatsDoc.eventsByHour d)) = length events.
Proof.
  intros localOffsetMs now date events db. eexists. split.
  { apply dailyStats_stored. }
  destruct (dailyLoop_spec localOffsetMs events) as (Hdom & Htotal & _ & Hsev).
  cbn [dailyStatsOf DailyStatsDoc.totalEvents DailyStatsDoc.highSeverityEvents
       DailyStatsDoc.mediumSeverityEvents DailyStatsDoc.lowSeverityEvents
       DailyStatsDoc.eventsByHour].
  split_and!.
  - reflexivity.
  - by rewrite Hsev.
  - rewrite <-size_dom, Hdom. by rewrite size_set_seq.
  - exact Htotal.
Qed.

Section PeakHourFacts.

Implicit Types (o : gmap nat nat) (l : list (nat * nat)) (acc : PeakAcc).

(** The keys of a histogram with the 24 hourly keys are read in the order
    0, 1, ..., 23. *)
Lemma Object_keys_hours o : dom o = set_seq 0 24 → Object_keys o = seq 0 24.
Proof.
  intros Hdom. unfold Object_keys. apply (Sorted_unique Nat.le).
  - apply Sorted_merge_sort, _.
  - repeat constructor.
  - rewrite merge_sort_Permutation, Hdom. apply NoDup_Permutation.
    + apply NoDup_elements.
    + apply NoDup_seq.
    + intros h. by rewrite elem_of_elements, elem_of_set_seq, elem_of_seq.
Qed.

Lemma Object_entries_hours o :
  dom o = set_seq 0 24 →
  Object_entries o = (λ h, (h, default 0%nat (o !! h))) <$> seq 0 24.
Proof.
  intros Hdom. unfold Object_entries. rewrite (Object_keys_hours o Hdom).
  assert (Hin : ∀ h, h ∈ seq 0 24 → is_Some (o !! h)).
  { intros h Hh. apply elem_of_dom. rewrite Hdom.
    apply elem_of_set_seq. by apply elem_of_seq in Hh. }
  induction (seq 0 24) as [|h hs IH]; [done|]. cbn.
  destruct (Hin h) as [c Hc]; [by left|]. rewrite Hc. cbn. f_equal.
  apply IH. intros h' Hh'. apply Hin. by right.
Qed.

(** The scan keeps the first entry that holds the largest count seen, and
    replaces it only by an entry with a strictly larger count. *)
Lemma peak_scan l acc :
  let r := foldl peakStep acc l in
  (count acc ≤ count r)%nat
  ∧ (∀ h c, (h, c) ∈ l → (c ≤ count r)%nat)
  ∧ (r = acc
     ∨ ∃ i, l !! i = Some (hour r, count r)
            ∧ (count acc < count r)%nat
            ∧ ∀ j h c, (j < i)%nat → l !! j = Some (h, c) → (c < count r)%nat).
Proof.
  revert acc. induction l as [|[h c] l IH]; intros acc; cbn zeta.
  - cbn. split_and!; [lia| |by left]. intros h c Hin. by apply elem_of_nil in Hin.
  - cbn [foldl].
    change (peakStep acc (h, c))
      with (if (count acc <? c)%nat then {| hour := h; count := c |} else acc).
    destruct (Nat.ltb_spec (count acc) c) as [Hlt|Hge].
    + destruct (IH {| hour := h; count := c |}) as (Hle & Hall & Hfirst).
      cbn [count hour] in *. split_and!.
      * lia.
      * intros h' c' [[= -> ->]|Hin]%elem_of_cons; [lia|by eapply Hall].
      * right. destruct Hfirst as [Hr | (i & Hi & Hlt' & Hbefore)].
        -- exists 0%nat. rewrite Hr. cbn. split_and!; [done|lia|intros; lia].
        -- exists (S i). cbn. split_and!; [done|lia|].
           intros [|j] h' c' Hj Hlook; cbn in Hlook.
           ++ injection Hlook as -> ->. lia.
           ++ eapply Hbefore; [|done]. lia.
    + destruct (IH acc) as (Hle & Hall & Hfirst). split_and!.
      * lia.
      * intros h' c' [[= -> ->]|Hin]%elem_of_cons; [lia|by eapply Hall].
      * destruct Hfirst as [Hr | (i & Hi & Hlt' & Hbefore)]; [by left|right].
        exists (S i). cbn. split_and!; [done|lia|].
        intros [|j] h' c' Hj Hlook; cbn in Hlook.
        -- injection Hlook as -> ->. lia.
        -- eapply Hbefore; [|done]. lia.
Qed.

Lemma hours_lookup o i h c :
  ((λ h, (h, default 0%nat (o !! h))) <$> seq 0 24) !! i = Some (h, c) →
  (i < 24)%nat ∧ h = i ∧ c = default 0%nat (o !! i).
Proof.
  rewrite list_lookup_fmap. intros Hlook.
  destruct (seq 0 24 !! i) as [k|] eqn:Hk; [|done].
  apply lookup_seq in Hk as [-> Hlt]. cbn in Hlook. by injection Hlook as <- <-.
Qed.

(** The peak hour of a histogram with the 24 hourly keys. *)
Lemma peakHourOf_spec o :
  dom o = set_seq 0 24 →
  let count := λ h, default 0%nat (o !! h) in
  (peakHourOf o < 24)%nat
  ∧ (∀ h, (h < 24)%nat → (count h ≤ count (peakHourOf o))%nat)
  ∧ (∀ h, (h < peakHourOf o)%nat → (count h < count (peakHourOf o))%nat).
Proof.
  intros Hdom count0. unfold peakHourOf. rewrite (Object_entries_hours o Hdom).
  set (l := (λ h, (h, default 0%nat (o !! h))) <$> seq 0 24).
  destruct (peak_scan l {| hour := 0; count := 0 |}) as (_ & Hall & Hfirst).
  set (r := foldl peakStep {| hour := 0; count := 0 |} l) in *.
  assert (Hmem : ∀ h, (h < 24)%nat → (count0 h ≤ count r)%nat).
  { intros h Hh. apply (Hall h). subst l. apply list_elem_of_fmap.
    exists h. split; [done|]. apply elem_of_seq. lia. }
  destruct Hfirst as [Hr | (i & Hi & _ & Hbefore)].
  - rewrite Hr in *. cbn [hour count] in *. split_and!; [lia| |lia].
    intros h Hh. specialize (Hmem h Hh). lia.
  - apply hours_lookup in Hi as Hi'. destruct Hi' as (Hlt & Hhour & Hcount).
    rewrite Hhour. fold (count0 i) in Hcount. rewrite Hcount in *. split_and!.
    + exact Hlt.
    + exact Hmem.
    + intros h Hh. apply (Hbefore h h (count0 h) Hh). subst l.
      rewrite list_lookup_fmap, lookup_seq_lt by lia. reflexivity.
Qed.

End PeakHourFacts.

(** C2. For every batch, the [peakHour] that [computeDailyStats] stores is
    an hour in 0..23 whose bucket of the stored histogram (the number of
    events of the batch starting in that hour) holds the maximum count, and
    every lower hour holds a strictly smaller count: among the hours that
    tie for the maximum it is the lowest. *)
Theorem computeDailyStats_peakHour :
  ∀ (localOffsetMs : Date → Z) now date events db,
    ∃ d, dailyStats (computeDailyStats localOffsetMs now date events db) !! date = Some d
         ∧ (∀ h, (h < 24)%nat →
              DailyStatsDoc.eventsByHour d !! h = Some (hourCount localOffsetMs h events))
         ∧ (DailyStatsDoc.peakHour d < 24)%nat
         ∧ (∀ h, (h < 24)%nat →
              (hourCount localOffsetMs h events
               ≤ hourCount localOffsetMs (DailyStatsDoc.peakHour d) events)%nat)
         ∧ (∀ h, (h < DailyStatsDoc.peakHour d)%nat →
              (hourCount localOffsetMs h events
               < hourCount localOffsetMs (DailyStatsDoc.peakHour d) events)%nat).
Proof.
  intros localOffsetMs now date events db. eexists. split.
  { apply dailyStats_stored. }
  destruct (dailyLoop_spec localOffsetMs events) as (Hdom & _ & Hhour & _).
  destruct (peakHourOf_spec _ Hdom) as (Hlt & Hmax & Hfirst).
  cbn [dailyStatsOf DailyStatsDoc.eventsByHour DailyStatsDoc.peakHour].
  setoid_rewrite Hhour in Hmax. setoid_rewrite Hhour in Hfirst.
  split_and!; [|done..].
  intros h Hh. rewrite <-Hhour.
  assert (Hsome : is_Some (l_eventsByHour (dailyLoop localOffsetMs events) !! h)).
  { apply elem_of_dom. rewrite Hdom. apply elem_of_set_seq. lia. }
  destruct Hsome as [c ->]. reflexivity.
Qed.

(** * Properties of alertService *)

Lemma createAlert_stored now newId data db :
  ∃ a, alerts (createAlert now newId data db).2 !! (createAlert now newId data db).1 = Some a
       ∧ AlertDoc.priority a = CreateAlertData.priority data
       ∧ AlertDoc.message a = CreateAlertData.message data
       ∧ AlertDoc.acknowledged a = false.
Proof. eexists. split; [apply lookup_insert_eq|]. by cbn. Qed.

(** C4. The alert that [createAlertFromEvent] stores has priority
    critical for severity high, medium for medium and low for low; and
    for a fixed severity its message is a fixed text around the driver's
    name and the driver's status. *)
Theorem createAlertFromEvent_priority_message :
  ∀ now newId data db,
    let r := createAlertFromEvent now newId data db in
    ∃ a, alerts r.2 !! r.1 = Some a
         ∧ (AlertFromEventData.severity data = high → AlertDoc.priority a = p_critical)
         ∧ (AlertFromEventData.severity data = medium → AlertDoc.priority a = p_medium)
         ∧ (AlertFromEventData.severity data = low → AlertDoc.priority a = p_low)
         ∧ AlertDoc.message a
           = (messagePrefix (AlertFromEventData.severity data)
              +:+ AlertFromEventData.driverName data
              +:+ messageMiddle (AlertFromEventData.severity data)
              +:+ AlertFromEventData.driverStatus data
              +:+ messageSuffix (AlertFromEventData.severity data))%string.
Proof.
  intros now newId data db r. subst r. unfold createAlertFromEvent.
  destruct (createAlert_stored now newId
              {| CreateAlertData.type :=
                   match AlertFromEventData.severity data with
                   | high => high_severity
                   | _ => drowsiness_detected
                   end;
                 CreateAlertData.priority := priorityMap (AlertFromEventData.severity data);
                 CreateAlertData.driverId := AlertFromEventData.driverId data;
                 CreateAlertData.driverName := AlertFromEventData.driverName data;
                 CreateAlertData.eventId := Some (AlertFromEventData.eventId data);
                 CreateAlertData.message := alertMessage data |} db)
    as (a & Ha & Hp & Hm & _).
  exists a. split; [exact Ha|]. rewrite Hp, Hm. cbn. unfold alertMessage.
  destruct (AlertFromEventData.severity data); split_and!; done.
Qed.

Section LimitFacts.
Context {A : Type}.
Implicit Types (docs l : list A).

Lemma limit_Ok n docs : (0 < n)%nat → limit n docs = Ok (take n docs).
Proof. destruct n; [lia|done]. Qed.

Lemma limit_Ok_inv n docs l : limit n docs = Ok l → (0 < n)%nat ∧ l = take n docs.
Proof. destruct n; [done|]. intros [= <-]. split; [lia|done]. Qed.

Lemma fmap_limit_Ok {B} (f : list A → B) n docs :
  (0 < n)%nat → f <$> limit n docs = Ok (f (take n docs)).
Proof. intros Hn. by rewrite limit_Ok. Qed.

Lemma fmap_limit_Ok_inv {B} (f : list A → B) n docs b :
  f <$> limit n docs = Ok b → (0 < n)%nat ∧ b = f (take n docs).
Proof. destruct n; [done|]. intros [= <-]. split; [lia|done]. Qed.

Lemma fmap_limit_0 {B} (f : list A → B) docs :
  f <$> limit 0 docs = Err (invalid_argument "limit").
Proof. done. Qed.

End LimitFacts.

Section AcknowledgeAllFacts.

Implicit Types (db : Firestore) (a : AlertDoc.t).

Lemma Promise_all_rejected (promises : list (Firestore → result Firestore)) db :
  Forall (λ p, ∃ e, p db = Err e) promises →
  (Promise_all promises db).1 = db
  ∧ (promises ≠ [] → ∃ e, (Promise_all promises db).2 = Err e).
Proof.
  induction 1 as [|p promises [e He] _ [IHdb _]]; [done|].
  cbn [Promise_all]. rewrite He. cbn. split; [exact IHdb|]. intros _. by exists e.
Qed.

(** Every alert the query returns is an unacknowledged document of the
    collection. *)
Lemma getUnacknowledgedAlerts_elem maxResults db l a :
  getUnacknowledgedAlerts maxResults db = Ok l → a ∈ l →
  ∃ docId, alerts db !! docId = Some a ∧ AlertDoc.acknowledged a = false.
Proof.
  unfold getUnacknowledgedAlerts. intros [_ ->]%fmap_limit_Ok_inv.
  intros ([docId a'] & -> & Hin)%list_elem_of_fmap.
  apply elem_of_take in Hin as (i & Hin & _).
  apply list_elem_of_lookup_2 in Hin.
  rewrite merge_sort_Permutation in Hin.
  apply list_elem_of_filter in Hin as [Hack Hin].
  apply elem_of_map_to_list in Hin. by exists docId.
Qed.

(** In a store where no unacknowledged alert's [alertId] is the id of a
    document (as when every alert was written by [addDoc]),
    [acknowledgeAllAlerts] changes nothing, and is rejected as soon as
    there is an alert to acknowledge. *)
Lemma acknowledgeAllAlerts_rejected now userId db :
  (∀ docId a, alerts db !! docId = Some a → AlertDoc.acknowledged a = false →
              alerts db !! AlertDoc.alertId a = None) →
  (acknowledgeAllAlerts now userId db).1 = db
  ∧ (getUnacknowledgedAlerts 500 db ≠ Ok [] →
     ∃ e, (acknowledgeAllAlerts now userId db).2 = Err e).
Proof.
  intros Hids. unfold acknowledgeAllAlerts.
  destruct (getUnacknowledgedAlerts 500 db) as [unacknowledged|e] eqn:Hquery;
    [|split; [done|by exists e]].
  destruct (Promise_all_rejected
              (map (λ alert, acknowledgeAlert now (AlertDoc.alertId alert) userId)
                 unacknowledged) db) as [Hdb Herr].
  - apply Forall_fmap, list.Forall_forall. intros a Ha.
    apply (getUnacknowledgedAlerts_elem _ _ _ _ Hquery) in Ha as (docId & Hdoc & Hack).
    cbn. unfold acknowledgeAlert, updateDoc_alerts.
    rewrite (Hids docId a Hdoc Hack). by eexists.
  - split; [exact Hdb|]. intros Hne. apply Herr.
    destruct unacknowledged; [done|discriminate].
Qed.

End AcknowledgeAllFacts.

(** C5, on the code.  With one alert created by [createAlertFromEvent]
    in the store (document id generated by [addDoc], [alertId] generated by
    [createAlert]), [acknowledgeAllAlerts] fetches that alert and then
    acknowledges the document whose id is the alert's [alertId]: there is
    none, the update is rejected, and the fetched alert stays
    unacknowledged, although [acknowledgeAlert] on its document id would
    acknowledge it.  And where such a document exists, every update can
    succeed and still leave a fetched alert unacknowledged. *)
Theorem acknowledgeAllAlerts_uses_alertId :
  let now := Timestamp.mk 1730000060 0 in
  let r := acknowledgeAllAlerts now "operator1" oneAlertStore in
  let r' := acknowledgeAllAlerts now "operator1" aliasedAlertStore in
  (∃ a, getUnacknowledgedAlerts 500 oneAlertStore = Ok [a]
        ∧ alerts oneAlertStore !! "k3JdP0aXqLm7" = Some a
        ∧ AlertDoc.alertId a = "ALTM2R1BZ7K")
  ∧ r.2 = Err (not_found "alerts" "ALTM2R1BZ7K")
  ∧ r.1 = oneAlertStore
  ∧ (∃ a, alerts r.1 !! "k3JdP0aXqLm7" = Some a ∧ AlertDoc.acknowledged a = false)
  ∧ (∃ db', acknowledgeAlert now "k3JdP0aXqLm7" "operator1" oneAlertStore = Ok db'
            ∧ ∃ a, alerts db' !! "k3JdP0aXqLm7" = Some a ∧ AlertDoc.acknowledged a = true)
  ∧ (r'.2 = Ok tt
     ∧ (∃ fetched, getUnacknowledgedAlerts 500 aliasedAlertStore = Ok fetched
                   ∧ sampleAlert "ALT1" ∈ fetched)
     ∧ alerts aliasedAlertStore !! "k1" = Some (sampleAlert "ALT1")
     ∧ alerts r'.1 !! "k1" = Some (sampleAlert "ALT1")
     ∧ AlertDoc.acknowledged (sampleAlert "ALT1") = false).
Proof.
  cbv zeta. split_and!.
  - eexists. split_and!; vm_compute; reflexivity.
  - vm_compute. reflexivity.
  - vm_compute. reflexivity.
  - eexists. split; vm_compute; reflexivity.
  - eexists. split; [vm_compute; reflexivity|].
    eexists. split; vm_compute; reflexivity.
  - vm_compute. reflexivity.
  - exists [sampleAlert "ALT1"; sampleAlert "ALT1"].
    split; [vm_compute; reflexivity|by left].
  - vm_compute. reflexivity.
  - vm_compute. reflexivity.
  - reflexivity.
Qed.

(** * Properties of eventService *)

Lemma createEvent_stored now newId data db :
  ∃ e, drowsinessEvents (createEvent now newId data db).2 !! (createEvent now newId data db).1
       = Some e
       ∧ DrowsinessEventDoc.duration e = CreateEventData.duration data
       ∧ DrowsinessEventDoc.endTime e = Timestamp.fromDate <$> CreateEventData.endTime data.
Proof.
  eexists. split; [apply lookup_insert_eq|]. cbn.
  by destruct (CreateEventData.duration data), (CreateEventData.endTime data).
Qed.

(** C6, as the code has it.  [createEvent] stores the duration and the
    end time it is given, each on its own, so the event it stores has a
    non-null duration iff it has a non-null end time exactly when the
    caller gives both or neither; [endEvent] on a stored event leaves both
    non-null. *)
Theorem event_duration_iff_endTime :
  (∀ now newId data db,
     let r := createEvent now newId data db in
     ∃ e, drowsinessEvents r.2 !! r.1 = Some e
          ∧ (DrowsinessEventDoc.duration e ≠ None ↔ CreateEventData.duration data ≠ None)
          ∧ (DrowsinessEventDoc.endTime e ≠ None ↔ CreateEventData.endTime data ≠ None)
          ∧ ((DrowsinessEventDoc.duration e ≠ None ↔ DrowsinessEventDoc.endTime e ≠ None)
             ↔ (CreateEventData.duration data ≠ None ↔ CreateEventData.endTime data ≠ None)))
  ∧ (∀ docId endTime duration db e0,
       drowsinessEvents db !! docId = Some e0 →
       ∃ db' e, endEvent docId endTime duration db = Ok db'
                ∧ drowsinessEvents db' !! docId = Some e
                ∧ DrowsinessEventDoc.duration e ≠ None
                ∧ DrowsinessEventDoc.endTime e ≠ None).
Proof.
  split.
  - intros now newId data db r. subst r.
    destruct (createEvent_stored now newId data db) as (e & He & Hd & Ht).
    exists e. split; [exact He|]. rewrite Hd, Ht.
    destruct (CreateEventData.duration data), (CreateEventData.endTime data); cbn;
      split_and!; split; try done; intuition congruence.
  - intros docId endTime duration db e0 He0.
    unfold endEvent, updateDoc_drowsinessEvents. rewrite He0.
    eexists _, _. split; [reflexivity|]. split; [apply lookup_insert_eq|]. by cbn.
Qed.

Lemma event_duration_iff_endTime_witness :
  let db := (createEvent 1730000000000 "w2Hs9"
               (CreateEventData.mk "DRV001" "John Mitchell" ds_drowsy medium
                  None None None None None) emptyFirestore).2 in
  ∃ db' e, endEvent "w2Hs9" 1730000045000 45 db = Ok db'
           ∧ drowsinessEvents db' !! "w2Hs9" = Some e
           ∧ DrowsinessEventDoc.duration e ≠ None
           ∧ DrowsinessEventDoc.endTime e ≠ None.
Proof.
  intros db.
  destruct event_duration_iff_endTime as [_ Hend].
  eapply (Hend "w2Hs9" 1730000045000 45 db). vm_compute. reflexivity.
Defined.

(** The claim as stated fails on [createEvent]: given a duration and no
    end time, it stores an event whose duration is non-null and whose end
    time is null. *)
Lemma createEvent_duration_without_endTime :
  ∃ e, drowsinessEvents
         (createEvent 1730000000000 "w2Hs9"
            (CreateEventData.mk "DRV001" "John Mitchell" ds_drowsy medium
               None (Some 45) None None None) emptyFirestore).2 !! "w2Hs9" = Some e
       ∧ DrowsinessEventDoc.duration e = Some 45
       ∧ DrowsinessEventDoc.endTime e = None
       ∧ ¬ (DrowsinessEventDoc.duration e ≠ None ↔ DrowsinessEventDoc.endTime e ≠ None).
Proof.
  eexists. split; [apply lookup_insert_eq|]. cbn. split_and!; [done..|].
  intros [H _]. by apply H.
Qed.

(** * Properties of realtimeService *)

Section RealtimeFacts.

Implicit Types (db : RealtimeDb) (entry : gmap string JsonValue).

Lemma updateDriverStatus_entry now driverId status db :
  updateDriverStatus now driverId status db !! driverId
  = Some (<["lastUpdated" := JNumber now]>
            (<["status" := JString (statusName status)]> (default ∅ (db !! driverId)))).
Proof. unfold updateDriverStatus. by rewrite lookup_insert_eq. Qed.

Lemma updateDriverStatus_other now driverId status db other :
  other ≠ driverId →
  updateDriverStatus now driverId status db !! other = db !! other.
Proof. intros Hne. unfold updateDriverStatus. by rewrite lookup_insert_ne. Qed.

Lemma setDriverLiveStatus_entry now started driverId driverName status db :
  setDriverLiveStatus now started driverId driverName status db !! driverId
  = Some (rtdb_update
            [("driverId", Some (JString driverId));
             ("driverName", Some (JString driverName));
             ("status", Some (JString (statusName status)));
             ("lastUpdated", Some (JNumber now));
             ("sessionStart",
              if decide (status ≠ live_offline) then Some (JNumber started) else None)]
            ∅).
Proof. unfold setDriverLiveStatus. by rewrite lookup_insert_eq. Qed.

End RealtimeFacts.

(** C7. On a stored live-status entry, [updateDriverStatus(driverId,
    status)] overwrites [status] and [lastUpdated] and leaves every other
    field of the entry ([sessionStart], [driverName], ...) as it was, and
    it leaves the entries of the other drivers alone.  In particular,
    after [setDriverLiveStatus("DRV002", "Sarah Chen", "drowsy")] and then
    [updateDriverStatus("DRV002", "alert")] the entry has status "alert"
    and the [sessionStart] that the first call wrote. *)
Theorem updateDriverStatus_frame :
  (∀ (now : Z) (driverId : string) (status : LiveDriverStatus)
     (db : RealtimeDb) (entry : gmap string JsonValue),
     db !! driverId = Some entry →
     ∃ entry', updateDriverStatus now driverId status db !! driverId = Some entry'
       ∧ entry' !! "status" = Some (JString (statusName status))
       ∧ entry' !! "lastUpdated" = Some (JNumber now)
       ∧ entry' !! "sessionStart" = entry !! "sessionStart"
       ∧ (∀ field : string, field ≠ "status" → field ≠ "lastUpdated" →
            entry' !! field = entry !! field)
       ∧ (∀ other : string, other ≠ driverId →
            updateDriverStatus now driverId status db !! other = db !! other))
  ∧ (∀ (t1 started t2 : Z) (db : RealtimeDb),
       ∃ entry,
         updateDriverStatus t2 "DRV002" live_alert
           (setDriverLiveStatus t1 started "DRV002" "Sarah Chen" live_drowsy db) !! "DRV002"
         = Some entry
         ∧ entry !! "status" = Some (JString "alert")
         ∧ entry !! "lastUpdated" = Some (JNumber t2)
         ∧ entry !! "sessionStart" = Some (JNumber started)
         ∧ entry !! "driverName" = Some (JString "Sarah Chen")).
Proof.
  split.
  - intros now driverId status db entry Hentry. eexists. split.
    { rewrite updateDriverStatus_entry, Hentry. reflexivity. }
    cbn [default]. split_and!.
    + rewrite lookup_insert_ne by done. apply lookup_insert_eq.
    + apply lookup_insert_eq.
    + by rewrite !lookup_insert_ne.
    + intros field Hs Hl. by rewrite !lookup_insert_ne.
    + intros other Hne. by apply updateDriverStatus_other.
  - intros t1 started t2 db. eexists. split.
    { rewrite updateDriverStatus_entry, setDriverLiveStatus_entry. reflexivity. }
    split_and!; vm_compute; reflexivity.
Qed.

Lemma updateDriverStatus_frame_witness :
  let db : RealtimeDb :=
    setDriverLiveStatus 1730000000000 1730000000000 "DRV002" "Sarah Chen" live_drowsy ∅ in
  ∃ entry', updateDriverStatus 1730000005000 "DRV002" live_alert db !! "DRV002" = Some entry'
    ∧ entry' !! "status" = Some (JString "alert")
    ∧ entry' !! "sessionStart" = Some (JNumber 1730000000000).
Proof.
  intros db.
  destruct updateDriverStatus_frame as [Hframe _].
  destruct (Hframe 1730000005000 "DRV002" live_alert db
              (rtdb_update
                 [("driverId", Some (JString "DRV002"));
                  ("driverName", Some (JString "Sarah Chen"));
                  ("status", Some (JString "drowsy"));
                  ("lastUpdated", Some (JNumber 1730000000000));
                  ("sessionStart", Some (JNumber 1730000000000))] ∅))
    as (entry' & Hlookup & Hstatus & _ & Hsession & _).
  - vm_compute. reflexivity.
  - exists entry'. split; [exact Hlookup|]. split; [exact Hstatus|].
    rewrite Hsession. vm_compute. reflexivity.
Defined.

(** * Further properties of statsService *)

Section QueryFacts.
Context {D : Type}.
Implicit Types (x y : string * D) (collection : gmap string D).

Lemma runQuery_Permutation (order : relation (string * D)) `{!RelDecision order}
    (condition : D → Prop) `{!∀ d, Decision (condition d)} collection :
  runQuery order condition collection
  ≡ₚ filter (λ x, condition x.2) (map_to_list collection).
Proof. apply merge_sort_Permutation. Qed.

Lemma runQuery_elem (order : relation (string * D)) `{!RelDecision order}
    (condition : D → Prop) `{!∀ d, Decision (condition d)} collection docId d :
  (docId, d) ∈ runQuery order condition collection
  ↔ collection !! docId = Some d ∧ condition d.
Proof.
  rewrite runQuery_Permutation, list_elem_of_filter, elem_of_map_to_list. cbn. tauto.
Qed.

Lemma runQuery_NoDup_ids (order : relation (string * D)) `{!RelDecision order}
    (condition : D → Prop) `{!∀ d, Decision (condition d)} collection :
  NoDup (fst <$> runQuery order condition collection).
Proof.
  rewrite runQuery_Permutation.
  eapply NoDup_fmap_fst.
  - intros k d1 d2 [_ H1%elem_of_map_to_list]%list_elem_of_filter
      [_ H2%elem_of_map_to_list]%list_elem_of_filter. congruence.
  - apply NoDup_filter, NoDup_map_to_list.
Qed.

Section OrderByDesc.
Context {K : Type} (leb eqb : K → K → bool) (field : D → K).
Hypothesis leb_total : ∀ a b, leb a b = true ∨ leb b a = true.
Hypothesis eqb_sym : ∀ a b, eqb a b = eqb b a.

#[local] Instance orderByDesc_total : Total (orderByDesc leb eqb field).
Proof.
  intros x y. unfold orderByDesc. rewrite (eqb_sym (field y.2)).
  destruct (eqb (field x.2) (field y.2)).
  - destruct (String.leb_total x.1 y.1); auto.
  - destruct (leb_total (field x.2) (field y.2)); auto.
Qed.

Hypothesis eqb_leb : ∀ a b, eqb a b = true → leb b a = true.

(** In the query's order the field never increases from one document to
    the next. *)
Lemma runQuery_sorted (condition : D → Prop) `{!∀ d, Decision (condition d)} collection :
  Sorted (λ a b, leb b a = true)
    ((λ x, field x.2) <$> runQuery (orderByDesc leb eqb field) condition collection).
Proof.
  apply (Sorted_fmap _ (orderByDesc leb eqb field)).
  - intros x y. unfold orderByDesc.
    destruct (eqb (field x.2) (field y.2)) eqn:Heq; [|done].
    intros _. by apply eqb_leb.
  - apply Sorted_merge_sort, _.
Qed.

End OrderByDesc.
End QueryFacts.

Section DriverStatsMore.

Implicit Types (events : list DrowsinessEventDoc.t) (e : DrowsinessEventDoc.t).

Lemma filter_none {A} (P : A → Prop) `{!∀ x, Decision (P x)} (l : list A) :
  (∀ x, x ∈ l → ¬ P x) → filter P l = [].
Proof.
  induction l as [|x l IH]; intros Hl; [done|].
  rewrite filter_cons_False; [|apply Hl; by left].
  apply IH. intros y Hy. apply Hl. by right.
Qed.

(** The three severity filters split a list. *)
Lemma severity_partition events :
  (length (filter (λ e, DrowsinessEventDoc.severity e = high) events)
   + length (filter (λ e, DrowsinessEventDoc.severity e = medium) events)
   + length (filter (λ e, DrowsinessEventDoc.severity e = low) events))%nat
  = length events.
Proof.
  induction events as [|e events IH]; [done|].
  rewrite !filter_cons.
  destruct (DrowsinessEventDoc.severity e) eqn:Hs; repeat case_decide; try done;
    cbn [length]; lia.
Qed.

(** [sort(...)[0]]: the first element of the sorted array is found by one
    pass that keeps the earlier of two elements the comparison does not
    put in order. *)
Lemma head_sort_insert {A} (cmp : A → A → Z) (x : A) (l : list A) :
  head (sort_insert cmp x l)
  = match head l with
    | Some y => if 0 <? cmp x y then Some y else Some x
    | None => Some x
    end.
Proof. destruct l as [|y l]; [done|]. cbn. by destruct (0 <? cmp x y). Qed.

Lemma head_Array_sort_latest (key : DrowsinessEventDoc.t → Z) events :
  match head (Array_sort (λ a b, key b - key a) events) with
  | Some e => e ∈ events ∧ ∀ e', e' ∈ events → key e' ≤ key e
  | None => events = []
  end.
Proof.
  induction events as [|x events IH]; [done|].
  cbn [Array_sort foldr]. rewrite head_sort_insert.
  fold (Array_sort (λ a b, key b - key a) events).
  destruct (head (Array_sort (λ a b, key b - key a) events)) as [y|].
  - destruct IH as [Hy Hmax]. destruct (Z.ltb_spec 0 (key y - key x)).
    + split; [by right|]. intros e' [->|He']%elem_of_cons; [lia|by apply Hmax].
    + split; [by left|]. intros e' [->|He']%elem_of_cons; [lia|].
      specialize (Hmax e' He'). lia.
  - subst events. split; [by left|]. by intros e' ->%list_elem_of_singleton.
Qed.

End DriverStatsMore.

(** X1. When no event of the batch belongs to the driver (an empty batch
    in particular), [computeDriverStats] stores a document of zeros:
    no events, no time, average 0, empty severity buckets, no last event
    and risk score 0. *)
Theorem computeDriverStats_without_events :
  ∀ now driverId driverName events db,
    (∀ e, e ∈ events → DrowsinessEventDoc.driverId e ≠ driverId) →
    ∃ d, getDriverStats driverId (computeDriverStats now driverId driverName events db) = Some d
         ∧ DriverStatsDoc.totalEvents d = 0%nat
         ∧ DriverStatsDoc.totalDrowsinessTime d = 0
         ∧ DriverStatsDoc.averageEventDuration d = 0
         ∧ DriverStatsDoc.highSeverityCount d = 0%nat
         ∧ DriverStatsDoc.mediumSeverityCount d = 0%nat
         ∧ DriverStatsDoc.lowSeverityCount d = 0%nat
         ∧ DriverStatsDoc.lastEventTime d = None
         ∧ DriverStatsDoc.riskScore d = 0.
Proof.
  intros now driverId driverName events db Hnone. eexists. split.
  { apply driverStats_stored. }
  unfold driverStatsOf. rewrite (filter_none _ events Hnone). by cbn.
Qed.

Lemma computeDriverStats_without_events_witness :
  ∃ d, getDriverStats "DRV001"
         (computeDriverStats (Timestamp.mk 0 0) "DRV001" "John Mitchell"
            [sampleEvent "DRV002" high (Some 112) (Timestamp.mk 0 0)] emptyFirestore) = Some d
       ∧ DriverStatsDoc.totalEvents d = 0%nat
       ∧ DriverStatsDoc.totalDrowsinessTime d = 0
       ∧ DriverStatsDoc.averageEventDuration d = 0
       ∧ DriverStatsDoc.highSeverityCount d = 0%nat
       ∧ DriverStatsDoc.mediumSeverityCount d = 0%nat
       ∧ DriverStatsDoc.lowSeverityCount d = 0%nat
       ∧ DriverStatsDoc.lastEventTime d = None
       ∧ DriverStatsDoc.riskScore d = 0.
Proof.
  apply computeDriverStats_without_events.
  intros e ->%list_elem_of_singleton. by cbn.
Defined.

(** X2. In the document [computeDriverStats] stores, [totalEvents] is the
    number of events of the batch that belong to the driver, and the three
    severity counts add up to it. *)
Theorem computeDriverStats_buckets :
  ∀ now driverId driverName events db,
    ∃ d, getDriverStats driverId (computeDriverStats now driverId driverName events db) = Some d
         ∧ DriverStatsDoc.totalEvents d = length (eventsOf driverId events)
         ∧ (DriverStatsDoc.totalEvents d ≤ length events)%nat
         ∧ (DriverStatsDoc.highSeverityCount d + DriverStatsDoc.mediumSeverityCount d
            + DriverStatsDoc.lowSeverityCount d)%nat
           = DriverStatsDoc.totalEvents d.
Proof.
  intros now driverId driverName events db. eexists. split.
  { apply driverStats_stored. }
  cbn [driverStatsOf DriverStatsDoc.totalEvents DriverStatsDoc.highSeverityCount
       DriverStatsDoc.mediumSeverityCount DriverStatsDoc.lowSeverityCount].
  split_and!.
  - reflexivity.
  - apply length_filter.
  - apply severity_partition.
Qed.

(** X3. [lastEventTime] is null exactly when no event of the batch belongs
    to the driver; otherwise it is the start time of one of the driver's
    events, and no event of the driver starts at a later millisecond. *)
Theorem computeDriverStats_lastEventTime :
  ∀ now driverId driverName events db,
    ∃ d, getDriverStats driverId (computeDriverStats now driverId driverName events db) = Some d
         ∧ (DriverStatsDoc.lastEventTime d = None ↔ eventsOf driverId events = [])
         ∧ (∀ t, DriverStatsDoc.lastEventTime d = Some t →
              (∃ e, e ∈ eventsOf driverId events ∧ DrowsinessEventDoc.startTime e = t)
              ∧ ∀ e, e ∈ eventsOf driverId events →
                     Timestamp.toDate (DrowsinessEventDoc.startTime e) ≤ Timestamp.toDate t).
Proof.
  intros now driverId driverName events db. eexists. split.
  { apply driverStats_stored. }
  cbn [driverStatsOf DriverStatsDoc.lastEventTime].
  fold (eventsOf driverId events).
  pose proof (head_Array_sort_latest
                (λ e, Timestamp.toDate (DrowsinessEventDoc.startTime e))
                (eventsOf driverId events)) as Hhead.
  cbv beta in Hhead.
  destruct (head (Array_sort _ (eventsOf driverId events))) as [e|]; cbn.
  - destruct Hhead as [He Hmax]. split.
    + split; [done|]. intros Hnil. rewrite Hnil in He. by apply elem_of_nil in He.
    + intros t [= <-]. split; [by exists e|]. exact Hmax.
  - split; [done|]. intros t [=].
Qed.

(** X4. When every duration of the batch that is not null is a safe
    integer (so neither NaN nor an infinity) and at least 0, the risk
    score [computeDriverStats] stores is 0 exactly when the driver has no
    event in the batch, and is at least 5 as soon as the driver has one. *)
Theorem computeDriverStats_riskScore_zero_iff :
  ∀ now driverId driverName events db,
    Forall (λ e, ∀ s, DrowsinessEventDoc.duration e = Some s →
                      JS.isSafeInteger s ∧ 0 ≤ s) events →
    ∃ d, getDriverStats driverId (computeDriverStats now driverId driverName events db) = Some d
         ∧ (DriverStatsDoc.riskScore d = 0 ↔ DriverStatsDoc.totalEvents d = 0%nat)
         ∧ ((0 < DriverStatsDoc.totalEvents d)%nat → 5 ≤ DriverStatsDoc.riskScore d).
Proof.
  intros now driverId driverName events db Hdur. eexists. split.
  { apply driverStats_stored. }
  cbn [driverStatsOf DriverStatsDoc.riskScore DriverStatsDoc.totalEvents].
  fold (eventsOf driverId events).
  assert (Htotal : 0 ≤ foldl (λ sum e, sum + default 0 (DrowsinessEventDoc.duration e)) 0
                         (eventsOf driverId events)).
  { apply foldl_duration_nonneg. rewrite list.Forall_forall in Hdur.
    apply list.Forall_forall. intros e [_ He]%list_elem_of_filter s Hs.
    by apply (Hdur e He s Hs). }
  assert (Hone : (0 < length (eventsOf driverId events))%nat →
                 5 ≤ riskScoreOf (length (eventsOf driverId events))
                       (length (filter (λ e, DrowsinessEventDoc.severity e = high)
                                  (eventsOf driverId events)))
                       (length (filter (λ e, DrowsinessEventDoc.severity e = medium)
                                  (eventsOf driverId events)))
                       (foldl (λ sum e, sum + default 0 (DrowsinessEventDoc.duration e)) 0
                          (eventsOf driverId events))).
  { intros Hpos. unfold riskScoreOf.
    pose proof (Math_round_div_60_nonneg _ Htotal). lia. }
  split; [|exact Hone]. split.
  - intros Hzero. destruct (eventsOf driverId events) as [|e l] eqn:Hev; [done|].
    cbn [length] in Hone. specialize (Hone ltac:(lia)). cbn [length] in Hzero. lia.
  - intros Hnil%length_zero_iff_nil. by rewrite Hnil.
Qed.

Lemma computeDriverStats_riskScore_zero_iff_witness :
  ∃ d, getDriverStats "DRV003"
         (computeDriverStats (Timestamp.mk 0 0) "DRV003" "Michael Torres"
            [sampleEvent "DRV003" low (Some 23) (Timestamp.mk 0 0)] emptyFirestore) = Some d
       ∧ (DriverStatsDoc.riskScore d = 0 ↔ DriverStatsDoc.totalEvents d = 0%nat)
       ∧ ((0 < DriverStatsDoc.totalEvents d)%nat → 5 ≤ DriverStatsDoc.riskScore d).
Proof.
  apply computeDriverStats_riskScore_zero_iff.
  constructor; [|constructor].
  intros s [= <-]. split; [by vm_compute|lia].
Defined.

Section DailyStatsMore.

Variable localOffsetMs : Date → Z.
Implicit Types (st : DailyLoop) (events : list DrowsinessEventDoc.t).

Lemma dailyLoop_counts_from events st :
  let st' := foldl (dailyLoop_body localOffsetMs) st events in
  l_highCount st'
  = (l_highCount st
     + length (filter (λ e, DrowsinessEventDoc.severity e = high) events))%nat
  ∧ l_mediumCount st'
    = (l_mediumCount st
       + length (filter (λ e, DrowsinessEventDoc.severity e = medium) events))%nat
  ∧ l_lowCount st'
    = (l_lowCount st
       + length (filter (λ e, DrowsinessEventDoc.severity e = low) events))%nat
  ∧ l_totalDuration st' = l_totalDuration st + totalDurationOf events
  ∧ l_driverSet st'
    = list_to_set (DrowsinessEventDoc.driverId <$> events) ∪ l_driverSet st.
Proof.
  revert st. induction events as [|e events IH]; intros st; cbn zeta.
  - cbn. split_and!; try lia. by rewrite (left_id_L ∅ (∪)).
  - cbn [foldl]. destruct (IH (dailyLoop_body localOffsetMs st e))
      as (IHh & IHm & IHl & IHd & IHs).
    rewrite IHh, IHm, IHl, IHd, IHs. rewrite !filter_cons.
    change (totalDurationOf (e :: events))
      with (default 0 (DrowsinessEventDoc.duration e) + totalDurationOf events).
    cbn [dailyLoop_body l_highCount l_mediumCount l_lowCount l_totalDuration l_driverSet].
    split_and!.
    + destruct (DrowsinessEventDoc.severity e); repeat case_decide; try done;
        cbn [length]; lia.
    + destruct (DrowsinessEventDoc.severity e); repeat case_decide; try done;
        cbn [length]; lia.
    + destruct (DrowsinessEventDoc.severity e); repeat case_decide; try done;
        cbn [length]; lia.
    + lia.
    + rewrite fmap_cons. cbn [list_to_set].
      rewrite (assoc_L (∪)). f_equal. apply (comm_L (∪)).
Qed.

Lemma dailyLoop_counts events :
  let st := dailyLoop localOffsetMs events in
  l_highCount st = length (filter (λ e, DrowsinessEventDoc.severity e = high) events)
  ∧ l_mediumCount st = length (filter (λ e, DrowsinessEventDoc.severity e = medium) events)
  ∧ l_lowCount st = length (filter (λ e, DrowsinessEventDoc.severity e = low) events)
  ∧ l_totalDuration st = totalDurationOf events
  ∧ l_driverSet st = list_to_set (DrowsinessEventDoc.driverId <$> events).
Proof.
  destruct (dailyLoop_counts_from events dailyLoop_init) as (Hh & Hm & Hl & Hd & Hs).
  cbv zeta. unfold dailyLoop. rewrite Hh, Hm, Hl, Hd, Hs. cbn.
  split_and!; try done. by rewrite (right_id_L ∅ (∪)).
Qed.

Lemma size_list_to_set_le (ids : list string) :
  (size (list_to_set ids : gset string) ≤ length ids)%nat.
Proof.
  induction ids as [|id ids IH]; [done|]. cbn [list_to_set length].
  rewrite size_union_alt, size_singleton.
  pose proof (subseteq_size (list_to_set ids ∖ {[id]}) (list_to_set ids : gset string)
                (subseteq_difference_l _ _ _ (reflexivity _))). lia.
Qed.

End DailyStatsMore.


(** On an empty batch [computeDailyStats] stores zeros throughout:
    no events, no duration, average 0, no active driver, peak hour 0 and
    24 empty buckets. *)
Theorem computeDailyStats_empty_batch :
  ∀ (localOffsetMs : Date → Z) now date db,
    ∃ d, getDailyStats date (computeDailyStats localOffsetMs now date [] db) = Some d
         ∧ DailyStatsDoc.totalEvents d = 0%nat
         ∧ DailyStatsDoc.highSeverityEvents d = 0%nat
         ∧ DailyStatsDoc.mediumSeverityEvents d = 0%nat
         ∧ DailyStatsDoc.lowSeverityEvents d = 0%nat
         ∧ DailyStatsDoc.totalDrowsinessDuration d = 0
         ∧ DailyStatsDoc.averageDuration d = 0
         ∧ DailyStatsDoc.activeDrivers d = 0%nat
         ∧ DailyStatsDoc.peakHour d = 0%nat
         ∧ (∀ h, (h < 24)%nat → DailyStatsDoc.eventsByHour d !! h = Some 0%nat).
Proof.
  intros localOffsetMs now date db. eexists. split.
  { apply dailyStats_stored. }
  split_and!; try (vm_compute; reflexivity).
  intros h Hh. cbn.
  do 24 (destruct h as [|h]; [vm_compute; reflexivity|]). lia.
Qed.

(** X5. [activeDrivers] counts every driver id of the batch once: it is
    the length of a duplicate-free list of exactly the driver ids that
    occur in the batch, so it is at most [totalEvents], and at least 1 for a
    batch that is not empty. *)
Theorem computeDailyStats_activeDrivers :
  ∀ (localOffsetMs : Date → Z) now date events db,
    ∃ d, getDailyStats date (computeDailyStats localOffsetMs now date events db) = Some d
         ∧ (∃ ids : list string,
              NoDup ids
              ∧ (∀ id, id ∈ ids ↔ ∃ e, e ∈ events ∧ DrowsinessEventDoc.driverId e = id)
              ∧ DailyStatsDoc.activeDrivers d = length ids)
         ∧ (DailyStatsDoc.activeDrivers d ≤ DailyStatsDoc.totalEvents d)%nat
         ∧ (events ≠ [] → (1 ≤ DailyStatsDoc.activeDrivers d)%nat).
Proof.
  intros localOffsetMs now date events db. eexists. split.
  { apply dailyStats_stored. }
  destruct (dailyLoop_counts localOffsetMs events) as (_ & _ & _ & _ & Hset).
  cbn [dailyStatsOf DailyStatsDoc.activeDrivers DailyStatsDoc.totalEvents].
  rewrite Hset. split_and!.
  - exists (elements (list_to_set (DrowsinessEventDoc.driverId <$> events) : gset string)).
    split_and!.
    + apply NoDup_elements.
    + intros id. rewrite elem_of_elements, elem_of_list_to_set, list_elem_of_fmap.
      split; intros (e & He1 & He2); exists e; done.
    + reflexivity.
  - etrans; [apply size_list_to_set_le|]. by rewrite length_fmap.
  - intros Hne. destruct events as [|e events]; [done|].
    cbn [fmap list_fmap list_to_set].
    assert (Hin : DrowsinessEventDoc.driverId e
                  ∈ ({[DrowsinessEventDoc.driverId e]}
                     ∪ list_to_set (DrowsinessEventDoc.driverId <$> events) : gset string))
      by (apply elem_of_union_l; by apply elem_of_singleton).
    apply elem_of_elements in Hin. unfold size, set_size. cbn.
    destruct (elements _); [by apply elem_of_nil in Hin|cbn; lia].
Qed.


(** Both aggregations recompute and overwrite: what
    [computeDailyStats] (or [computeDriverStats]) leaves in the store does
    not depend on the document it replaces, the documents under other keys
    stay, and the other collections are not touched. *)
Theorem computeStats_overwrite :
  ∀ (localOffsetMs : Date → Z) now1 now2 key name1 name2 events1 events2 db,
    (computeDailyStats localOffsetMs now2 key events2
       (computeDailyStats localOffsetMs now1 key events1 db)
     = computeDailyStats localOffsetMs now2 key events2 db
     ∧ (∀ other, other ≠ key →
          getDailyStats other (computeDailyStats localOffsetMs now1 key events1 db)
          = getDailyStats other db)
     ∧ driverStats (computeDailyStats localOffsetMs now1 key events1 db) = driverStats db
     ∧ drowsinessEvents (computeDailyStats localOffsetMs now1 key events1 db)
       = drowsinessEvents db
     ∧ alerts (computeDailyStats localOffsetMs now1 key events1 db) = alerts db)
    ∧ (computeDriverStats now2 key name2 events2 (computeDriverStats now1 key name1 events1 db)
       = computeDriverStats now2 key name2 events2 db
       ∧ (∀ other, other ≠ key →
            getDriverStats other (computeDriverStats now1 key name1 events1 db)
            = getDriverStats other db)
       ∧ dailyStats (computeDriverStats now1 key name1 events1 db) = dailyStats db
       ∧ drowsinessEvents (computeDriverStats now1 key name1 events1 db)
         = drowsinessEvents db
       ∧ alerts (computeDriverStats now1 key name1 events1 db) = alerts db).
Proof.
  intros. split; split_and!; try reflexivity.
  - unfold computeDailyStats, with_dailyStats. cbn. by rewrite insert_insert_eq.
  - intros other Hne. unfold getDailyStats, computeDailyStats. cbn.
    by rewrite lookup_insert_ne.
  - unfold computeDriverStats, with_driverStats. cbn. by rewrite insert_insert_eq.
  - intros other Hne. unfold getDriverStats, computeDriverStats. cbn.
    by rewrite lookup_insert_ne.
Qed.



(** Dropping the nulls of a list of results. *)
Lemma omap_results_length {A B} (f : A → option B) (l : list A) :
  (length (omap id (f <$> l)) ≤ length l)%nat
  ∧ (length (omap id (f <$> l)) = length l ↔ ∀ i, i ∈ l → is_Some (f i)).
Proof.
  induction l as [|i l [IH1 IH2]].
  - split; [done|]. split; [|done]. intros _ i Hi. by apply elem_of_nil in Hi.
  - rewrite fmap_cons. cbn [omap list_omap id]. destruct (f i) as [d|] eqn:Hfi.
    + cbn [length]. split; [lia|]. split.
      * intros Heq i' [->|Hi']%elem_of_cons; [by rewrite Hfi|].
        apply IH2; [lia|done].
      * intros Hall. f_equal. apply IH2. intros i' Hi'. apply Hall. by right.
    + cbn [length]. split; [lia|]. split; [lia|]. intros Hall.
      destruct (Hall i ltac:(by left)) as [d Hd]. congruence.
Qed.

(** X8. [getRecentDailyStats(days)] returns at most [days] documents:
    exactly the documents stored for the requested days, a day without a
    document being skipped. *)
Theorem getRecentDailyStats_stored_days :
  ∀ (toISODate : Date → string) (daysAgo : nat → Date → Date) days now db,
    let result := getRecentDailyStats toISODate daysAgo days now db in
    (length result ≤ days)%nat
    ∧ (∀ d, d ∈ result
            ↔ ∃ i, (i < days)%nat
                   ∧ getDailyStats (toISODate (daysAgo i now)) db = Some d)
    ∧ (length result = days
       ↔ ∀ i, (i < days)%nat
              → is_Some (getDailyStats (toISODate (daysAgo i now)) db)).
Proof.
  intros toISODate daysAgo days now db result. subst result.
  unfold getRecentDailyStats. cbv zeta. rewrite <-!list_fmap_compose.
  destruct (omap_results_length
              ((λ date, getDailyStats date db) ∘ (λ i, toISODate (daysAgo i now)))
              (seq 0 days)) as [Hle Hfull].
  rewrite length_seq in Hle, Hfull.
  split_and!.
  - exact Hle.
  - intros d. rewrite list_elem_of_omap. split.
    + intros (o & (i & -> & Hi%elem_of_seq)%list_elem_of_fmap & Ho). cbn in Ho.
      exists i. split; [lia|exact Ho].
    + intros (i & Hi & Hd). exists (getDailyStats (toISODate (daysAgo i now)) db).
      split; [|exact Hd].
      apply list_elem_of_fmap. exists i. split; [done|]. apply elem_of_seq. lia.
  - rewrite Hfull. split; intros Hall i Hi; apply Hall.
    + apply elem_of_seq. lia.
    + apply elem_of_seq in Hi. lia.
Qed.

Lemma filter_all {A} (P : A → Prop) `{!∀ x, Decision (P x)} (l : list A) :
  (∀ x, x ∈ l → P x) → filter P l = l.
Proof.
  induction l as [|x l IH]; intros Hl; [done|].
  rewrite filter_cons_True; [|apply Hl; by left].
  f_equal. apply IH. intros y Hy. apply Hl. by right.
Qed.

Lemma StronglySorted_lookup_lt {A} (R : relation A) (l : list A) i j x y :
  StronglySorted R l → (i < j)%nat → l !! i = Some x → l !! j = Some y → R x y.
Proof.
  intros Hsorted. revert i j.
  induction Hsorted as [|z l _ IH Hall]; intros i j Hij Hi Hj; [done|].
  destruct j as [|j]; [lia|]. cbn in Hj. destruct i as [|i]; cbn in Hi.
  - injection Hi as ->. rewrite list.Forall_forall in Hall.
    apply Hall. by eapply list_elem_of_lookup_2.
  - eapply (IH i j); [lia|done..].
Qed.

Section RiskOrder.

#[local] Instance risk_ge_trans : Transitive (λ a b : Z, Z.leb b a = true).
Proof. intros a b c. rewrite !Z.leb_le. lia. Qed.

Lemma riskScore_desc_sorted (collection : gmap string DriverStatsDoc.t) :
  StronglySorted (λ a b : Z, Z.leb b a = true)
    (DriverStatsDoc.riskScore
       <$> (snd <$> runQuery riskScore_desc (λ _, True) collection)).
Proof.
  apply Sorted_StronglySorted; [apply _|]. rewrite <-list_fmap_compose.
  apply (runQuery_sorted Z.leb Z.eqb DriverStatsDoc.riskScore).
  - intros a b. rewrite !Z.leb_le. lia.
  - apply Z.eqb_sym.
  - intros a b ->%Z.eqb_eq. apply Z.leb_refl.
Qed.

End RiskOrder.

(** X9. [getTopRiskyDrivers(0)] is rejected, the SDK refusing the limit.
    For a positive [n], [getTopRiskyDrivers(n)] returns
    [min(n, number of documents)] stored documents, in order of
    non-increasing risk score, and no document it leaves out has a higher
    risk score than one it returns. *)
Theorem getTopRiskyDrivers_top :
  ∀ db,
    getTopRiskyDrivers 0 db = Err (invalid_argument "limit")
    ∧ ∀ n, (0 < n)%nat →
        ∃ result, getTopRiskyDrivers n db = Ok result
          ∧ length result = (n `min` size (driverStats db))%nat
          ∧ (∀ d, d ∈ result → ∃ driverId, getDriverStats driverId db = Some d)
          ∧ (∀ i j d1 d2, (i < j)%nat → result !! i = Some d1 → result !! j = Some d2 →
               DriverStatsDoc.riskScore d2 ≤ DriverStatsDoc.riskScore d1)
          ∧ (∀ d driverId d', d ∈ result → getDriverStats driverId db = Some d' →
               d' ∈ result ∨ DriverStatsDoc.riskScore d' ≤ DriverStatsDoc.riskScore d).
Proof.
  intros db. split; [done|]. intros n Hn.
  set (all := runQuery riskScore_desc (λ _, True) (driverStats db)).
  exists (snd <$> take n all). split.
  { unfold getTopRiskyDrivers. fold all. by rewrite fmap_limit_Ok. }
  pose proof (riskScore_desc_sorted (driverStats db)) as Hsorted. fold all in Hsorted.
  rewrite <-(take_drop n all) in Hsorted at 1.
  rewrite !fmap_app in Hsorted.
  split_and!.
  - rewrite length_fmap, length_take. f_equal. subst all.
    rewrite runQuery_Permutation.
    rewrite (filter_all _ (map_to_list (driverStats db))) by done.
    apply length_map_to_list.
  - intros d ([driverId d'] & -> & Hin)%list_elem_of_fmap.
    apply subseteq_take in Hin. apply runQuery_elem in Hin as [Hin _].
    by exists driverId.
  - intros i j d1 d2 Hij H1 H2.
    apply StronglySorted_app_1_l in Hsorted. apply Z.leb_le.
    apply (StronglySorted_lookup_lt _ _ i j _ _ Hsorted Hij).
    + by rewrite list_lookup_fmap, H1.
    + by rewrite list_lookup_fmap, H2.
  - intros d driverId d' Hd Hd'.
    assert (Hall : (driverId, d') ∈ all) by (by apply runQuery_elem).
    rewrite <-(take_drop n all) in Hall. apply elem_of_app in Hall as [Hin|Hout].
    + left. apply list_elem_of_fmap. by exists (driverId, d').
    + right. apply Z.leb_le.
      apply (StronglySorted_app_1_elem_of _ _ _ _ _ Hsorted).
      * by apply list_elem_of_fmap_2.
      * apply list_elem_of_fmap_2, list_elem_of_fmap. by exists (driverId, d').
Qed.

(** * Further properties of alertService *)

Section TimestampOrder.

Implicit Types a b c : Timestamp.t.

Lemma Timestamp_leb_le a b :
  Timestamp_leb a b = true
  ↔ Timestamp.seconds a < Timestamp.seconds b
    ∨ (Timestamp.seconds a = Timestamp.seconds b
       ∧ Timestamp.nanoseconds a ≤ Timestamp.nanoseconds b).
Proof.
  unfold Timestamp_leb.
  rewrite orb_true_iff, andb_true_iff, Z.ltb_lt, Z.eqb_eq, Z.leb_le. tauto.
Qed.

Lemma Timestamp_leb_total a b : Timestamp_leb a b = true ∨ Timestamp_leb b a = true.
Proof. rewrite !Timestamp_leb_le. lia. Qed.

Lemma Timestamp_eqb_sym a b : Timestamp_eqb a b = Timestamp_eqb b a.
Proof. unfold Timestamp_eqb. by rewrite (Z.eqb_sym (Timestamp.seconds a)),
  (Z.eqb_sym (Timestamp.nanoseconds a)). Qed.

Lemma Timestamp_eqb_leb a b : Timestamp_eqb a b = true → Timestamp_leb b a = true.
Proof.
  unfold Timestamp_eqb. rewrite andb_true_iff, !Z.eqb_eq, Timestamp_leb_le. lia.
Qed.

#[local] Instance Timestamp_ge_trans :
  Transitive (λ a b, Timestamp_leb b a = true).
Proof. intros a b c. rewrite !Timestamp_leb_le. lia. Qed.

(** A query ordered by a timestamp, newest first. *)
Lemma runQuery_newest_first {D} (field : D → Timestamp.t)
    (condition : D → Prop) `{!∀ d, Decision (condition d)} (collection : gmap string D) :
  StronglySorted (λ a b, Timestamp_leb b a = true)
    (field <$> (snd <$> runQuery (orderByDesc Timestamp_leb Timestamp_eqb field)
                          condition collection)).
Proof.
  apply Sorted_StronglySorted; [apply _|]. rewrite <-list_fmap_compose.
  apply (runQuery_sorted Timestamp_leb Timestamp_eqb field).
  - apply Timestamp_leb_total.
  - apply Timestamp_eqb_sym.
  - apply Timestamp_eqb_leb.
Qed.

End TimestampOrder.

Section AlertFacts.

Implicit Types (db : Firestore) (a : AlertDoc.t).

Lemma getUnacknowledgedAlerts_runQuery maxResults db :
  getUnacknowledgedAlerts maxResults db
  = docs_data <$> limit maxResults
                    (runQuery createdAt_desc (λ a, AlertDoc.acknowledged a = false)
                       (alerts db)).
Proof. reflexivity. Qed.

End AlertFacts.

Section AcknowledgeFacts.

Implicit Types (db : Firestore) (a : AlertDoc.t).

Lemma acknowledgeAlert_Some now docId userId db a :
  alerts db !! docId = Some a →
  acknowledgeAlert now docId userId db
  = Ok (with_alerts (insert docId (acknowledgedBy_at now userId a)) db).
Proof. intros Ha. unfold acknowledgeAlert, updateDoc_alerts. by rewrite Ha. Qed.

Lemma acknowledgeAlert_None now docId userId db :
  alerts db !! docId = None →
  acknowledgeAlert now docId userId db = Err (not_found "alerts" docId).
Proof. intros Ha. unfold acknowledgeAlert, updateDoc_alerts. by rewrite Ha. Qed.

Lemma acknowledgeAlert_Ok_inv now docId userId db db' :
  acknowledgeAlert now docId userId db = Ok db' →
  ∃ a, alerts db !! docId = Some a
       ∧ db' = with_alerts (insert docId (acknowledgedBy_at now userId a)) db.
Proof.
  destruct (alerts db !! docId) as [a|] eqn:Ha.
  - rewrite (acknowledgeAlert_Some _ _ _ _ a Ha). intros [= <-]. by exists a.
  - by rewrite (acknowledgeAlert_None _ _ _ _ Ha).
Qed.

End AcknowledgeFacts.

(** X10. [acknowledgeAlert(docId, userId)] on a stored alert sets
    [acknowledged], [acknowledgedAt] and [acknowledgedBy] and nothing
    else: the other fields of the alert, the other alerts and the other
    collections stay as they were.  On an id with no document it is
    rejected with not-found. *)
Theorem acknowledgeAlert_frame :
  ∀ now docId userId db,
    match alerts db !! docId with
    | Some a =>
        ∃ db' a', acknowledgeAlert now docId userId db = Ok db'
          ∧ alerts db' !! docId = Some a'
          ∧ AlertDoc.acknowledged a' = true
          ∧ AlertDoc.acknowledgedAt a' = Some now
          ∧ AlertDoc.acknowledgedBy a' = Some userId
          ∧ (AlertDoc.alertId a', AlertDoc.type a', AlertDoc.priority a',
             AlertDoc.driverId a', AlertDoc.driverName a', AlertDoc.eventId a',
             AlertDoc.message a', AlertDoc.createdAt a')
            = (AlertDoc.alertId a, AlertDoc.type a, AlertDoc.priority a,
               AlertDoc.driverId a, AlertDoc.driverName a, AlertDoc.eventId a,
               AlertDoc.message a, AlertDoc.createdAt a)
          ∧ (∀ other, other ≠ docId → alerts db' !! other = alerts db !! other)
          ∧ drowsinessEvents db' = drowsinessEvents db
          ∧ dailyStats db' = dailyStats db
          ∧ driverStats db' = driverStats db
    | None => acknowledgeAlert now docId userId db = Err (not_found "alerts" docId)
    end.
Proof.
  intros now docId userId db. destruct (alerts db !! docId) as [a|] eqn:Ha.
  - eexists _, _. split; [by apply acknowledgeAlert_Some|]. cbn.
    split; [apply lookup_insert_eq|]. split_and!; try reflexivity.
    intros other Hne. by rewrite lookup_insert_ne.
  - by apply acknowledgeAlert_None.
Qed.

(** X11. Acknowledging an alert that is already acknowledged succeeds and
    stamps it again: after two acknowledgements the store is the one the
    second acknowledgement alone would leave, with the second actor and
    time. *)
Theorem acknowledgeAlert_again :
  ∀ now1 now2 docId user1 user2 db db1,
    acknowledgeAlert now1 docId user1 db = Ok db1 →
    ∃ db2 a, acknowledgeAlert now2 docId user2 db1 = Ok db2
      ∧ acknowledgeAlert now2 docId user2 db = Ok db2
      ∧ alerts db2 !! docId = Some a
      ∧ AlertDoc.acknowledgedAt a = Some now2
      ∧ AlertDoc.acknowledgedBy a = Some user2.
Proof.
  intros now1 now2 docId user1 user2 db db1 (a & Ha & ->)%acknowledgeAlert_Ok_inv.
  eexists _, _. split_and!.
  - rewrite (acknowledgeAlert_Some now2 docId user2 _ (acknowledgedBy_at now1 user1 a));
      [|apply lookup_insert_eq].
    unfold with_alerts. cbn. rewrite insert_insert_eq. reflexivity.
  - by rewrite (acknowledgeAlert_Some now2 docId user2 db a Ha).
  - apply lookup_insert_eq.
  - reflexivity.
  - reflexivity.
Qed.

Lemma acknowledgeAlert_again_witness :
  ∃ db2 a,
    acknowledgeAlert (Timestamp.mk 1730000120 0) "k3JdP0aXqLm7" "operator2"
      (with_alerts (insert "k3JdP0aXqLm7"
                      (acknowledgedBy_at (Timestamp.mk 1730000060 0) "operator1"
                         (sampleAlert "ALTM2R1BZ7K")))
         (with_alerts (insert "k3JdP0aXqLm7" (sampleAlert "ALTM2R1BZ7K")) emptyFirestore))
    = Ok db2
    ∧ acknowledgeAlert (Timestamp.mk 1730000120 0) "k3JdP0aXqLm7" "operator2"
        (with_alerts (insert "k3JdP0aXqLm7" (sampleAlert "ALTM2R1BZ7K")) emptyFirestore)
      = Ok db2
    ∧ alerts db2 !! "k3JdP0aXqLm7" = Some a
    ∧ AlertDoc.acknowledgedAt a = Some (Timestamp.mk 1730000120 0)
    ∧ AlertDoc.acknowledgedBy a = Some "operator2".
Proof.
  apply (acknowledgeAlert_again (Timestamp.mk 1730000060 0) _ _ "operator1" _
           (with_alerts (insert "k3JdP0aXqLm7" (sampleAlert "ALTM2R1BZ7K")) emptyFirestore)).
  vm_compute. reflexivity.
Defined.

Section TopOfQuery.
Context {D K : Type} (leb eqb : K → K → bool) (field : D → K).
Hypothesis leb_total : ∀ a b, leb a b = true ∨ leb b a = true.
Hypothesis leb_trans : ∀ a b c, leb a b = true → leb b c = true → leb a c = true.
Hypothesis eqb_sym : ∀ a b, eqb a b = eqb b a.
Hypothesis eqb_leb : ∀ a b, eqb a b = true → leb b a = true.

(** The first [n] documents of [query(ref, where(...), orderBy(field,
    'desc'))]: they pass the filter, come in order of non-increasing field,
    and none of the documents left out comes before one that is kept. *)
Lemma limit_query_spec (condition : D → Prop) `{!∀ d, Decision (condition d)}
    (collection : gmap string D) (n : nat) :
  let result :=
    snd <$> take n (runQuery (orderByDesc leb eqb field) condition collection) in
  length result
  = (n `min` length (filter (λ x, condition x.2) (map_to_list collection)))%nat
  ∧ (∀ d, d ∈ result → ∃ docId, collection !! docId = Some d ∧ condition d)
  ∧ (∀ i j d1 d2, (i < j)%nat → result !! i = Some d1 → result !! j = Some d2 →
       leb (field d2) (field d1) = true)
  ∧ (∀ d docId d', d ∈ result → collection !! docId = Some d' → condition d' →
       d' ∈ result ∨ leb (field d') (field d) = true)
  ∧ ((length result < n)%nat →
     ∀ docId d, collection !! docId = Some d → condition d → d ∈ result).
Proof.
  intros result. subst result.
  set (all := runQuery (orderByDesc leb eqb field) condition collection).
  assert (Hsorted : StronglySorted (λ a b, leb b a = true) (field <$> (snd <$> all))).
  { apply Sorted_StronglySorted.
    - intros a b c Hab Hbc. by eapply leb_trans.
    - rewrite <-list_fmap_compose. by apply (runQuery_sorted leb eqb field). }
  rewrite <-(take_drop n all) in Hsorted at 1. rewrite !fmap_app in Hsorted.
  split_and!.
  - rewrite length_fmap, length_take. f_equal. subst all.
    by rewrite runQuery_Permutation.
  - intros d ([docId d'] & -> & Hin)%list_elem_of_fmap.
    apply subseteq_take in Hin. apply runQuery_elem in Hin. by exists docId.
  - intros i j d1 d2 Hij H1 H2.
    apply StronglySorted_app_1_l in Hsorted.
    apply (StronglySorted_lookup_lt _ _ i j _ _ Hsorted Hij).
    + by rewrite list_lookup_fmap, H1.
    + by rewrite list_lookup_fmap, H2.
  - intros d docId d' Hd Hd' Hcond.
    assert (Hall : (docId, d') ∈ all) by (by apply runQuery_elem).
    rewrite <-(take_drop n all) in Hall. apply elem_of_app in Hall as [Hin|Hout].
    + left. apply list_elem_of_fmap. by exists (docId, d').
    + right. apply (StronglySorted_app_1_elem_of _ _ _ _ _ Hsorted).
      * by apply list_elem_of_fmap_2.
      * apply list_elem_of_fmap_2, list_elem_of_fmap. by exists (docId, d').
  - rewrite length_fmap, length_take. intros Hlt docId d Hd Hcond.
    rewrite take_ge by lia. apply list_elem_of_fmap. exists (docId, d).
    split; [done|]. by apply runQuery_elem.
Qed.

End TopOfQuery.

Lemma Timestamp_leb_trans (a b c : Timestamp.t) :
  Timestamp_leb a b = true → Timestamp_leb b c = true → Timestamp_leb a c = true.
Proof. rewrite !Timestamp_leb_le. lia. Qed.

(** X12. [getUnacknowledgedAlerts(0)] is rejected, the SDK refusing the
    limit.  For a positive [maxResults],
    [getUnacknowledgedAlerts(maxResults)] returns the
    [min(maxResults, number of unacknowledged alerts)] newest
    unacknowledged alerts of the collection, newest first: every alert it
    returns is stored and unacknowledged, [createdAt] never increases along
    the list, and an unacknowledged alert it leaves out is not newer than
    any it returns. *)
Theorem getUnacknowledgedAlerts_newest :
  ∀ db,
    getUnacknowledgedAlerts 0 db = Err (invalid_argument "limit")
    ∧ ∀ maxResults, (0 < maxResults)%nat →
        ∃ result, getUnacknowledgedAlerts maxResults db = Ok result
          ∧ (length result ≤ maxResults)%nat
          ∧ (∀ a, a ∈ result →
               AlertDoc.acknowledged a = false ∧ ∃ docId, alerts db !! docId = Some a)
          ∧ (∀ i j a1 a2, (i < j)%nat → result !! i = Some a1 → result !! j = Some a2 →
               Timestamp_leb (AlertDoc.createdAt a2) (AlertDoc.createdAt a1) = true)
          ∧ (∀ a docId a', a ∈ result → alerts db !! docId = Some a' →
               AlertDoc.acknowledged a' = false →
               a' ∈ result
               ∨ Timestamp_leb (AlertDoc.createdAt a') (AlertDoc.createdAt a) = true)
          ∧ ((length result < maxResults)%nat →
             ∀ docId a, alerts db !! docId = Some a → AlertDoc.acknowledged a = false →
                        a ∈ result).
Proof.
  intros db. split; [done|]. intros maxResults Hpos. eexists. split.
  { rewrite getUnacknowledgedAlerts_runQuery. by rewrite fmap_limit_Ok. }
  unfold docs_data.
  destruct (limit_query_spec Timestamp_leb Timestamp_eqb AlertDoc.createdAt
              Timestamp_leb_total Timestamp_leb_trans Timestamp_eqb_sym Timestamp_eqb_leb
              (λ a, AlertDoc.acknowledged a = false) (alerts db) maxResults)
    as (Hlen & Hin & Hsorted & Htop & Hall).
  split_and!.
  - etrans; [apply Nat.eq_le_incl, Hlen|]. lia.
  - intros a (docId & Hdoc & Hack)%Hin. split; [done|]. by exists docId.
  - exact Hsorted.
  - exact Htop.
  - exact Hall.
Qed.

Section CountFacts.
Context {D : Type}.
Implicit Types (m : gmap string D).

Lemma runQuery_length (order : relation (string * D)) `{!RelDecision order}
    (condition : D → Prop) `{!∀ d, Decision (condition d)} m :
  length (runQuery order condition m) = countWhere condition m.
Proof. unfold countWhere. by rewrite runQuery_Permutation. Qed.

Lemma countWhere_insert_fresh (condition : D → Prop) `{!∀ d, Decision (condition d)}
    m docId d :
  m !! docId = None →
  countWhere condition (<[docId := d]> m)
  = ((if decide (condition d) then 1 else 0) + countWhere condition m)%nat.
Proof.
  intros Hfresh. unfold countWhere.
  rewrite (map_to_list_insert m docId d Hfresh), filter_cons. cbn.
  by destruct (decide (condition d)).
Qed.

Lemma countWhere_update (condition : D → Prop) `{!∀ d, Decision (condition d)}
    m docId d d' :
  m !! docId = Some d →
  (countWhere condition (<[docId := d']> m) + (if decide (condition d) then 1 else 0))%nat
  = (countWhere condition m + (if decide (condition d') then 1 else 0))%nat.
Proof.
  intros Hd. rewrite <-(insert_delete_eq m docId d').
  rewrite <-(insert_delete_id m docId d Hd) at 2.
  rewrite !countWhere_insert_fresh by apply lookup_delete_eq. lia.
Qed.

End CountFacts.

(** X13. Once [acknowledgeAlert] has succeeded on a document, the queries
    for open alerts no longer see it: every alert that
    [getUnacknowledgedAlerts] or [getCriticalAlerts] returns afterwards is
    stored under another id, an open critical alert that is acknowledged
    lowers the number of critical alerts by one, and [getAllAlerts] still
    returns as many alerts as before. *)
Theorem acknowledgeAlert_leaves_open_queries :
  ∀ now docId userId db db',
    acknowledgeAlert now docId userId db = Ok db' →
    (∀ maxResults fetched a,
       getUnacknowledgedAlerts maxResults db' = Ok fetched → a ∈ fetched →
       ∃ other, other ≠ docId ∧ alerts db !! other = Some a)
    ∧ (∀ a, a ∈ getCriticalAlerts db' →
         ∃ other, other ≠ docId ∧ alerts db !! other = Some a)
    ∧ (∀ a0, alerts db !! docId = Some a0 → AlertDoc.acknowledged a0 = false →
         AlertDoc.priority a0 = p_critical →
         length (getCriticalAlerts db) = S (length (getCriticalAlerts db')))
    ∧ (∀ maxResults, length <$> getAllAlerts maxResults db'
                     = length <$> getAllAlerts maxResults db).
Proof.
  intros now docId userId db db' (a0 & Ha0 & ->)%acknowledgeAlert_Ok_inv.
  assert (Hother : ∀ other a, alerts (with_alerts (insert docId
                       (acknowledgedBy_at now userId a0)) db) !! other = Some a →
                     AlertDoc.acknowledged a = false →
                     other ≠ docId ∧ alerts db !! other = Some a).
  { intros other a. cbn. destruct (decide (other = docId)) as [->|Hne].
    - rewrite lookup_insert_eq. by intros [= <-].
    - rewrite lookup_insert_ne by done. done. }
  split_and!.
  - intros maxResults fetched a. rewrite getUnacknowledgedAlerts_runQuery.
    intros [_ ->]%fmap_limit_Ok_inv ([other a'] & -> & Hin)%list_elem_of_fmap.
    apply subseteq_take in Hin. apply runQuery_elem in Hin as [Hin Hack].
    exists other. by apply Hother.
  - intros a ([other a'] & -> & Hin)%list_elem_of_fmap.
    apply runQuery_elem in Hin as [Hin [_ Hack]].
    exists other. by apply Hother.
  - intros a Ha Hack Hprio. assert (a = a0) as -> by congruence.
    unfold getCriticalAlerts. rewrite !length_fmap, !runQuery_length. cbn.
    pose proof (countWhere_update
                  (λ a, AlertDoc.priority a = p_critical ∧ AlertDoc.acknowledged a = false)
                  (alerts db) docId a0 (acknowledgedBy_at now userId a0) Ha0) as Hcount.
    rewrite decide_True in Hcount by done.
    rewrite decide_False in Hcount by (cbn; intros [_ ?]; done). lia.
  - intros [|maxResults]; [done|]. unfold getAllAlerts.
    rewrite !fmap_limit_Ok by lia. unfold docs_data. cbn [fmap result_fmap]. f_equal.
    rewrite !length_fmap, !length_take, !runQuery_length. cbn [alerts with_alerts].
    pose proof (countWhere_update (λ _ : AlertDoc.t, True)
                  (alerts db) docId a0 (acknowledgedBy_at now userId a0) Ha0) as Hcount.
    rewrite !decide_True in Hcount by done. lia.
Qed.

Lemma acknowledgeAlert_leaves_open_queries_witness :
  length (getCriticalAlerts oneAlertStore)
  = S (length (getCriticalAlerts
                 (with_alerts
                    (insert "k3JdP0aXqLm7"
                       (acknowledgedBy_at (Timestamp.mk 1730000060 0) "operator1"
                          (AlertDoc.mk "ALTM2R1BZ7K" high_severity p_critical "DRV001"
                             "John Mitchell" (Some "q8Zt1")
                             "🚨 CRITICAL: Driver John Mitchell detected sleeping. Immediate action required."
                             false None None (Timestamp.mk 1730000000 0))))
                    oneAlertStore))).
Proof.
  destruct (acknowledgeAlert_leaves_open_queries (Timestamp.mk 1730000060 0)
              "k3JdP0aXqLm7" "operator1" oneAlertStore
              (with_alerts
                 (insert "k3JdP0aXqLm7"
                    (acknowledgedBy_at (Timestamp.mk 1730000060 0) "operator1"
                       (AlertDoc.mk "ALTM2R1BZ7K" high_severity p_critical "DRV001"
                          "John Mitchell" (Some "q8Zt1")
                          "🚨 CRITICAL: Driver John Mitchell detected sleeping. Immediate action required."
                          false None None (Timestamp.mk 1730000000 0))))
                 oneAlertStore))
    as (_ & _ & Hcount & _).
  - vm_compute. reflexivity.
  - eapply Hcount; vm_compute; reflexivity.
Defined.

(** X14. The alert that [createAlertFromEvent] adds under a fresh document
    id is returned by [getCriticalAlerts] exactly when the severity is
    high, in which case there is one more critical alert than before; the
    alerts already stored are not touched. *)
Theorem createAlertFromEvent_critical :
  ∀ now newId data db,
    alerts db !! newId = None →
    let r := createAlertFromEvent now newId data db in
    ∃ a, alerts r.2 !! r.1 = Some a
         ∧ (a ∈ getCriticalAlerts r.2 ↔ AlertFromEventData.severity data = high)
         ∧ length (getCriticalAlerts r.2)
           = ((if decide (AlertFromEventData.severity data = high) then 1 else 0)
              + length (getCriticalAlerts db))%nat
         ∧ (∀ docId a', alerts db !! docId = Some a' → alerts r.2 !! docId = Some a').
Proof.
  intros now newId data db Hfresh r. subst r.
  unfold createAlertFromEvent, createAlert. cbn [fst snd].
  eexists. split; [apply lookup_insert_eq|]. split_and!.
  - unfold getCriticalAlerts. rewrite list_elem_of_fmap. split.
    + intros ([docId a] & Heq & Hin). apply runQuery_elem in Hin as [_ [Hprio _]].
      cbn in Heq. subst a. cbn in Hprio.
      by destruct (AlertFromEventData.severity data).
    + intros Hhigh. eexists (newId, _). split; [reflexivity|].
      apply runQuery_elem. cbn. rewrite lookup_insert_eq. by rewrite Hhigh.
  - unfold getCriticalAlerts. rewrite !length_fmap, !runQuery_length. cbn.
    rewrite countWhere_insert_fresh by done. f_equal. cbn.
    destruct (AlertFromEventData.severity data); repeat case_decide; try done;
      exfalso; cbn in *; intuition congruence.
  - intros docId a' Ha'. cbn. rewrite lookup_insert_ne; [done|]. congruence.
Qed.

Lemma createAlertFromEvent_critical_witness :
  let r := createAlertFromEvent 1730000000000 "k3JdP0aXqLm7"
             {| AlertFromEventData.driverId := "DRV001";
                AlertFromEventData.driverName := "John Mitchell";
                AlertFromEventData.eventId := "q8Zt1";
                AlertFromEventData.severity := high;
                AlertFromEventData.driverStatus := "sleeping" |} emptyFirestore in
  ∃ a, alerts r.2 !! r.1 = Some a ∧ length (getCriticalAlerts r.2) = 1%nat.
Proof.
  intros r. subst r.
  destruct (createAlertFromEvent_critical 1730000000000 "k3JdP0aXqLm7"
              {| AlertFromEventData.driverId := "DRV001";
                 AlertFromEventData.driverName := "John Mitchell";
                 AlertFromEventData.eventId := "q8Zt1";
                 AlertFromEventData.severity := high;
                 AlertFromEventData.driverStatus := "sleeping" |} emptyFirestore)
    as (a & Ha & _ & Hlen & _); [reflexivity|].
  exists a. split; [exact Ha|]. rewrite Hlen. reflexivity.
Defined.

(** * Further properties of eventService *)

Section EventHistoryFacts.

Implicit Types (db : Firestore) (e : DrowsinessEventDoc.t) (op : EventOp).

Lemma updateDoc_drowsinessEvents_lookup docId fields db other :
  drowsinessEvents (keepOnError (updateDoc_drowsinessEvents docId fields db) db) !! other
  = if decide (other = docId) then fields <$> drowsinessEvents db !! docId
    else drowsinessEvents db !! other.
Proof.
  unfold updateDoc_drowsinessEvents.
  destruct (drowsinessEvents db !! docId) as [d|] eqn:Hd; cbn.
  - destruct (decide (other = docId)) as [->|Hne].
    + by rewrite lookup_insert_eq.
    + by rewrite lookup_insert_ne.
  - destruct (decide (other = docId)) as [->|Hne]; [by rewrite Hd|done].
Qed.

(** What one write does to the document under an id: it creates it, or
    maps the stored document, or leaves it. *)
Lemma applyEventOp_lookup db op docId e' :
  drowsinessEvents (applyEventOp db op) !! docId = Some e' →
  (∃ now data, op = op_createEvent now docId data
               ∧ drowsinessEvents (createEvent now docId data db).2 !! docId = Some e')
  ∨ (∃ e, drowsinessEvents db !! docId = Some e
          ∧ eventIdentity e' = eventIdentity e
          ∧ (DrowsinessEventDoc.resolved e = true → DrowsinessEventDoc.resolved e' = true)
          ∧ (resolutionConsistent e → resolutionConsistent e')).
Proof.
  destruct op as [now newId data|now target by_ notes|target endTime duration|target notes];
    cbn [applyEventOp].
  - destruct (decide (docId = newId)) as [->|Hne].
    + intros He'. left. by exists now, data.
    + unfold createEvent. cbn. rewrite lookup_insert_ne by done.
      intros He'. right. by exists e'.
  - unfold resolveEvent. rewrite updateDoc_drowsinessEvents_lookup.
    case_decide as Heq; [subst|intros He'; right; by exists e'].
    destruct (drowsinessEvents db !! target) as [e|]; [|done]. cbn.
    intros [= <-]. right. exists e. split_and!; try done;
      intros _; unfold resolutionConsistent; by cbn.
  - unfold endEvent. rewrite updateDoc_drowsinessEvents_lookup.
    case_decide as Heq; [subst|intros He'; right; by exists e'].
    destruct (drowsinessEvents db !! target) as [e|]; [|done]. cbn.
    intros [= <-]. right. by exists e.
  - unfold updateEventNotes. rewrite updateDoc_drowsinessEvents_lookup.
    case_decide as Heq; [subst|intros He'; right; by exists e'].
    destruct (drowsinessEvents db !! target) as [e|]; [|done]. cbn.
    intros [= <-]. right. by exists e.
Qed.

Lemma createEvent_consistent now newId data db e :
  drowsinessEvents (createEvent now newId data db).2 !! newId = Some e →
  resolutionConsistent e ∧ DrowsinessEventDoc.resolved e = false.
Proof.
  unfold createEvent. cbn. rewrite lookup_insert_eq. intros [= <-].
  unfold resolutionConsistent. by cbn.
Qed.

Lemma applyEventOp_keeps db op docId e :
  freshId db op → drowsinessEvents db !! docId = Some e →
  ∃ e', drowsinessEvents (applyEventOp db op) !! docId = Some e'
        ∧ eventIdentity e' = eventIdentity e
        ∧ (DrowsinessEventDoc.resolved e = true → DrowsinessEventDoc.resolved e' = true).
Proof.
  intros Hfresh He.
  destruct op as [now newId data|now target by_ notes|target endTime duration|target notes];
    cbn [applyEventOp].
  - cbn in Hfresh. exists e. split; [|done]. unfold createEvent. cbn.
    rewrite lookup_insert_ne; [done|]. congruence.
  - unfold resolveEvent. rewrite updateDoc_drowsinessEvents_lookup.
    case_decide as Heq; [subst; rewrite He; cbn|]; eexists; split_and!; done.
  - unfold endEvent. rewrite updateDoc_drowsinessEvents_lookup.
    case_decide as Heq; [subst; rewrite He; cbn|]; eexists; split_and!; done.
  - unfold updateEventNotes. rewrite updateDoc_drowsinessEvents_lookup.
    case_decide as Heq; [subst; rewrite He; cbn|]; eexists; split_and!; done.
Qed.

End EventHistoryFacts.

(** X15. The writes of eventService keep the resolution fields paired:
    if every stored event has [resolved = true] exactly when [resolvedAt]
    is non-null and exactly when [resolvedBy] is non-null, the same holds
    after any sequence of [createEvent], [resolveEvent], [endEvent] and
    [updateEventNotes]; so it holds of every event of a collection these
    writes built from nothing. *)
Theorem eventWrites_keep_resolution_paired :
  (∀ ops db,
     (∀ docId e, drowsinessEvents db !! docId = Some e → resolutionConsistent e) →
     ∀ docId e, drowsinessEvents (foldl applyEventOp db ops) !! docId = Some e →
                resolutionConsistent e)
  ∧ (∀ ops docId e,
       drowsinessEvents (foldl applyEventOp emptyFirestore ops) !! docId = Some e →
       resolutionConsistent e).
Proof.
  assert (Hgen : ∀ ops db,
     (∀ docId e, drowsinessEvents db !! docId = Some e → resolutionConsistent e) →
     ∀ docId e, drowsinessEvents (foldl applyEventOp db ops) !! docId = Some e →
                resolutionConsistent e).
  { induction ops as [|op ops IH]; intros db Hinv; [exact Hinv|].
    cbn [foldl]. apply IH. intros docId e' He'.
    apply applyEventOp_lookup in He' as [(now & data & _ & Hnew)|(e & He & _ & _ & Hkeep)].
    - by apply createEvent_consistent in Hnew as [? _].
    - apply Hkeep. by eapply Hinv. }
  split; [exact Hgen|]. intros ops. apply Hgen. intros docId e. by cbn.
Qed.

(** X16. No write of eventService deletes an event, changes which event a
    document is, or reopens it: through any history in which every
    [createEvent] gets a fresh document id, a stored event stays stored
    with the same eventId, driver, start time, status, severity, location
    and creation time, and once resolved it stays resolved. *)
Theorem eventWrites_never_delete_or_reopen :
  ∀ ops db docId e,
    freshHistory db ops →
    drowsinessEvents db !! docId = Some e →
    ∃ e', drowsinessEvents (foldl applyEventOp db ops) !! docId = Some e'
          ∧ eventIdentity e' = eventIdentity e
          ∧ (DrowsinessEventDoc.resolved e = true → DrowsinessEventDoc.resolved e' = true).
Proof.
  induction ops as [|op ops IH]; intros db docId e Hfresh He.
  - by exists e.
  - cbn [foldl]. destruct Hfresh as [Hop Hrest].
    destruct (applyEventOp_keeps db op docId e Hop He) as (e1 & He1 & Hid1 & Hres1).
    destruct (IH _ docId e1 Hrest He1) as (e' & He' & Hid & Hres).
    exists e'. split; [done|]. split; [congruence|auto].
Qed.

Lemma eventWrites_never_delete_or_reopen_witness :
  let db := (createEvent 1730000000000 "w2Hs9"
               (CreateEventData.mk "DRV001" "John Mitchell" ds_drowsy medium
                  None None None None None) emptyFirestore).2 in
  let e := DrowsinessEventDoc.mk "EVTM2R1BZ7K" "DRV001" "John Mitchell"
             (Timestamp.mk 1730000000 0) None None ds_drowsy medium false None None ""
             None (Timestamp.mk 1730000000 0) in
  ∃ e', drowsinessEvents
          (foldl applyEventOp db
             [op_resolveEvent (Timestamp.mk 1730000090 0) "w2Hs9" "operator1" (Some "rested");
              op_createEvent 1730000100000 "b7Kq2"
                (CreateEventData.mk "DRV002" "Sarah Chen" ds_sleeping high
                   None None None None None);
              op_endEvent "w2Hs9" 1730000045000 45]) !! "w2Hs9" = Some e'
        ∧ eventIdentity e' = eventIdentity e
        ∧ (DrowsinessEventDoc.resolved e = true → DrowsinessEventDoc.resolved e' = true).
Proof.
  intros db e.
  apply (eventWrites_never_delete_or_reopen _ db "w2Hs9" e).
  - vm_compute. repeat split; reflexivity.
  - vm_compute. reflexivity.
Defined.

(** X17. [resolveEvent(docId, resolvedBy, notes)] on a stored event sets
    [resolved], [resolvedAt] and [resolvedBy]; it replaces the notes when
    notes are given and keeps them when they are omitted; the end time,
    the duration, the identity of the event and the other events stay.
    On an id with no document it is rejected with not-found. *)
Theorem resolveEvent_frame :
  ∀ now docId resolvedBy notes db,
    match getEventById docId db with
    | Some e =>
        ∃ db' e', resolveEvent now docId resolvedBy notes db = Ok db'
          ∧ getEventById docId db' = Some e'
          ∧ DrowsinessEventDoc.resolved e' = true
          ∧ DrowsinessEventDoc.resolvedAt e' = Some now
          ∧ DrowsinessEventDoc.resolvedBy e' = Some resolvedBy
          ∧ DrowsinessEventDoc.notes e' = default (DrowsinessEventDoc.notes e) notes
          ∧ DrowsinessEventDoc.endTime e' = DrowsinessEventDoc.endTime e
          ∧ DrowsinessEventDoc.duration e' = DrowsinessEventDoc.duration e
          ∧ eventIdentity e' = eventIdentity e
          ∧ (∀ other, other ≠ docId → getEventById other db' = getEventById other db)
          ∧ alerts db' = alerts db
    | None =>
        resolveEvent now docId resolvedBy notes db
        = Err (not_found "drowsinessEvents" docId)
    end.
Proof.
  intros now docId resolvedBy notes db.
  unfold getEventById, resolveEvent, updateDoc_drowsinessEvents.
  destruct (drowsinessEvents db !! docId) as [e|] eqn:He; [|done].
  eexists _, _. split; [reflexivity|]. cbn. split; [apply lookup_insert_eq|].
  split_and!; try reflexivity.
  intros other Hne. by rewrite lookup_insert_ne.
Qed.

(** [endEvent] writes the end time and the duration and
    [updateEventNotes] writes the notes, each leaving every other field of
    the event and every other event as it was; on an id with no document
    both are rejected with not-found. *)
Theorem endEvent_updateEventNotes_frame :
  ∀ docId endTime duration notes db,
    match getEventById docId db with
    | Some e =>
        (∃ db' e', endEvent docId endTime duration db = Ok db'
           ∧ getEventById docId db' = Some e'
           ∧ DrowsinessEventDoc.endTime e' = Some (Timestamp.fromDate endTime)
           ∧ DrowsinessEventDoc.duration e' = Some duration
           ∧ eventIdentity e' = eventIdentity e
           ∧ (DrowsinessEventDoc.resolved e', DrowsinessEventDoc.resolvedAt e',
              DrowsinessEventDoc.resolvedBy e', DrowsinessEventDoc.notes e')
             = (DrowsinessEventDoc.resolved e, DrowsinessEventDoc.resolvedAt e,
                DrowsinessEventDoc.resolvedBy e, DrowsinessEventDoc.notes e)
           ∧ ∀ other, other ≠ docId → getEventById other db' = getEventById other db)
        ∧ (∃ db' e', updateEventNotes docId notes db = Ok db'
             ∧ getEventById docId db' = Some e'
             ∧ DrowsinessEventDoc.notes e' = notes
             ∧ eventIdentity e' = eventIdentity e
             ∧ (DrowsinessEventDoc.resolved e', DrowsinessEventDoc.resolvedAt e',
                DrowsinessEventDoc.resolvedBy e', DrowsinessEventDoc.endTime e',
                DrowsinessEventDoc.duration e')
               = (DrowsinessEventDoc.resolved e, DrowsinessEventDoc.resolvedAt e,
                  DrowsinessEventDoc.resolvedBy e, DrowsinessEventDoc.endTime e,
                  DrowsinessEventDoc.duration e)
             ∧ ∀ other, other ≠ docId → getEventById other db' = getEventById other db)
    | None =>
        endEvent docId endTime duration db = Err (not_found "drowsinessEvents" docId)
        ∧ updateEventNotes docId notes db = Err (not_found "drowsinessEvents" docId)
    end.
Proof.
  intros docId endTime duration notes db.
  unfold getEventById, endEvent, updateEventNotes, updateDoc_drowsinessEvents.
  destruct (drowsinessEvents db !! docId) as [e|] eqn:He; [|done].
  split; eexists _, _; (split; [reflexivity|]); cbn;
    (split; [apply lookup_insert_eq|]); split_and!; try reflexivity;
    intros other Hne; by rewrite lookup_insert_ne.
Qed.

Section TimestampRoundTrip.

Lemma toDate_fromDate (d : Date) : Timestamp.toDate (Timestamp.fromDate d) = d.
Proof.
  unfold Timestamp.toDate, Timestamp.fromDate. cbn.
  replace (d / 1000 * 1000000000 + d mod 1000 * 1000000) with (d * 1000000).
  - apply Z.quot_mul. lia.
  - pose proof (Z.div_mod d 1000 ltac:(lia)). lia.
Qed.

(** [fromDate] keeps the order of dates. *)
Lemma fromDate_leb (a b : Date) :
  Timestamp_leb (Timestamp.fromDate a) (Timestamp.fromDate b) = true ↔ a ≤ b.
Proof.
  rewrite Timestamp_leb_le. unfold Timestamp.fromDate. cbn.
  pose proof (Z.div_mod a 1000 ltac:(lia)). pose proof (Z.div_mod b 1000 ltac:(lia)).
  pose proof (Z.mod_pos_bound a 1000 ltac:(lia)).
  pose proof (Z.mod_pos_bound b 1000 ltac:(lia)). lia.
Qed.

End TimestampRoundTrip.

(** X18. An event read back is the event that was created: after
    [createEvent], [getEventById] on the returned id gives an event that
    [toFrontendEvent] shows with the start time, end time and duration the
    caller gave (the clock's time when no start time was given), with the
    caller's driver, status and severity, and unresolved. *)
Theorem createEvent_read_back :
  ∀ now newId data db,
    let r := createEvent now newId data db in
    ∃ doc, getEventById r.1 r.2 = Some doc
      ∧ DrowsinessEventDoc.resolved doc = false
      ∧ DrowsinessEvent.startTime (toFrontendEvent doc)
        = default now (CreateEventData.startTime data)
      ∧ DrowsinessEvent.endTime (toFrontendEvent doc) = CreateEventData.endTime data
      ∧ DrowsinessEvent.duration (toFrontendEvent doc) = CreateEventData.duration data
      ∧ DrowsinessEvent.driverId (toFrontendEvent doc) = CreateEventData.driverId data
      ∧ DrowsinessEvent.driverStatus (toFrontendEvent doc) = CreateEventData.driverStatus data
      ∧ DrowsinessEvent.severity (toFrontendEvent doc) = CreateEventData.severity data.
Proof.
  intros now newId data db r. subst r. unfold getEventById, createEvent. cbn [fst snd].
  eexists. split; [apply lookup_insert_eq|]. cbn. split_and!; try reflexivity.
  - destruct (CreateEventData.startTime data); cbn; apply toDate_fromDate.
  - destruct (CreateEventData.endTime data); cbn; [|done]. by rewrite toDate_fromDate.
  - by destruct (CreateEventData.duration data).
Qed.

Section StringOrder.

Lemma String_compare_trans (a b c : string) :
  String.compare a b ≠ Gt → String.compare b c ≠ Gt → String.compare a c ≠ Gt.
Proof.
  revert b c. induction a as [|x a IH]; intros [|y b] [|z c]; cbn; try congruence.
  unfold Ascii.compare.
  destruct (N.compare_spec (N_of_ascii x) (N_of_ascii y)),
    (N.compare_spec (N_of_ascii y) (N_of_ascii z)),
    (N.compare_spec (N_of_ascii x) (N_of_ascii z));
    try congruence; try lia.
  apply IH.
Qed.

Lemma String_leb_trans (a b c : string) :
  String.leb a b = true → String.leb b c = true → String.leb a c = true.
Proof.
  unfold String.leb. intros Hab Hbc.
  pose proof (String_compare_trans a b c) as Htrans.
  destruct (String.compare a b), (String.compare b c), (String.compare a c);
    try done; exfalso; by apply Htrans.
Qed.

Lemma String_leb_refl (a : string) : String.leb a a = true.
Proof. by destruct (String.leb_total a a). Qed.

End StringOrder.

Section OrderByDescOrder.
Context {D K : Type} (leb eqb : K → K → bool) (field : D → K).
Hypothesis leb_total : ∀ a b, leb a b = true ∨ leb b a = true.
Hypothesis leb_trans : ∀ a b c, leb a b = true → leb b c = true → leb a c = true.
Hypothesis eqb_leb_iff : ∀ a b, eqb a b = true ↔ leb a b = true ∧ leb b a = true.

Implicit Types x y z : string * D.

Lemma orderByDesc_eqb_sym (a b : K) : eqb a b = eqb b a.
Proof.
  apply eq_true_iff_eq. rewrite !eqb_leb_iff. tauto.
Qed.

Lemma orderByDesc_trans x y z :
  orderByDesc leb eqb field x y → orderByDesc leb eqb field y z →
  orderByDesc leb eqb field x z.
Proof.
  unfold orderByDesc.
  assert (Hfalse : ∀ a b, eqb a b = false → leb a b = true → leb b a = true → False).
  { intros a b Hab H1 H2. apply not_true_iff_false in Hab. by apply Hab, eqb_leb_iff. }
  destruct (eqb (field x.2) (field y.2)) eqn:Hxy,
    (eqb (field y.2) (field z.2)) eqn:Hyz,
    (eqb (field x.2) (field z.2)) eqn:Hxz; intros H1 H2;
    try apply eqb_leb_iff in Hxy as [Hxy1 Hxy2];
    try apply eqb_leb_iff in Hyz as [Hyz1 Hyz2];
    try apply eqb_leb_iff in Hxz as [Hxz1 Hxz2].
  - eapply String_leb_trans; [exact H2|exact H1].
  - exact (leb_trans _ _ _ Hyz2 Hxy2).
  - exfalso. apply (Hfalse _ _ Hyz); [exact (leb_trans _ _ _ Hxy2 Hxz1)|exact H2].
  - exact (leb_trans _ _ _ H2 Hxy2).
  - exfalso. apply (Hfalse _ _ Hxy); [exact (leb_trans _ _ _ Hxz1 Hyz2)|exact H1].
  - exact (leb_trans _ _ _ Hyz2 H1).
  - exfalso. apply (Hfalse _ _ Hxy); [exact (leb_trans _ _ _ Hxz1 H2)|exact H1].
  - exact (leb_trans _ _ _ H2 H1).
Qed.

Lemma orderByDesc_refl x : orderByDesc leb eqb field x x.
Proof.
  unfold orderByDesc.
  destruct (eqb (field x.2) (field x.2)) eqn:Hxx; [apply String_leb_refl|].
  by destruct (leb_total (field x.2) (field x.2)).
Qed.

(** Two snapshots that the order puts either way round have the same id. *)
Lemma orderByDesc_antisym_id x y :
  orderByDesc leb eqb field x y → orderByDesc leb eqb field y x → x.1 = y.1.
Proof.
  unfold orderByDesc. rewrite (orderByDesc_eqb_sym (field y.2)).
  destruct (eqb (field x.2) (field y.2)) eqn:Hxy; intros H1 H2.
  - by apply String.leb_antisym.
  - apply not_true_iff_false in Hxy. exfalso. by apply Hxy, eqb_leb_iff.
Qed.

Lemma runQuery_StronglySorted (condition : D → Prop) `{!∀ d, Decision (condition d)}
    (collection : gmap string D) :
  StronglySorted (orderByDesc leb eqb field)
    (runQuery (orderByDesc leb eqb field) condition collection).
Proof.
  apply StronglySorted_merge_sort.
  - intros x y z. apply orderByDesc_trans.
  - apply orderByDesc_total; [done|apply orderByDesc_eqb_sym].
Qed.

(** [startAfter(cursor)] on an ordered query: when [cursor] is the
    snapshot that ends the first [m] documents, what comes after it is the
    rest. *)
Lemma startAfter_drop (condition : D → Prop) `{!∀ d, Decision (condition d)}
    (collection : gmap string D) (m : nat) cursor :
  let ordered := runQuery (orderByDesc leb eqb field) condition collection in
  last (take m ordered) = Some cursor →
  filter (λ x, ¬ orderByDesc leb eqb field x cursor) ordered = drop m ordered.
Proof.
  intros ordered Hlast.
  pose proof (runQuery_StronglySorted condition collection) as Hsorted.
  pose proof (runQuery_NoDup_ids (orderByDesc leb eqb field) condition collection)
    as Hnodup.
  fold ordered in Hsorted, Hnodup.
  rewrite <-(take_drop m ordered) in Hsorted, Hnodup.
  rewrite <-(take_drop m ordered) at 1.
  apply last_Some in Hlast as [before Hbefore]. rewrite Hbefore in *.
  rewrite filter_app, filter_none, filter_all; [done|..].
  - intros x Hx Hrel.
    assert (Hcx : orderByDesc leb eqb field cursor x).
    { apply (StronglySorted_app_1_elem_of _ _ _ _ _ Hsorted); [|done].
      apply elem_of_app. right. by left. }
    pose proof (orderByDesc_antisym_id _ _ Hrel Hcx) as Hid.
    rewrite fmap_app in Hnodup. apply NoDup_app in Hnodup as (_ & Hdisj & _).
    apply (Hdisj cursor.1).
    + apply list_elem_of_fmap_2. apply elem_of_app. right. by left.
    + rewrite <-Hid. by apply list_elem_of_fmap_2.
  - intros x [Hx | ->%list_elem_of_singleton]%elem_of_app Hrel; apply Hrel.
    + apply StronglySorted_app_1_l in Hsorted.
      apply (StronglySorted_app_1_elem_of _ _ _ _ _ Hsorted); [done|by left].
    + apply orderByDesc_refl.
Qed.

End OrderByDescOrder.

Lemma Timestamp_eqb_leb_iff (a b : Timestamp.t) :
  Timestamp_eqb a b = true ↔ Timestamp_leb a b = true ∧ Timestamp_leb b a = true.
Proof.
  unfold Timestamp_eqb. rewrite andb_true_iff, !Z.eqb_eq, !Timestamp_leb_le. lia.
Qed.

(** X19. Once [resolveEvent] has succeeded on a document, the queries for
    open events no longer see it: every event that [getUnresolvedEvents]
    or [getCriticalEvents] returns afterwards is stored under another id,
    resolving an open high-severity event lowers the number of critical
    events by one, and [getAllEvents] returns as many events as before. *)
Theorem resolveEvent_leaves_open_queries :
  ∀ now docId resolvedBy notes db db',
    resolveEvent now docId resolvedBy notes db = Ok db' →
    (∀ maxResults fetched e,
       getUnresolvedEvents maxResults db' = Ok fetched → e ∈ fetched →
       ∃ other, other ≠ docId ∧ getEventById other db = Some e)
    ∧ (∀ e, e ∈ getCriticalEvents db' →
         ∃ other, other ≠ docId ∧ getEventById other db = Some e)
    ∧ (∀ e0, getEventById docId db = Some e0 → DrowsinessEventDoc.resolved e0 = false →
         DrowsinessEventDoc.severity e0 = high →
         length (getCriticalEvents db) = S (length (getCriticalEvents db')))
    ∧ (∀ maxResults, length <$> getAllEvents maxResults db'
                     = length <$> getAllEvents maxResults db).
Proof.
  intros now docId resolvedBy notes db db'.
  unfold resolveEvent, updateDoc_drowsinessEvents, getEventById.
  destruct (drowsinessEvents db !! docId) as [e0|] eqn:He0; [|done].
  intros [= <-].
  set (e1 := {| DrowsinessEventDoc.resolved := true |}).
  assert (Hother : ∀ other e,
            drowsinessEvents (with_drowsinessEvents (insert docId e1) db) !! other = Some e →
            DrowsinessEventDoc.resolved e = false →
            other ≠ docId ∧ drowsinessEvents db !! other = Some e).
  { intros other e. cbn. destruct (decide (other = docId)) as [->|Hne].
    - rewrite lookup_insert_eq. by intros [= <-].
    - rewrite lookup_insert_ne by done. done. }
  split_and!.
  - intros maxResults fetched e. unfold getUnresolvedEvents.
    intros [_ ->]%fmap_limit_Ok_inv ([other e'] & -> & Hin)%list_elem_of_fmap.
    apply subseteq_take in Hin. apply runQuery_elem in Hin as [Hin Hres].
    exists other. by apply Hother.
  - intros e ([other e'] & -> & Hin)%list_elem_of_fmap.
    apply runQuery_elem in Hin as [Hin [_ Hres]].
    exists other. by apply Hother.
  - intros e [= <-] Hres Hsev.
    unfold getCriticalEvents. rewrite !length_fmap, !runQuery_length. cbn.
    pose proof (countWhere_update
                  (λ e, DrowsinessEventDoc.severity e = high
                        ∧ DrowsinessEventDoc.resolved e = false)
                  (drowsinessEvents db) docId e0 e1 He0) as Hcount.
    rewrite decide_True in Hcount by done.
    rewrite decide_False in Hcount by (cbn; intros [_ ?]; done). lia.
  - intros [|maxResults]; [done|]. unfold getAllEvents.
    rewrite !fmap_limit_Ok by lia. unfold docs_data. cbn [fmap result_fmap]. f_equal.
    rewrite !length_fmap, !length_take, !runQuery_length.
    cbn [drowsinessEvents with_drowsinessEvents].
    pose proof (countWhere_update (λ _ : DrowsinessEventDoc.t, True)
                  (drowsinessEvents db) docId e0 e1 He0) as Hcount.
    rewrite !decide_True in Hcount by done. lia.
Qed.

Lemma resolveEvent_leaves_open_queries_witness :
  let db := (createEvent 1730000000000 "w2Hs9"
               (CreateEventData.mk "DRV001" "John Mitchell" ds_sleeping high
                  None None None None None) emptyFirestore).2 in
  let db' := keepOnError
               (resolveEvent (Timestamp.mk 1730000090 0) "w2Hs9" "operator1" None db) db in
  length (getCriticalEvents db) = S (length (getCriticalEvents db')).
Proof.
  intros db db'.
  destruct (resolveEvent_leaves_open_queries (Timestamp.mk 1730000090 0) "w2Hs9"
              "operator1" None db db') as (_ & _ & Hcount & _).
  - vm_compute. reflexivity.
  - eapply Hcount; vm_compute; reflexivity.
Defined.

(** X20. [getRecentEvents(hours)] succeeds and returns at most 200 stored
    events, each with a start time between [hours] hours before the first
    reading of the clock and its second reading, newest first; and, when
    fewer than 200 are returned, an event that [createEvent] stored is
    among them exactly when its start (the one given, or the clock's at
    creation) lies in that window. *)
Theorem getRecentEvents_window :
  ∀ hours now later db,
    let since := now - hours * 3600000 in
    ∃ result, getRecentEvents hours now later db = Ok result
    ∧ (length result ≤ 200)%nat
    ∧ (∀ e, e ∈ result →
         (∃ docId, getEventById docId db = Some e)
         ∧ Timestamp_leb (Timestamp.fromDate since) (DrowsinessEventDoc.startTime e) = true
         ∧ Timestamp_leb (DrowsinessEventDoc.startTime e) (Timestamp.fromDate later) = true)
    ∧ (∀ i j e1 e2, (i < j)%nat → result !! i = Some e1 → result !! j = Some e2 →
         Timestamp_leb (DrowsinessEventDoc.startTime e2) (DrowsinessEventDoc.startTime e1)
         = true)
    ∧ (∀ now0 newId data db0 e,
         db = (createEvent now0 newId data db0).2 →
         getEventById newId db = Some e →
         (length result < 200)%nat →
         (e ∈ result ↔ since ≤ default now0 (CreateEventData.startTime data) ≤ later)).
Proof.
  intros hours now later db since. eexists. split.
  { unfold getRecentEvents, getEventsByTimeRange. cbv zeta.
    rewrite fmap_limit_Ok by lia. reflexivity. }
  unfold docs_data.
  replace (now - hours * 60 * 60 * 1000) with since by (subst since; lia).
  destruct (limit_query_spec Timestamp_leb Timestamp_eqb DrowsinessEventDoc.startTime
              Timestamp_leb_total Timestamp_leb_trans Timestamp_eqb_sym Timestamp_eqb_leb
              (λ e, Timestamp_leb (Timestamp.fromDate since)
                      (DrowsinessEventDoc.startTime e) = true
                    ∧ Timestamp_leb (DrowsinessEventDoc.startTime e)
                        (Timestamp.fromDate later) = true)
              (drowsinessEvents db) 200)
    as (Hlen & Hin & Hsorted & _ & Hall).
  split_and!.
  - etrans; [apply Nat.eq_le_incl, Hlen|]. lia.
  - intros e (docId & Hdoc & Hsince & Hnow)%Hin. split; [by exists docId|done].
  - exact Hsorted.
  - intros now0 newId data db0 e -> He Hshort.
    assert (Hstart : DrowsinessEventDoc.startTime e
                     = Timestamp.fromDate (default now0 (CreateEventData.startTime data))).
    { revert He. unfold getEventById, createEvent. cbn. rewrite lookup_insert_eq.
      intros [= <-]. cbn. by destruct (CreateEventData.startTime data). }
    split.
    + intros (_ & _ & Hsince & Hnow)%Hin. rewrite Hstart, !fromDate_leb in *. lia.
    + intros [Hsince Hnow]. apply (Hall Hshort newId e He).
      rewrite Hstart, !fromDate_leb. done.
Qed.

(** X21. Paging through the events.  [getEventsPaginated(0, ...)] is
    rejected, the SDK refusing the limit.  For a positive [pageSize] the
    first page is [getAllEvents(pageSize)]; and the page asked for with
    the cursor that ends the first [m] events of the order holds the
    [pageSize] events that follow them, so a page and its successor never
    share an event and together are [getAllEvents(m + pageSize)]. *)
Theorem getEventsPaginated_continues :
  ∀ db,
    (∀ lastDoc, getEventsPaginated 0 lastDoc db = Err (invalid_argument "limit"))
    ∧ ∀ pageSize, (0 < pageSize)%nat →
        fst <$> getEventsPaginated pageSize None db = getAllEvents pageSize db
        ∧ (∀ m cursor,
             last (take m (runQuery startTime_desc (λ _, True) (drowsinessEvents db)))
             = Some cursor →
             ∃ before page next,
               getAllEvents m db = Ok before
               ∧ getEventsPaginated pageSize (Some cursor) db = Ok (page, next)
               ∧ getAllEvents (m + pageSize) db = Ok (before ++ page))
        ∧ (∀ first cursor,
             getEventsPaginated pageSize None db = Ok (first, Some cursor) →
             ∃ page next,
               getEventsPaginated pageSize (Some cursor) db = Ok (page, next)
               ∧ getAllEvents (pageSize + pageSize) db = Ok (first ++ page)).
Proof.
  intros db. split; [by intros [cursor|]|]. intros pageSize Hpos.
  assert (Hcont : ∀ m cursor,
         last (take m (runQuery startTime_desc (λ _, True) (drowsinessEvents db)))
         = Some cursor →
         ∃ before page next,
           getAllEvents m db = Ok before
           ∧ getEventsPaginated pageSize (Some cursor) db = Ok (page, next)
           ∧ getAllEvents (m + pageSize) db = Ok (before ++ page)).
  { intros m cursor Hlast.
    assert (0 < m)%nat as Hm by (destruct m; [done|lia]).
    unfold getEventsPaginated, getAllEvents. cbv zeta.
    rewrite !fmap_limit_Ok by lia. eexists _, _, _.
    split; [reflexivity|]. split; [reflexivity|]. f_equal. unfold docs_data.
    pose proof (startAfter_drop Timestamp_leb Timestamp_eqb DrowsinessEventDoc.startTime
                  Timestamp_leb_total Timestamp_leb_trans Timestamp_eqb_leb_iff
                  (λ _, True) (drowsinessEvents db) m cursor Hlast) as Hdrop.
    cbv zeta in Hdrop. unfold startTime_desc. rewrite Hdrop.
    rewrite <-fmap_app. f_equal. symmetry. apply take_take_drop. }
  split_and!.
  - unfold getEventsPaginated, getAllEvents. cbv zeta. by rewrite !fmap_limit_Ok by lia.
  - exact Hcont.
  - intros first cursor. unfold getEventsPaginated at 1. cbv zeta.
    rewrite fmap_limit_Ok by lia. intros [= <- Hlast].
    destruct (Hcont pageSize cursor Hlast) as (before & page & next & Hbefore & Hpage & Hall).
    exists page, next. split; [done|]. rewrite Hall. f_equal. f_equal.
    revert Hbefore. unfold getAllEvents. rewrite fmap_limit_Ok by lia. by intros [= <-].
Qed.

(** * Further properties of realtimeService and of the hooks *)

Section LiveEntryFacts.

Implicit Types (db : RealtimeDb) (entry : gmap string JsonValue).

Lemma removeDriverFromLive_entry now driverId db :
  removeDriverFromLive now driverId db !! driverId
  = Some (delete "sessionStart"
            (<["lastUpdated" := JNumber now]>
               (<["status" := JString "offline"]> (default ∅ (db !! driverId))))).
Proof. unfold removeDriverFromLive. by rewrite lookup_insert_eq. Qed.

End LiveEntryFacts.

(** X22. For a driver id that is the key of one child of the node,
    [setDriverLiveStatus] replaces the whole entry of the driver: whatever
    was stored, the entry afterwards holds the driver's id and name, the
    status, [lastUpdated] with the clock's first reading, and
    [sessionStart] with its second reading exactly when the status is not
    offline, and no other field; the other drivers' entries stay. *)
Theorem setDriverLiveStatus_replaces :
  ∀ (now started : Z) (driverId driverName : string) (status : LiveDriverStatus)
    (db : RealtimeDb),
    validKey driverId →
    ∃ entry,
      setDriverLiveStatus now started driverId driverName status db !! driverId = Some entry
      ∧ entry !! "driverId" = Some (JString driverId)
      ∧ entry !! "driverName" = Some (JString driverName)
      ∧ entry !! "status" = Some (JString (statusName status))
      ∧ entry !! "lastUpdated" = Some (JNumber now)
      ∧ entry !! "sessionStart"
        = (if decide (status = live_offline) then None else Some (JNumber started))
      ∧ (∀ field : string,
           field ∉ ["driverId"; "driverName"; "status"; "lastUpdated"; "sessionStart"] →
           entry !! field = None)
      ∧ (∀ other : string, other ≠ driverId →
           setDriverLiveStatus now started driverId driverName status db !! other
           = db !! other).
Proof.
  intros now started driverId driverName status db _. eexists. split.
  { apply setDriverLiveStatus_entry. }
  split_and!.
  - destruct status; reflexivity.
  - destruct status; reflexivity.
  - destruct status; reflexivity.
  - destruct status; reflexivity.
  - destruct status; reflexivity.
  - intros field Hfield.
    assert (field ≠ "driverId" ∧ field ≠ "driverName" ∧ field ≠ "status"
            ∧ field ≠ "lastUpdated" ∧ field ≠ "sessionStart") as (? & ? & ? & ? & ?).
    { rewrite !not_elem_of_cons in Hfield. tauto. }
    unfold rtdb_update. cbn [foldl fst snd].
    destruct (decide (status ≠ live_offline));
      rewrite ?lookup_delete_ne, ?lookup_insert_ne by done; apply lookup_empty.
  - intros other Hne. unfold setDriverLiveStatus. by rewrite lookup_insert_ne.
Qed.

Lemma setDriverLiveStatus_replaces_witness :
  let db : RealtimeDb :=
    setDriverLiveStatus 1730000000000 1730000000000 "DRV001" "John Mitchell" live_drowsy ∅ in
  let db' := setDriverLiveStatus 1730000009000 1730000009001 "DRV002" "Sarah Chen"
               live_alert db in
  validKey "DRV002"
  ∧ ∃ entry, db' !! "DRV002" = Some entry
      ∧ entry !! "lastUpdated" = Some (JNumber 1730000009000)
      ∧ entry !! "sessionStart" = Some (JNumber 1730000009001)
      ∧ db' !! "DRV001" = db !! "DRV001".
Proof.
  intros db db'.
  assert (validKey "DRV002") as Hkey.
  { unfold validKey. split; [discriminate|]. split; [cbn; lia|reflexivity]. }
  split; [exact Hkey|].
  destruct (setDriverLiveStatus_replaces 1730000009000 1730000009001 "DRV002" "Sarah Chen"
              live_alert db Hkey)
    as (entry & Hentry & _ & _ & _ & Hupdated & Hsession & _ & Hother).
  exists entry. split; [exact Hentry|]. split; [exact Hupdated|].
  split; [exact Hsession|]. apply Hother. discriminate.
Defined.

(** X23. [removeDriverFromLive] does not delete the driver's entry: on a
    stored entry it sets the status to offline, stamps [lastUpdated],
    removes [sessionStart] and keeps every other field; and taken after
    [setDriverLiveStatus] it leaves exactly what
    [setDriverLiveStatus(.., 'offline')] would have written. *)
Theorem removeDriverFromLive_neutralizes :
  (∀ (now : Z) (driverId : string) (db : RealtimeDb) (entry : gmap string JsonValue),
     db !! driverId = Some entry →
     ∃ entry', removeDriverFromLive now driverId db !! driverId = Some entry'
       ∧ entry' !! "status" = Some (JString "offline")
       ∧ entry' !! "lastUpdated" = Some (JNumber now)
       ∧ entry' !! "sessionStart" = None
       ∧ (∀ field : string, field ≠ "status" → field ≠ "lastUpdated" →
            field ≠ "sessionStart" → entry' !! field = entry !! field))
  ∧ (∀ (t started now unread : Z) (driverId driverName : string)
       (status : LiveDriverStatus) (db : RealtimeDb),
       removeDriverFromLive now driverId
         (setDriverLiveStatus t started driverId driverName status db)
       = setDriverLiveStatus now unread driverId driverName live_offline db).
Proof.
  split.
  - intros now driverId db entry Hentry. eexists. split.
    { rewrite removeDriverFromLive_entry, Hentry. reflexivity. }
    cbn [default]. split_and!.
    + rewrite lookup_delete_ne by done. rewrite lookup_insert_ne by done.
      apply lookup_insert_eq.
    + rewrite lookup_delete_ne by done. apply lookup_insert_eq.
    + apply lookup_delete_eq.
    + intros field Hs Hl Hss. by rewrite lookup_delete_ne, !lookup_insert_ne.
  - intros t started now unread driverId driverName status db.
    unfold removeDriverFromLive. rewrite setDriverLiveStatus_entry. cbn [default].
    unfold setDriverLiveStatus. rewrite insert_insert_eq. f_equal.
    apply map_eq. intros field.
    destruct (decide (field = "sessionStart")) as [->|?];
      [by destruct status|].
    destruct (decide (field = "lastUpdated")) as [->|?];
      [by destruct status|].
    destruct (decide (field = "status")) as [->|?];
      [by destruct status|].
    destruct (decide (field = "driverName")) as [->|?];
      [by destruct status|].
    destruct (decide (field = "driverId")) as [->|?];
      [by destruct status|].
    unfold rtdb_update, id. cbn [foldl fst snd].
    destruct (decide (status ≠ live_offline)), (decide (live_offline ≠ live_offline));
      try done;
      rewrite ?lookup_delete_ne, ?lookup_insert_ne by done; reflexivity.
Qed.

Lemma removeDriverFromLive_neutralizes_witness :
  let db : RealtimeDb := setDriverLiveStatus 1730000000000 1730000000000 "DRV001"
                           "John Mitchell" live_drowsy ∅ in
  ∃ entry', removeDriverFromLive 1730000007000 "DRV001" db !! "DRV001" = Some entry'
    ∧ entry' !! "status" = Some (JString "offline")
    ∧ entry' !! "sessionStart" = None
    ∧ entry' !! "driverName" = Some (JString "John Mitchell").
Proof.
  intros db.
  destruct removeDriverFromLive_neutralizes as [Hremove _].
  destruct (Hremove 1730000007000 "DRV001" db
              (rtdb_update
                 [("driverId", Some (JString "DRV001"));
                  ("driverName", Some (JString "John Mitchell"));
                  ("status", Some (JString "drowsy"));
                  ("lastUpdated", Some (JNumber 1730000000000));
                  ("sessionStart", Some (JNumber 1730000000000))] ∅))
    as (entry' & Hlookup & Hstatus & _ & Hsession & Hrest).
  - vm_compute. reflexivity.
  - exists entry'. split_and!; try done.
    rewrite Hrest by done. vm_compute. reflexivity.
Defined.



Section MergeFacts.

Implicit Types (db : RealtimeDb) (entry : gmap string JsonValue).





End MergeFacts.



Section LiveAlertFacts.

Implicit Types (node : gmap Z LiveAlert.t) (pushes : list (Z * Z * PushLiveAlertData.t)).

Lemma pushLiveAlerts_dom pushes node :
  dom (pushLiveAlerts pushes node) = list_to_set ((λ p, p.1.1) <$> pushes) ∪ dom node.
Proof.
  revert node. induction pushes as [|p pushes IH]; intros node.
  - cbn. by rewrite (left_id_L ∅ (∪)).
  - unfold pushLiveAlerts in *. cbn [foldl]. rewrite IH. unfold pushLiveAlert.
    rewrite dom_insert_L, fmap_cons. cbn [list_to_set].
    rewrite (assoc_L (∪)). f_equal. apply (comm_L (∪)).
Qed.

End LiveAlertFacts.

(** X26. Live alerts are stored under the clock's reading at the push, so
    a push at a reading already used replaces the alert stored there: after
    any run of pushes on an empty node the number of stored alerts is the
    number of distinct readings, which is the number of pushes exactly when
    no two pushes read the same millisecond; the alert kept under a reading
    is the last one pushed at it; and [clearLiveAlerts] leaves nothing. *)
Theorem pushLiveAlert_keyed_by_clock :
  ∀ (pushes : list (Z * Z * PushLiveAlertData.t)),
    let keys := (λ p : Z * Z * PushLiveAlertData.t, p.1.1) <$> pushes in
    size (pushLiveAlerts pushes ∅) = size (list_to_set keys : gset Z)
    ∧ (size (pushLiveAlerts pushes ∅) ≤ length pushes)%nat
    ∧ (size (pushLiveAlerts pushes ∅) = length pushes ↔ NoDup keys)
    ∧ (∀ key stamp alert node,
         ∃ stored, pushLiveAlerts (pushes ++ [(key, stamp, alert)]) node !! key = Some stored
           ∧ LiveAlert.message stored = PushLiveAlertData.message alert
           ∧ LiveAlert.timestamp stored = stamp
           ∧ LiveAlert.dismissed stored = false)
    ∧ clearLiveAlerts (pushLiveAlerts pushes ∅) = ∅.
Proof.
  intros pushes keys.
  assert (Hsize : size (pushLiveAlerts pushes ∅) = size (list_to_set keys : gset Z)).
  { rewrite <-size_dom, pushLiveAlerts_dom, dom_empty_L. by rewrite (right_id_L ∅ (∪)). }
  assert (Hlen : length keys = length pushes) by apply length_fmap.
  split_and!.
  - exact Hsize.
  - rewrite Hsize, <-Hlen. clear. induction keys as [|k keys IH]; [done|].
    cbn [list_to_set length]. rewrite size_union_alt, size_singleton.
    pose proof (subseteq_size (list_to_set keys ∖ {[k]}) (list_to_set keys : gset Z)
                  (subseteq_difference_l _ _ _ (reflexivity _))). lia.
  - rewrite Hsize, <-Hlen. clear. split.
    + induction keys as [|k keys IH]; [constructor|].
      cbn [list_to_set length]. rewrite size_union_alt, size_singleton. intros Hsz.
      assert (Hle : (size (list_to_set keys : gset Z) ≤ length keys)%nat).
      { clear. induction keys as [|k' keys IH]; [done|]. cbn [list_to_set length].
        rewrite size_union_alt, size_singleton.
        pose proof (subseteq_size (list_to_set keys ∖ {[k']}) (list_to_set keys : gset Z)
                      (subseteq_difference_l _ _ _ (reflexivity _))). lia. }
      pose proof (subseteq_size (list_to_set keys ∖ {[k]}) (list_to_set keys : gset Z)
                    (subseteq_difference_l _ _ _ (reflexivity _))) as Hsub.
      assert (Hdiff : size (list_to_set keys ∖ {[k]} : gset Z)
                      = size (list_to_set keys : gset Z)) by lia.
      constructor.
      * intros Hin. apply (elem_of_list_to_set (C:=gset Z)) in Hin.
        pose proof (size_difference (list_to_set keys : gset Z) {[k]}
                      ltac:(by apply singleton_subseteq_l)) as Hd.
        rewrite size_singleton in Hd.
        assert (size (list_to_set keys : gset Z) ≠ 0%nat); [|lia].
        intros Hempty%size_empty_inv. apply (not_elem_of_empty (C:=gset Z) k).
        by apply (Hempty k).
      * apply IH. lia.
    + intros Hnodup. by apply size_list_to_set.
  - intros key stamp alert node. unfold pushLiveAlerts. rewrite foldl_snoc. cbn.
    eexists. split; [apply lookup_insert_eq|]. by cbn.
  - reflexivity.
Qed.

Section HookMetricsFacts.

Implicit Types (events : list DrowsinessEvent.t) (dws : list DriverWithStatus.t).

Lemma length_filter_impl {A} (P Q : A → Prop) `{!∀ x, Decision (P x)}
    `{!∀ x, Decision (Q x)} (l : list A) :
  (∀ x, P x → Q x) → (length (filter P l) ≤ length (filter Q l))%nat.
Proof.
  intros Himpl. induction l as [|x l IH]; [done|]. rewrite !filter_cons.
  destruct (decide (P x)) as [HP|HP].
  - rewrite decide_True by auto. cbn. lia.
  - destruct (decide (Q x)); cbn; lia.
Qed.

Lemma hook_duration_fold (docs : list DrowsinessEventDoc.t) (a : Z) :
  foldl (λ acc e, acc + match DrowsinessEvent.duration e with
                        | Some n => if n =? 0 then 0 else n
                        | None => 0
                        end) a (toFrontendEvents docs)
  = a + totalDurationOf docs.
Proof.
  revert a. induction docs as [|d docs IH]; intros a; [cbn; lia|].
  cbn [toFrontendEvents fmap list_fmap foldl]. unfold toFrontendEvents in IH.
  rewrite IH. cbn [toFrontendEvent DrowsinessEvent.duration].
  change (totalDurationOf (d :: docs))
    with (default 0 (DrowsinessEventDoc.duration d) + totalDurationOf docs).
  destruct (DrowsinessEventDoc.duration d) as [n|]; cbn; [|lia].
  destruct (Z.eqb_spec n 0); lia.
Qed.

End HookMetricsFacts.

(** X27. The metrics of [useDashboardMetrics]: drowsy or sleeping drivers
    are counted among the active ones, and these among all drivers;
    high-severity events are at most all events; the trend it reports is
    the constant -12.  Over the events that [toFrontendEvents] makes of a
    batch, the hook's two counts are those that [computeDailyStats] stores
    for the batch, and so is its average duration when every duration of
    the batch that is not null is a safe integer (so not NaN, which the
    hook's [|| 0] would count as 0 and the service's [?? 0] would keep). *)
Theorem useDashboardMetrics_consistent :
  ∀ events dws,
    let m := useDashboardMetrics events dws in
    (HookMetrics.drowsyDriversCount m ≤ HookMetrics.activeDrivers m)%nat
    ∧ (HookMetrics.activeDrivers m ≤ HookMetrics.totalDrivers m)%nat
    ∧ (HookMetrics.highSeverityEvents m ≤ HookMetrics.totalEvents m)%nat
    ∧ HookMetrics.trendPercentage m = -12
    ∧ (∀ (localOffsetMs : Date → Z) now date docs,
         events = toFrontendEvents docs →
         let stats := dailyStatsOf localOffsetMs now date docs in
         HookMetrics.totalEvents m = DailyStatsDoc.totalEvents stats
         ∧ HookMetrics.highSeverityEvents m = DailyStatsDoc.highSeverityEvents stats
         ∧ (Forall (λ doc, ∀ s, DrowsinessEventDoc.duration doc = Some s →
                             JS.isSafeInteger s) docs →
            HookMetrics.avgDuration m = DailyStatsDoc.averageDuration stats)).
Proof.
  intros events dws m. subst m. unfold useDashboardMetrics. cbv zeta.
  cbn [HookMetrics.drowsyDriversCount HookMetrics.activeDrivers HookMetrics.totalDrivers
       HookMetrics.highSeverityEvents HookMetrics.totalEvents HookMetrics.trendPercentage
       HookMetrics.avgDuration].
  split_and!.
  - apply length_filter_impl. intros d [-> | ->]; discriminate.
  - apply length_filter.
  - apply length_filter.
  - reflexivity.
  - intros localOffsetMs now date docs ->.
    destruct (dailyLoop_counts localOffsetMs docs) as (Hh & _ & _ & Hdur & _).
    cbn [dailyStatsOf DailyStatsDoc.totalEvents DailyStatsDoc.highSeverityEvents
         DailyStatsDoc.averageDuration].
    rewrite Hh, Hdur, hook_duration_fold.
    unfold toFrontendEvents. rewrite length_fmap. split_and!; [done| |done].
    clear. induction docs as [|d docs IH]; [done|].
    rewrite fmap_cons, !filter_cons. cbn [toFrontendEvent DrowsinessEvent.severity].
    destruct (decide (DrowsinessEventDoc.severity d = high)); cbn; by rewrite IH.
Qed.

(** * Properties of driverService *)

Section DriverQueries.

#[local] Instance docId_asc_total : Total docId_asc.
Proof. intros x y. unfold docId_asc. apply String.leb_total. Qed.

#[local] Instance docId_asc_trans : Transitive docId_asc.
Proof. intros x y z. unfold docId_asc. apply String_leb_trans. Qed.

(** [getDriverByDriverId] answers with the matching document of smallest
    document id, and with null only if no document matches. *)
Lemma getDriverByDriverId_spec (driverId : string) (drivers : Drivers) :
  match getDriverByDriverId driverId drivers with
  | Some d =>
      ∃ docId, drivers !! docId = Some d ∧ DriverDoc.driverId d = driverId
        ∧ ∀ docId' d', drivers !! docId' = Some d' → DriverDoc.driverId d' = driverId →
            String.leb docId docId' = true
  | None => ∀ docId d, drivers !! docId = Some d → DriverDoc.driverId d ≠ driverId
  end.
Proof.
  unfold getDriverByDriverId.
  pose proof (runQuery_elem docId_asc (λ d, DriverDoc.driverId d = driverId) drivers) as Helem.
  assert (StronglySorted docId_asc
            (runQuery docId_asc (λ d, DriverDoc.driverId d = driverId) drivers)) as Hsorted.
  { apply Sorted_StronglySorted; [apply _|]. apply Sorted_merge_sort, _. }
  destruct (runQuery docId_asc (λ d, DriverDoc.driverId d = driverId) drivers)
    as [|[k d] l]; cbn.
  - intros docId d Hd Hid. assert ((docId, d) ∈ @nil (string * DriverDoc.t)) as Hin.
    { apply Helem. done. }
    by apply elem_of_nil in Hin.
  - exists k. destruct (proj1 (Helem k d)) as [Hk Hid]; [by left|].
    split_and!; [done..|]. intros k' d' Hk' Hid'.
    assert ((k', d') ∈ (k, d) :: l) as [Heq|Hin]%elem_of_cons by (by apply Helem).
    + injection Heq as -> ->. apply String_leb_refl.
    + apply StronglySorted_inv in Hsorted as [_ Hall].
      rewrite list.Forall_forall in Hall. apply (Hall (k', d') Hin).
Qed.

Lemma getAllDrivers_length (drivers : Drivers) :
  length (getAllDrivers drivers) = size drivers.
Proof.
  unfold getAllDrivers. rewrite length_fmap, runQuery_Permutation.
  rewrite filter_all by done. apply length_map_to_list.
Qed.

Lemma getAllDrivers_elem (drivers : Drivers) d :
  d ∈ getAllDrivers drivers ↔ ∃ docId, drivers !! docId = Some d.
Proof.
  unfold getAllDrivers. rewrite list_elem_of_fmap. split.
  - intros [[k d'] [-> [Hk _]%runQuery_elem]]. by exists k.
  - intros [k Hk]. exists (k, d). split; [done|]. by apply runQuery_elem.
Qed.

Lemma getActiveDrivers_elem (drivers : Drivers) d :
  d ∈ getActiveDrivers drivers
  ↔ ∃ docId, drivers !! docId = Some d ∧ DriverDoc.isActive d = true.
Proof.
  unfold getActiveDrivers. rewrite list_elem_of_fmap. split.
  - intros [[k d'] [-> [Hk Hactive]%runQuery_elem]]. by exists k.
  - intros [k [Hk Hactive]]. exists (k, d). split; [done|]. by apply runQuery_elem.
Qed.

End DriverQueries.

(** X28. Deactivation is a soft delete.  [deactivateDriver] on a stored
    driver clears [isActive] and stamps [updatedAt] and changes nothing
    else: the driver leaves [getActiveDrivers], stays in [getAllDrivers]
    and under its document id, and [reactivateDriver] brings it back.
    [deleteDriver] removes the document, and deactivating or reactivating
    it afterwards is rejected with not-found. *)
Theorem deactivateDriver_soft_delete :
  ∀ now later docId d drivers,
    getDriverById docId drivers = Some d →
    ∃ drivers' d',
      deactivateDriver now docId drivers = Ok drivers'
      ∧ getDriverById docId drivers' = Some d'
      ∧ DriverDoc.isActive d' = false
      ∧ DriverDoc.updatedAt d' = now
      ∧ driverProfile d' = driverProfile d
      ∧ (∀ other, other ≠ docId → getDriverById other drivers' = getDriverById other drivers)
      ∧ d' ∈ getAllDrivers drivers'
      ∧ length (getAllDrivers drivers') = length (getAllDrivers drivers)
      ∧ (∀ x, x ∈ getActiveDrivers drivers'
              ↔ ∃ other, other ≠ docId ∧ getDriverById other drivers = Some x
                         ∧ DriverDoc.isActive x = true)
      ∧ (∃ drivers'' d'',
           reactivateDriver later docId drivers' = Ok drivers''
           ∧ getDriverById docId drivers'' = Some d''
           ∧ DriverDoc.isActive d'' = true
           ∧ DriverDoc.updatedAt d'' = later
           ∧ driverProfile d'' = driverProfile d
           ∧ d'' ∈ getActiveDrivers drivers'')
      ∧ getDriverById docId (deleteDriver docId drivers) = None
      ∧ (∀ other, other ≠ docId →
           getDriverById other (deleteDriver docId drivers) = getDriverById other drivers)
      ∧ deactivateDriver later docId (deleteDriver docId drivers)
        = Err (not_found "drivers" docId)
      ∧ reactivateDriver later docId (deleteDriver docId drivers)
        = Err (not_found "drivers" docId).
Proof.
  intros now later docId d drivers Hd. unfold getDriverById in *.
  unfold deactivateDriver, reactivateDriver, updateDriver. rewrite Hd.
  cbn [setActive DriverUpdates.driverId DriverUpdates.driverName DriverUpdates.age
       DriverUpdates.experience DriverUpdates.isActive DriverUpdates.email
       DriverUpdates.phone DriverUpdates.licenseNumber DriverUpdates.vehicleId
       DriverUpdates.profileImageUrl default].
  eexists _, _. split; [reflexivity|].
  rewrite lookup_insert_eq. split; [reflexivity|].
  split_and!; try reflexivity.
  - intros other Hother. by rewrite lookup_insert_ne.
  - apply getAllDrivers_elem. exists docId. by rewrite lookup_insert_eq.
  - rewrite !getAllDrivers_length.
    rewrite map_size_insert_Some; [done|by rewrite Hd].
  - intros x. rewrite getActiveDrivers_elem. split.
    + intros [k [Hk Hactive]]. destruct (decide (k = docId)) as [->|Hne].
      * rewrite lookup_insert_eq in Hk. injection Hk as <-. done.
      * rewrite lookup_insert_ne in Hk by done. by exists k.
    + intros [k (Hne & Hk & Hactive)]. exists k. by rewrite lookup_insert_ne.
  - eexists _, _. split; [reflexivity|].
    rewrite lookup_insert_eq. split; [reflexivity|].
    split_and!; try reflexivity.
    apply getActiveDrivers_elem. exists docId. by rewrite lookup_insert_eq.
  - apply lookup_delete_eq.
  - intros other Hother. unfold deleteDriver. by rewrite lookup_delete_ne.
  - unfold deleteDriver. by rewrite lookup_delete_eq.
  - unfold deleteDriver. by rewrite lookup_delete_eq.
Qed.

Lemma deactivateDriver_soft_delete_witness :
  let drivers : Drivers := {[ "k3JdP0aXqLm7" := sampleDriver ]} in
  ∃ drivers' d',
    deactivateDriver (Timestamp.fromDate 1730000600000) "k3JdP0aXqLm7" drivers = Ok drivers'
    ∧ getDriverById "k3JdP0aXqLm7" drivers' = Some d'
    ∧ DriverDoc.isActive d' = false
    ∧ getActiveDrivers drivers' = [].
Proof.
  destruct (deactivateDriver_soft_delete (Timestamp.fromDate 1730000600000)
              (Timestamp.fromDate 1730000900000) "k3JdP0aXqLm7" sampleDriver
              {[ "k3JdP0aXqLm7" := sampleDriver ]})
    as (drivers' & d' & Hok & Hget & Hactive & _).
  { vm_compute. reflexivity. }
  exists drivers', d'. split_and!; [exact Hok|exact Hget|exact Hactive|].
  injection Hok as <-. vm_compute. reflexivity.
Defined.

(** X29. [getDriverName(driverId)] is the name of the stored driver with
    that [driverId] whose document id is smallest, so with several
    documents sharing a [driverId] the others are never reported; it is
    the fallback text exactly when [getDriverByDriverId] finds nothing,
    which happens only if no stored driver has that [driverId]. *)
Theorem getDriverName_first_match :
  ∀ driverId drivers,
    match getDriverByDriverId driverId drivers with
    | Some d =>
        getDriverName driverId drivers = DriverDoc.driverName d
        ∧ ∃ docId, getDriverById docId drivers = Some d
            ∧ DriverDoc.driverId d = driverId
            ∧ ∀ docId' d', getDriverById docId' drivers = Some d' →
                DriverDoc.driverId d' = driverId → String.leb docId docId' = true
    | None =>
        getDriverName driverId drivers = "Unknown Driver"
        ∧ ∀ docId d, getDriverById docId drivers = Some d → DriverDoc.driverId d ≠ driverId
    end.
Proof.
  intros driverId drivers. unfold getDriverName.
  pose proof (getDriverByDriverId_spec driverId drivers) as Hspec.
  destruct (getDriverByDriverId driverId drivers) as [d|]; split; done.
Qed.

(** X30. [createDriverFromForm] registers an active driver under the id
    [addDoc] generated: the document carries the form's fields, the
    [driverId] DRV followed by the clock in upper-case base 36, [createdAt]
    from the service and [updatedAt] from the converter; it is listed by
    [getAllDrivers] and [getActiveDrivers], the documents already stored
    stay, and if no stored driver had that [driverId] it is the one
    [getDriverByDriverId] and [getDriverName] answer with. *)
Theorem createDriverFromForm_registered :
  ∀ clock now written newId data drivers,
    getDriverById newId drivers = None →
    ∃ d,
      let created := createDriverFromForm clock now written newId data drivers in
      created.1 = newId
      ∧ getDriverById newId created.2 = Some d
      ∧ DriverDoc.driverId d = ("DRV" +:+ JS.toString36Upper (Z.to_N clock))%string
      ∧ toDriver d
        = {| Driver.driverId := DriverDoc.driverId d;
             Driver.driverName := DriverFormData.driverName data;
             Driver.age := DriverFormData.age data;
             Driver.experience := DriverFormData.experience data |}
      ∧ (DriverDoc.email d, DriverDoc.phone d, DriverDoc.licenseNumber d,
         DriverDoc.vehicleId d, DriverDoc.profileImageUrl d)
        = (DriverFormData.email data, DriverFormData.phone data,
           DriverFormData.licenseNumber data, DriverFormData.vehicleId data, None)
      ∧ DriverDoc.isActive d = true
      ∧ DriverDoc.createdAt d = now
      ∧ DriverDoc.updatedAt d = written
      ∧ (∀ other, other ≠ newId → getDriverById other created.2 = getDriverById other drivers)
      ∧ d ∈ getActiveDrivers created.2
      ∧ length (getAllDrivers created.2) = S (length (getAllDrivers drivers))
      ∧ ((∀ docId x, getDriverById docId drivers = Some x →
            DriverDoc.driverId x ≠ DriverDoc.driverId d) →
         getDriverByDriverId (DriverDoc.driverId d) created.2 = Some d
         ∧ getDriverName (DriverDoc.driverId d) created.2 = DriverFormData.driverName data).
Proof.
  intros clock now written newId data drivers Hfresh. unfold getDriverById in *.
  eexists. cbv zeta. unfold createDriverFromForm, createDriver. cbn [fst snd].
  rewrite lookup_insert_eq.
  split; [reflexivity|]. split; [reflexivity|].
  split_and!; try reflexivity.
  - intros other Hother. by rewrite lookup_insert_ne.
  - apply getActiveDrivers_elem. exists newId. by rewrite lookup_insert_eq.
  - rewrite !getAllDrivers_length. by rewrite map_size_insert_None.
  - intros Hunique.
    match goal with |- context [<[newId := ?doc]> drivers] => set (d := doc) in * end.
    assert (getDriverByDriverId (DriverDoc.driverId d) (<[newId := d]> drivers) = Some d)
      as Hfound.
    { pose proof (getDriverByDriverId_spec (DriverDoc.driverId d) (<[newId := d]> drivers))
        as Hspec.
      destruct (getDriverByDriverId (DriverDoc.driverId d) (<[newId := d]> drivers))
        as [x|].
      - destruct Hspec as (k & Hk & Hid & _).
        destruct (decide (k = newId)) as [->|Hne].
        + rewrite lookup_insert_eq in Hk. done.
        + rewrite lookup_insert_ne in Hk by done. by destruct (Hunique k x Hk).
      - destruct (Hspec newId d); [by rewrite lookup_insert_eq|done]. }
    split; [exact Hfound|]. unfold getDriverName. by rewrite Hfound.
Qed.

Lemma createDriverFromForm_registered_witness :
  let data :=
    {| DriverFormData.driverName := "Ravi Kumar"; DriverFormData.age := 41;
       DriverFormData.experience := 15; DriverFormData.email := None;
       DriverFormData.phone := Some "5550100"; DriverFormData.licenseNumber := None;
       DriverFormData.vehicleId := None |} in
  let drivers : Drivers := {[ "k3JdP0aXqLm7" := sampleDriver ]} in
  let created :=
    createDriverFromForm 1730000000000 (Timestamp.fromDate 1730000000000)
      (Timestamp.fromDate 1730000000001) "Zq81LmX0aPd2" data drivers in
  getDriverName "DRVM2R1BZ7K" created.2 = "Ravi Kumar"
  ∧ getDriverName "DRV001" created.2 = "Asha Verma"
  ∧ length (getAllDrivers created.2) = 2%nat.
Proof.
  intros data drivers created.
  destruct (createDriverFromForm_registered 1730000000000 (Timestamp.fromDate 1730000000000)
              (Timestamp.fromDate 1730000000001) "Zq81LmX0aPd2" data drivers)
    as (d & _ & Hget & Hid & _ & _ & _ & _ & _ & _ & _ & Hlen & Hfind).
  { vm_compute. reflexivity. }
  split_and!.
  - vm_compute in Hget. injection Hget as <-. apply Hfind.
    intros docId x Hx. vm_compute.
    unfold getDriverById in Hx. subst drivers.
    apply lookup_singleton_Some in Hx as [_ <-]. vm_compute. discriminate.
  - vm_compute. reflexivity.
  - exact Hlen.
Defined.
